(** * DVH Analytics: data alignment, trend and control-chart logic of
      [dvha/models/plot.py]

    A shallow embedding of the numeric routines that live on the plot classes
    of [dvha/models/plot.py] ([Plot.clean_data], [PlotTimeSeries.update_trend],
    [PlotControlChart.update_plot], [PlotControlChart.get_adjusted_control_chart])
    together with the helpers of [dvha/tools/stats.py] they call, of the CSV
    exports of the time series and of the control chart, of
    [PlotFeatureImportance.set_data] and [PlotMachineLearning.update_data],
    and of the checksum of the options file in [dvha/options.py].

    Python lists are Rocq lists, the [set] of flagged indices is a [gset nat],
    Python floats are the kernel's binary64 floats, and a Python value that can
    sit in a query column is a [pyval]. *)

From Stdlib Require Import ZArith List Floats Sorting.Sorted Sorting.Permutation.
From stdpp Require Import base decidable option list gmap sets strings pretty.

Set Warnings "-inexact-float".

Open Scope string_scope.
Open Scope list_scope.
Open Scope nat_scope.
Import Ascii.AsciiSyntax.
Delimit Scope char_scope with char.

(** ** Python values *)

(** What a cell of a query result can hold: the database layer hands over
    numbers, strings (among them the missing-value marker ['None']) and
    dates (kept here as day ordinals). *)
Inductive pyval : Type :=
  | PyNone
  | PyInt (z : Z)
  | PyFloat (f : float)
  | PyStr (s : string)
  | PyDate (ordinal : Z).

(** [value == 'None']: a string compares equal to a string with the same
    characters and to nothing else. *)
Definition eq_None_str (value : pyval) : bool :=
  match value with
  | PyStr s => bool_decide (s = "None")
  | _ => false
  end.

(** [enumerate(var)] *)
Definition enumerate {A} (var : list A) : list (nat * A) := imap pair var.

(** ** Exceptions *)

(** The Python exceptions that the code can raise, and the two that the spec
    names for the missing [dvha/tools/stats.py]. *)
Inductive exn : Type :=
  | KeyError
  | IndexError
  | TypeError
  | ValueError
  | AttributeError
  | InsufficientDataError
  | NumericInstabilityError.

(** A call either raises or returns. *)
Inductive result (A : Type) : Type :=
  | Raise (e : exn)
  | Return (a : A).
Arguments Raise {A} e.
Arguments Return {A} a.

#[export] Instance result_ret : MRet result := @Return.
#[export] Instance result_bind : MBind result := λ A B f m,
  match m with
  | Raise e => Raise e
  | Return a => f a
  end.
#[export] Instance result_fmap : FMap result := λ A B f m,
  match m with
  | Raise e => Raise e
  | Return a => Return (f a)
  end.

Definition returns {A} (m : result A) : Prop := ∃ a, m = Return a.

(** [l[i]] for a non-negative [i], and [l[-1]]. *)
Definition getitem {A} (l : list A) (i : nat) : result A :=
  match l !! i with
  | Some a => Return a
  | None => Raise IndexError
  end.

Definition getlast {A} (l : list A) : result A :=
  match last l with
  | Some a => Return a
  | None => Raise IndexError
  end.

(** ** Column data sources *)

(** [self.source] is a dictionary of [ColumnDataSource]s; the [data] of each
    is a dictionary from column names to lists. *)
Abbreviation column_data := (gmap string (list pyval)).
Abbreviation sources := (gmap string column_data).

(** [self.source[key].data[col]] *)
Definition column (source : sources) (key col : string) : result (list pyval) :=
  match source !! key with
  | Some data =>
      match data !! col with
      | Some l => Return l
      | None => Raise KeyError
      end
  | None => Raise KeyError
  end.

(** [self.source[key].data = data] *)
Definition set_data (key : string) (data : column_data) (source : sources) : result sources :=
  match source !! key with
  | Some _ => Return (<[key := data]> source)
  | None => Raise KeyError
  end.

(** [Plot.clear_sources]: every column of every source becomes [[]]. *)
Definition clear_source_data (data : column_data) : column_data :=
  (λ _, []) <$> data.

Definition clear_sources (source : sources) : sources :=
  clear_source_data <$> source.

(** ** [Plot.clean_data] *)

Module Plot.

(** [[i for i, value in enumerate(var) if value == 'None']] *)
Definition none_indices (var : list pyval) : list nat :=
  (filter (λ iv, eq_None_str iv.2) (enumerate var)).*1.

(** The loop [for var in data: bad_indices.extend(...)] starting from [[]]. *)
Definition extend_bad_indices (data : list (list pyval)) : list nat :=
  foldl (λ bad_indices var, bad_indices ++ none_indices var) [] data.

(** [bad_indices = set(bad_indices)] *)
Definition bad_indices (data : list (list pyval)) : gset nat :=
  list_to_set (extend_bad_indices data).

(** [[value for i, value in enumerate(var) if i not in bad_indices]] *)
Definition without_bad (bad : gset nat) (var : list pyval) : list pyval :=
  (filter (λ iv, iv.1 ∉ bad) (enumerate var)).*2.

(** [if var:] on a keyword argument that is [None] or a list. *)
Definition truthy (var : option (list pyval)) : bool :=
  match var with
  | Some (_ :: _) => true
  | _ => false
  end.

(** [clean_data] with its positional [data] sequences and the keyword
    arguments [mrn], [uid], [dates] (default [None]); the returned tuple is the
    list of its components. *)
Definition clean_data (data : list (list pyval))
    (mrn uid dates : option (list pyval)) : list (list pyval) :=
  let bad := bad_indices data in
  let ans := without_bad bad <$> data in
  foldl (λ ans var,
           if truthy var then ans ++ [without_bad bad (default [] var)] else ans)
        ans [mrn; uid; dates].

End Plot.


(** ** Numbers *)

(** The binary64 value of a Python [int] (round to nearest even). *)
Definition float_of_Z (z : Z) : float :=
  SF2Prim (SpecFloat.binary_normalize 53 1024 z 0 false).

(** A cell as a number; a string or [None] in a numeric array is a
    [TypeError] as soon as arithmetic touches it. *)
Definition to_float (value : pyval) : result float :=
  match value with
  | PyInt z => Return (float_of_Z z)
  | PyFloat f => Return f
  | _ => Raise TypeError
  end.

(** [np.array(values)] read as an array of numbers. *)
Definition np_array (values : list pyval) : result (list float) :=
  mapM to_float values.

(** Python's [a > b] on floats is IEEE 754 greater-than: [b < a]. *)
Definition float_gt (a b : float) : bool := PrimFloat.ltb b a.
Definition float_lt (a b : float) : bool := PrimFloat.ltb a b.

(** ** Text and rows of a CSV export *)

(** [s.replace(old, new)] for one-character [old] and [new]. *)
Fixpoint str_replace (old new : Ascii.ascii) (s : string) : string :=
  match s with
  | EmptyString => EmptyString
  | String c s' =>
      String (if Ascii.eqb c old then new else c) (str_replace old new s')
  end.

(** The line feed of ['\n'.join(csv_data)]. *)
Definition newline : string := String (Ascii.ascii_of_nat 10) EmptyString.

(** [self.source[key].data] and [data[key]] *)
Definition source_data (source : sources) (key : string) : result column_data :=
  match source !! key with
  | Some data => Return data
  | None => Raise KeyError
  end.

Definition data_column (data : column_data) (key : string) : result (list pyval) :=
  match data !! key with
  | Some l => Return l
  | None => Raise KeyError
  end.

(** The cells [str(data[key][i]).replace(',', '^') for key in keys]; [str]
    is Python's [str] on the values of a column. *)
Definition csv_cells (str : pyval → string) (data : column_data)
    (keys : list string) (i : nat) : result (list string) :=
  mapM (λ key, l ← data_column data key;
               value ← getitem l i;
               Return (str_replace ","%char "^"%char (str value))) keys.

(** ** [PlotTimeSeries] *)

Module PlotTimeSeries.

(** [self.source] as [__init__] builds it. *)
Definition init_source : sources :=
  list_to_map
    [("plot", list_to_map [("x", []); ("y", []); ("mrn", []); ("uid", [])]);
     ("hist", list_to_map [("x", []); ("top", []); ("width", [])]);
     ("trend", list_to_map [("x", []); ("y", []); ("mrn", [])]);
     ("bound", list_to_map [("x", []); ("mrn", []); ("upper", []); ("avg", []);
                            ("lower", [])]);
     ("patch", list_to_map [("x", []); ("y", [])])].

(** [[i for i, value in enumerate(y) if value != 'None']] *)
Definition valid_indices (y : list pyval) : list nat :=
  (filter (λ iv, negb (eq_None_str iv.2)) (enumerate y)).*1.

(** [[value for i, value in enumerate(var) if i in valid_indices]] *)
Definition only_valid (valid : list nat) (var : list pyval) : list pyval :=
  (filter (λ iv, iv.1 ∈ valid) (enumerate var)).*2.

Definition update_plot_data (x y mrn uid : list pyval) (source : sources)
    : result sources :=
  let valid := valid_indices y in
  set_data "plot"
    (list_to_map [("x", only_valid valid x); ("y", only_valid valid y);
                  ("mrn", only_valid valid mrn); ("uid", only_valid valid uid)])
    source.

Section helpers.

(** The helpers of [dvha.tools.utilities] and of numpy that the time
    series calls; their code is not part of this development. *)
Context {collapsed : Type}.
Variable collapse_into_single_dates : list pyval → list pyval → result collapsed.
Variable moving_avg : collapsed → Z → result (list pyval * list pyval).
Variable np_percentile : list float → float → result float.
Variable np_histogram : list pyval → Z → result (list float * list float).

Definition update_histogram (bin_size : Z) (source : sources) : result sources :=
  let width_fraction := 0.9%float in
  y ← column source "plot" "y";
  '(hist, bins) ← np_histogram y bin_size;
  b1 ← getitem bins 1;
  b0 ← getitem bins 0;
  let width := replicate (Z.to_nat bin_size) (width_fraction * (b1 - b0))%float in
  let center := zip_with (λ a b, (a + b) / 2)%float (removelast bins) (tail bins) in
  set_data "hist"
    (list_to_map [("x", PyFloat <$> center); ("top", PyFloat <$> hist);
                  ("width", PyFloat <$> width)])
    source.

Definition update_trend (avg_len : Z) (percentile : float) (source : sources)
    : result sources :=
  x ← column source "plot" "x";
  y ← column source "plot" "y";
  if bool_decide (x ≠ []) && bool_decide (y ≠ []) then
    data_collapsed ← collapse_into_single_dates x y;
    '(x_trend, y_trend) ← moving_avg data_collapsed avg_len;
    y' ← column source "plot" "y";
    y_np ← np_array y';
    upper_bound ← np_percentile y_np (50 + percentile / 2)%float;
    average ← np_percentile y_np 50%float;
    lower_bound ← np_percentile y_np (50 - percentile / 2)%float;
    source ← set_data "trend"
      (list_to_map [("x", x_trend); ("y", y_trend);
                    ("mrn", replicate (length x_trend) (PyStr "Avg"))])
      source;
    x_first ← getitem x 0;
    x_last ← getlast x;
    source ← set_data "bound"
      (list_to_map [("x", [x_first; x_last]);
                    ("mrn", replicate 2 (PyStr "Series Avg"));
                    ("upper", replicate 2 (PyFloat upper_bound));
                    ("avg", replicate 2 (PyFloat average));
                    ("lower", replicate 2 (PyFloat lower_bound));
                    ("y", replicate 2 (PyFloat average))])
      source;
    set_data "patch"
      (list_to_map [("x", [x_first; x_last; x_last; x_first]);
                    ("y", PyFloat <$> [upper_bound; upper_bound;
                                       lower_bound; lower_bound])])
      source
  else Return source.

(** [update_plot]: the figure sizing, the axis labels and the final redraw
    only concern the widget and are left out. *)
Definition update_plot (x y mrn uid : list pyval) (avg_len : Z)
    (percentile : float) (bin_size : Z) (source : sources) : result sources :=
  let source := clear_sources source in
  source ← update_plot_data x y mrn uid source;
  source ← update_histogram bin_size source;
  update_trend avg_len percentile source.

End helpers.

(** The list [csv_data] that [get_csv] joins: the title row, then one row per
    entry of the [mrn] column. *)
Definition csv_data (str : pyval → string) (y_axis_label : string)
    (source : sources) : result (list string) :=
  data ← source_data source "plot";
  mrn ← data_column data "mrn";
  foldl (λ csv_data i,
           csv_data ← csv_data;
           cells ← csv_cells str data ["mrn"; "uid"; "x"; "y"] i;
           Return (csv_data ++ [String.concat "," cells]))
        (Return ["MRN,Study Instance UID,Date," +:+ y_axis_label])
        (seq 0 (length mrn)).

Definition get_csv (str : pyval → string) (y_axis_label : string)
    (source : sources) : result string :=
  String.concat newline <$> csv_data str y_axis_label source.

End PlotTimeSeries.

(** ** numpy *)

Module Numpy.

Open Scope float_scope.

Fixpoint insert_sorted (a : float) (l : list float) : list float :=
  match l with
  | [] => [a]
  | b :: l' => if a <=? b then a :: l else b :: insert_sorted a l'
  end.

(** [np.sort] on an array without NaN. *)
Definition sort (a : list float) : list float := foldr insert_sorted [] a.

(** The integer part of a non-negative float. *)
Definition floor (f : float) : nat :=
  match Prim2SF f with
  | SpecFloat.S754_finite false m e => Z.to_nat (Z.shiftl (Z.pos m) e)
  | _ => 0
  end.

(** [np.percentile(a, q)] for a one-dimensional array, with numpy's default
    linear interpolation between the two order statistics that enclose the
    position [q/100 * (n-1)]; a [q] outside [0, 100] is a [ValueError].
    The interpolation is written [below + (above - below) * t] for every
    fraction [t]; numpy rounds it from [above] when [t >= 0.5], which can
    differ in the last bits, and returns [nan] on an array that holds one. *)
Definition percentile (a : list float) (q : float) : result float :=
  if (0 <=? q) && (q <=? 100) then
    let s := sort a in
    let n := length a in
    let h := q / 100 * float_of_Z (Z.of_nat n - 1) in
    let lo := floor h in
    let hi := Nat.min (lo + 1) (n - 1) in
    match s !! lo, s !! hi with
    | Some below, Some above =>
        Return (below + (above - below) * (h - float_of_Z (Z.of_nat lo)))
    | _, _ => Return nan
    end
  else Raise ValueError.

(** [np.subtract(a, b)] on one-dimensional arrays: elementwise, an array of
    length one is broadcast, other length mismatches are a [ValueError]. *)
Definition subtract (a b : list float) : result (list float) :=
  if bool_decide (length a = length b) then Return (zip_with sub a b)
  else match a, b with
       | [a0], _ => Return ((λ v, a0 - v) <$> b)
       | _, [b0] => Return ((λ v, v - b0) <$> a)
       | _, _ => Raise ValueError
       end.

End Numpy.

(** ** [dvha.tools.stats] *)

(** The module [dvha/tools/stats.py] ([get_control_limits] and the class
    [MultiVariableRegression]) is imported by [plot.py] but its code is
    missing; everything in this module is modelled from the spec.  It holds
    what the charts call: the control limits, and the formula of the
    predictions of a regression, which the examples of the adjusted chart
    use.  The fit of the regression is not modelled. *)

Module Stats.

Open Scope float_scope.

(** Modelled from the spec: the sum behind "arithmetic mean" and the products
    "X b" of the missing module. *)
Definition sum (values : list float) : float := foldl add 0 values.

(** Modelled from the spec: the "arithmetic mean of the sample" of the missing
    [get_control_limits]. *)
Definition mean (values : list float) : float :=
  sum values / float_of_Z (Z.of_nat (length values)).

(** Modelled from the spec: the divisor of the moving-range estimate of the
    missing [get_control_limits], "the standard Shewhart constant for
    individual-observations charts"; the options carry it as
    [SCALAR_D = 1.128]. *)
Definition SCALAR_D : float := 1.128.

(** Modelled from the spec: the moving ranges [|x_i - x_(i-1)|] of a sample,
    the input of the spread estimate of the missing [get_control_limits]. *)
Definition moving_range (values : list float) : list float :=
  zip_with (λ previous current, abs (current - previous)) values (tail values).

(** Modelled from the spec: [get_control_limits] of [dvha/tools/stats.py],
    whose code is missing.  Center line = arithmetic mean of the sample; the
    spread estimate is the mean moving range divided by the Shewhart
    constant; UCL = center + 3 sigma, LCL = center - 3 sigma.  Returns
    [(center_line, ucl, lcl)].  The spec leaves to the calculator the
    rejection of "empty or too-small inputs" without giving the size or the
    exception; this definition rejects nothing, and on fewer than two values
    its limits are not numbers. *)
Definition get_control_limits (values : list float) : float * float * float :=
  let center_line := mean values in
  let sigma := mean (moving_range values) / SCALAR_D in
  (center_line, center_line + 3 * sigma, center_line - 3 * sigma).

(** *** The predictions of a regression *)

(** Modelled from the spec: the product of a row of [X] with the slopes in
    "X b + intercept", for the missing regression engine. *)
Definition dot (u v : list float) : float := sum (zip_with mul u v).

(** Modelled from the spec: "y_new = X_new . slope + intercept", the formula
    of the fitted values and of [predict] of the missing regression engine. *)
Definition linear_predictor (intercept : float) (slopes : list float)
    (X_new : list (list float)) : list float :=
  (λ row, dot row slopes + intercept) <$> X_new.

End Stats.

(** ** Python comparisons, [min] and [max] *)

(** An [int] against a float, compared exactly as Python does. *)
Definition int_lt_float (z : Z) (f : float) : bool :=
  match Prim2SF f with
  | SpecFloat.S754_zero _ => (z <? 0)%Z
  | SpecFloat.S754_infinity negative => negb negative
  | SpecFloat.S754_nan => false
  | SpecFloat.S754_finite negative m e =>
      let mantissa := if negative then Z.neg m else Z.pos m in
      if (0 <=? e)%Z then (z <? Z.shiftl mantissa e)%Z
      else (Z.shiftl z (- e) <? mantissa)%Z
  end.

Definition float_lt_int (f : float) (z : Z) : bool :=
  match Prim2SF f with
  | SpecFloat.S754_zero _ => (0 <? z)%Z
  | SpecFloat.S754_infinity negative => negative
  | SpecFloat.S754_nan => false
  | SpecFloat.S754_finite negative m e =>
      let mantissa := if negative then Z.neg m else Z.pos m in
      if (0 <=? e)%Z then (Z.shiftl mantissa e <? z)%Z
      else (mantissa <? Z.shiftl z (- e))%Z
  end.

(** [a < b]; values of unrelated types do not compare. *)
Definition py_lt (a b : pyval) : result bool :=
  match a, b with
  | PyInt m, PyInt n => Return (m <? n)%Z
  | PyFloat f, PyFloat g => Return (float_lt f g)
  | PyInt m, PyFloat g => Return (int_lt_float m g)
  | PyFloat f, PyInt n => Return (float_lt_int f n)
  | PyStr s, PyStr t => Return (String.ltb s t)
  | PyDate d, PyDate e => Return (d <? e)%Z
  | _, _ => Raise TypeError
  end.

(** [min(values)]: the first smallest item; [ValueError] on an empty list. *)
Definition py_min (values : list pyval) : result pyval :=
  match values with
  | [] => Raise ValueError
  | first :: others =>
      foldl (λ best item,
               best ← best; smaller ← py_lt item best;
               Return (if smaller : bool then item else best))
            (Return first) others
  end.

(** [max(values)]: the first largest item. *)
Definition py_max (values : list pyval) : result pyval :=
  match values with
  | [] => Raise ValueError
  | first :: others =>
      foldl (λ best item,
               best ← best; larger ← py_lt best item;
               Return (if larger : bool then item else best))
            (Return first) others
  end.

(** ** [Options] *)

(** The user options the control chart reads, with the values
    [Options.__init__] sets. *)
Record Options : Type := {
  PLOT_COLOR : pyval;
  CONTROL_CHART_CIRCLE_ALPHA : pyval;
  CONTROL_CHART_OUT_OF_CONTROL_COLOR : pyval;
  CONTROL_CHART_OUT_OF_CONTROL_ALPHA : pyval
}.

Definition default_options : Options := {|
  PLOT_COLOR := PyStr "blue";
  CONTROL_CHART_CIRCLE_ALPHA := PyFloat 0.3;
  CONTROL_CHART_OUT_OF_CONTROL_COLOR := PyStr "red";
  CONTROL_CHART_OUT_OF_CONTROL_ALPHA := PyInt 1
|}.

(** ** [PlotControlChart] *)

Module PlotControlChart.

Definition init_source : sources :=
  let points := list_to_map [("x", []); ("y", []); ("mrn", []); ("color", []);
                             ("alpha", []); ("dates", [])] in
  let line := list_to_map [("x", []); ("y", []); ("mrn", [])] in
  let bound := list_to_map [("x", []); ("mrn", []); ("upper", []); ("avg", []);
                            ("lower", [])] in
  let patch := list_to_map [("x", []); ("y", [])] in
  list_to_map
    [("plot", points); ("center_line", line); ("ucl_line", line);
     ("lcl_line", line); ("bound", bound); ("patch", patch);
     ("adj_plot", points); ("adj_center_line", line); ("adj_ucl_line", line);
     ("adj_lcl_line", line); ("adj_bound", bound); ("adj_patch", patch)].

(** The chained comparison [ucl > value > lcl]. *)
Definition in_control (ucl value lcl : float) : bool :=
  float_gt ucl value && float_gt value lcl.

(** [choices[ucl > value > lcl]]: a [bool] used as an index is 0 or 1. *)
Definition pick (choices : list pyval) (ucl lcl : float) (value : pyval)
    : result pyval :=
  v ← to_float value;
  getitem choices (Nat.b2n (in_control ucl v lcl)).

(** The patch and the three horizontal lines drawn over the points of [x];
    [prefix] is [""] for the chart and ["adj_"] for the adjusted chart. *)
Definition set_limit_sources (prefix : string) (x : list pyval)
    (center_line ucl lcl : float) (source : sources) : result sources :=
  x_first ← getitem x 0;
  x_last ← getlast x;
  source ← set_data (prefix +:+ "patch")
    (list_to_map [("x", [x_first; x_last; x_last; x_first]);
                  ("y", PyFloat <$> [ucl; ucl; lcl; lcl])])
    source;
  let line := λ level : float,
    x_min ← py_min x;
    x_max ← py_max x;
    Return (list_to_map [("x", [x_min; x_max]);
                         ("y", replicate 2 (PyFloat level));
                         ("mrn", replicate 2 (PyStr "center line"))] : column_data) in
  data ← line center_line;
  source ← set_data (prefix +:+ "center_line") data source;
  data ← line lcl;
  source ← set_data (prefix +:+ "lcl_line") data source;
  data ← line ucl;
  set_data (prefix +:+ "ucl_line") data source.

(** [x, y, mrn, uid, dates = ...]: unpacking a tuple of another size is a
    [ValueError]. *)
Definition unpack5 {A} (values : list A) : result (A * A * A * A * A) :=
  match values with
  | [a; b; c; d; e] => Return (a, b, c, d, e)
  | _ => Raise ValueError
  end.

(** [update_plot]; the figure sizing, the axis label, the [Div] texts and the
    redraw only concern the widget and are left out. *)
Definition update_plot (options : Options) (x y mrn uid dates : list pyval)
    (source : sources) : result sources :=
  let source := clear_sources source in
  '(x, y, mrn, uid, dates) ←
    unpack5 (Plot.clean_data [x; y] (Some mrn) (Some uid) (Some dates));
  values ← np_array y;
  let '(center_line, ucl, lcl) := Stats.get_control_limits values in
  let colors := [CONTROL_CHART_OUT_OF_CONTROL_COLOR options; PLOT_COLOR options] in
  let alphas := [CONTROL_CHART_OUT_OF_CONTROL_ALPHA options;
                 CONTROL_CHART_CIRCLE_ALPHA options] in
  color ← mapM (pick colors ucl lcl) y;
  alpha ← mapM (pick alphas ucl lcl) y;
  source ← set_data "plot"
    (list_to_map [("x", x); ("y", y); ("mrn", mrn); ("uid", uid);
                  ("color", color); ("alpha", alpha); ("dates", dates)])
    source;
  set_limit_sources "" x center_line ucl lcl source.

Definition update_adjusted_control_chart (options : Options)
    (x residuals mrn uid dates : list pyval) (source : sources) : result sources :=
  values ← np_array residuals;
  let '(center_line, ucl, lcl) := Stats.get_control_limits values in
  let colors := [CONTROL_CHART_OUT_OF_CONTROL_COLOR options; PLOT_COLOR options] in
  let alphas := [CONTROL_CHART_OUT_OF_CONTROL_ALPHA options;
                 CONTROL_CHART_CIRCLE_ALPHA options] in
  color ← mapM (pick colors ucl lcl) residuals;
  alpha ← mapM (pick alphas ucl lcl) residuals;
  source ← set_data "adj_plot"
    (list_to_map [("x", x); ("y", residuals); ("mrn", mrn); ("uid", uid);
                  ("color", color); ("alpha", alpha); ("dates", dates)])
    source;
  set_limit_sources "adj_" x center_line ucl lcl source.

(** *** The two charts over any [get_control_limits] *)

(** [get_control_limits] is imported from [dvha/tools/stats.py], whose code is
    missing.  All that [update_plot] and [update_adjusted_control_chart] see
    of it is the tuple that it returns for the list it is given, or the
    exception that it raises: [update_plot_with] and
    [update_adjusted_control_chart_with] are the two methods with the
    function that is called as a parameter. *)
Definition update_plot_with
    (get_control_limits : list pyval → result (float * float * float))
    (options : Options) (x y mrn uid dates : list pyval) (source : sources)
    : result sources :=
  let source := clear_sources source in
  '(x, y, mrn, uid, dates) ←
    unpack5 (Plot.clean_data [x; y] (Some mrn) (Some uid) (Some dates));
  '(center_line, ucl, lcl) ← get_control_limits y;
  let colors := [CONTROL_CHART_OUT_OF_CONTROL_COLOR options; PLOT_COLOR options] in
  let alphas := [CONTROL_CHART_OUT_OF_CONTROL_ALPHA options;
                 CONTROL_CHART_CIRCLE_ALPHA options] in
  color ← mapM (pick colors ucl lcl) y;
  alpha ← mapM (pick alphas ucl lcl) y;
  source ← set_data "plot"
    (list_to_map [("x", x); ("y", y); ("mrn", mrn); ("uid", uid);
                  ("color", color); ("alpha", alpha); ("dates", dates)])
    source;
  set_limit_sources "" x center_line ucl lcl source.

Definition update_adjusted_control_chart_with
    (get_control_limits : list pyval → result (float * float * float))
    (options : Options) (x residuals mrn uid dates : list pyval) (source : sources)
    : result sources :=
  '(center_line, ucl, lcl) ← get_control_limits residuals;
  let colors := [CONTROL_CHART_OUT_OF_CONTROL_COLOR options; PLOT_COLOR options] in
  let alphas := [CONTROL_CHART_OUT_OF_CONTROL_ALPHA options;
                 CONTROL_CHART_CIRCLE_ALPHA options] in
  color ← mapM (pick colors ucl lcl) residuals;
  alpha ← mapM (pick alphas ucl lcl) residuals;
  source ← set_data "adj_plot"
    (list_to_map [("x", x); ("y", residuals); ("mrn", mrn); ("uid", uid);
                  ("color", color); ("alpha", alpha); ("dates", dates)])
    source;
  set_limit_sources "adj_" x center_line ucl lcl source.

(** Modelled from the spec: the call [get_control_limits(y)] when the function
    is the one of [Stats]; the list is read as an array of numbers.  With it
    the two definitions above are [update_plot] and
    [update_adjusted_control_chart]. *)
Definition get_control_limits (y : list pyval) : result (float * float * float) :=
  values ← np_array y;
  Return (Stats.get_control_limits values).

(** *** [get_adjusted_control_chart] *)

(** Insertion of index [i] in front of the first index whose key is not
    smaller: among equal keys the inserted index comes first. *)
Fixpoint insert_by_key (key : nat → Z) (i : nat) (sorted : list nat) : list nat :=
  match sorted with
  | [] => [i]
  | j :: sorted' =>
      if (key j <? key i)%Z then j :: insert_by_key key i sorted' else i :: sorted
  end.

(** [sorted(indices, key=key)]: Python's sort is stable, so on a total order
    of keys its result is the one of a stable insertion sort. *)
Definition sorted (key : nat → Z) (indices : list nat) : list nat :=
  foldr (insert_by_key key) [] indices.

(** The dictionary that [get_adjusted_control_chart] returns. *)
Record adjusted_chart : Type := {
  chart_x : list Z;
  chart_residuals : list float;
  chart_mrn : list pyval;
  chart_uid : list pyval;
  chart_dates : list Z
}.

(** The body of the loop [for s in range(len(dates))], on the four lists it
    appends to. *)
Definition append_sorted (sort_index : list nat) (dates : list Z)
    (residuals : list float) (mrn uid : list pyval)
    (acc : result (list Z * list float * list pyval * list pyval)) (s : nat)
    : result (list Z * list float * list pyval * list pyval) :=
  '(dates_sorted, residuals_sorted, mrn_sorted, uid_sorted) ← acc;
  i ← getitem sort_index s;
  date ← getitem dates i;
  residual ← getitem residuals i;
  m ← getitem mrn i;
  u ← getitem uid i;
  Return (dates_sorted ++ [date], residuals_sorted ++ [residual],
          mrn_sorted ++ [m], uid_sorted ++ [u]).

(** [get_adjusted_control_chart]: [X, y, mrn, uid, dates] are what
    [stats_data.get_X_and_y] returned (dates as day ordinals), and
    [reg_predict] is [regression.reg.predict]. *)
Definition get_adjusted_control_chart
    (reg_predict : list (list float) → result (list float))
    (X : list (list float)) (y : list float) (mrn uid : list pyval)
    (dates : list Z) : result adjusted_chart :=
  predictions ← reg_predict X;
  residuals ← Numpy.subtract y predictions;
  let x := (λ i, Z.of_nat i + 1)%Z <$> seq 0 (length y) in
  let sort_index := sorted (λ k, default 0%Z (dates !! k)) (seq 0 (length dates)) in
  '(dates_sorted, residuals_sorted, mrn_sorted, uid_sorted) ←
    foldl (append_sorted sort_index dates residuals mrn uid)
          (Return ([], [], [], [])) (seq 0 (length dates));
  Return {| chart_x := x; chart_residuals := residuals_sorted;
            chart_mrn := mrn_sorted; chart_uid := uid_sorted;
            chart_dates := dates_sorted |}.

(** *** [get_csv] *)

(** The body of the loop [for i in range(len(data['mrn']))] on the list
    [csv_data] it appends to; [resid] is the [y] column of the adjusted
    chart. *)
Definition append_row (str : pyval → string) (data : column_data)
    (resid : list pyval) (csv_data : result (list string)) (i : nat)
    : result (list string) :=
  csv_data ← csv_data;
  cells ← csv_cells str data ["mrn"; "uid"; "x"; "dates"; "y"] i;
  let row := String.concat "," cells in
  row ← (if bool_decide (resid ≠ []) then
           value ← getitem resid i;
           Return (row +:+ "," +:+ str value)
         else Return row);
  Return (csv_data ++ [row]).

(** [self.model_name]: nothing in the class assigns this attribute, so it is
    there only once a caller has set it.  [None] is the attribute not set,
    and reading it is an [AttributeError]; [Some v] is the attribute set to
    [v], which is [None] or the name of a regression. *)
Definition read_model_name (model_name : option (option string))
    : result (option string) :=
  match model_name with
  | Some v => Return v
  | None => Raise AttributeError
  end.

(** The list [csv_data] that [get_csv] joins. *)
Definition csv_data (str : pyval → string) (y_axis_label : string)
    (model_name : option (option string)) (source : sources)
    : result (list string) :=
  data ← source_data source "plot";
  adj_data ← source_data source "adj_plot";
  resid ← data_column adj_data "y";
  residual_column ←
    (if bool_decide (resid ≠ []) then
       name ← read_model_name model_name;
       Return (",Residual" +:+ match name with
                               | Some name => " (" +:+ name +:+ ")"
                               | None => ""
                               end)
     else Return "");
  mrn ← data_column data "mrn";
  foldl (append_row str data resid)
        (Return ["MRN,Study Instance UID,Study #,Date," +:+ y_axis_label
                 +:+ residual_column])
        (seq 0 (length mrn)).

Definition get_csv (str : pyval → string) (y_axis_label : string)
    (model_name : option (option string)) (source : sources) : result string :=
  String.concat newline <$> csv_data str y_axis_label model_name source.

End PlotControlChart.

(** ** [Plot.clear_source] and the loop of [Plot.clear_sources] *)

(** [clear_source(source_key)]: the columns of one source are replaced by empty
    lists under the same names. *)
Definition clear_source (source_key : string) (source : sources) : result sources :=
  match source !! source_key with
  | Some data => Return (<[source_key := clear_source_data data]> source)
  | None => Raise KeyError
  end.

(** [for key in list(self.source): self.clear_source(key)], for the list of
    keys that [list(self.source)] gives. *)
Definition clear_sources_loop (keys : list string) (source : sources) : result sources :=
  foldl (λ acc key, source ← acc; clear_source key source) (Return source) keys.

(** ** [PlotFeatureImportance] *)

(** [max(values)] on floats: the first of the largest values; of nothing, a
    [ValueError]. *)
Definition float_max (values : list float) : result float :=
  match values with
  | [] => Raise ValueError
  | v :: values => Return (foldl (λ m v, if (m <? v)%float then v else m) v values)
  end.

Module PlotFeatureImportance.

(** [self.source] as [__init__] builds it. *)
Definition init_source : sources :=
  list_to_map
    [("plot", list_to_map [("x", []); ("y", []); ("mrn", []); ("study_date", [])])].

(** Insertion of [a] in front of the first item whose key is not smaller:
    among equal keys the inserted item comes first. *)
Fixpoint insert_by_key {A} (key : A → float) (a : A) (sorted : list A) : list A :=
  match sorted with
  | [] => [a]
  | b :: sorted' =>
      if (key b <? key a)%float then b :: insert_by_key key a sorted' else a :: sorted
  end.

(** [sorted(items, key=key)] on float keys without NaN: Python's sort is
    stable, so its result is the one of a stable insertion sort. *)
Definition sorted {A} (key : A → float) (items : list A) : list A :=
  foldr (insert_by_key key) [] items.

(** [set_data]: the new sources, then [figure.y_range.factors] and the end of
    [figure.x_range] (which starts at 0). *)
Definition set_data (x_variables : list string) (feature_importances : list float)
    (source : sources) : result (sources * list string * float) :=
  let length := length feature_importances in
  let order := (sorted snd (enumerate feature_importances)).*1 in
  right ← mapM (getitem feature_importances) order;
  variable ← mapM (getitem x_variables) order;
  source ← set_data "plot"
    (list_to_map
       [("y", (λ i, PyFloat (float_of_Z (Z.of_nat i) + 0.5)) <$> seq 0 length);
        ("right", PyFloat <$> right);
        ("height", replicate length (PyFloat 0.5));
        ("variable", PyStr <$> variable)])
    source;
  factors ← mapM (getitem x_variables) order;
  top ← float_max feature_importances;
  Return (source, factors, (top * 1.05)%float).

End PlotFeatureImportance.

(** ** [PlotMachineLearning] *)

(** [d[key]] on a dictionary with string keys. *)
Definition dict_getitem {A} (d : gmap string A) (key : string) : result A :=
  match d !! key with
  | Some a => Return a
  | None => Raise KeyError
  end.

Module PlotMachineLearning.

(** What [update_data] reads of a [MachineLearningPlotData]: dictionaries
    keyed by the data type (['train'], ['test']; ['data'] for [X]). The
    indices are positions in the lists of the whole data set. *)
Record plot_data : Type := {
  X : gmap string (list (list float));
  x : gmap string (list pyval);
  y : gmap string (list pyval);
  predictions : gmap string (list float);
  indices : gmap string (list nat);
  mse : gmap string float
}.

(** The attributes of the plot that [update_data] reads; [__init__] sets
    them. *)
Record attributes : Type := {
  multi_var_pred : list float;
  mrn : list pyval;
  uid : list pyval;
  study_date : list pyval
}.

(** [self.source] as [__init__] builds it: a dictionary of sources per data
    type. *)
Definition init_source : gmap string sources :=
  let points := list_to_map [("x", []); ("y", []); ("mrn", []); ("study_date", [])] in
  let diff := list_to_map [("x", []); ("y_ml", []); ("y_mvr", []); ("y0", []);
                           ("mrn", []); ("study_date", [])] in
  let importance := list_to_map [("x", []); ("top", []); ("width", []);
                                 ("variable", [])] in
  list_to_map
    [("train", list_to_map [("data", points); ("predict", points);
                            ("multi_var", points); ("diff", diff);
                            ("importance", importance)]);
     ("test", list_to_map [("data", points); ("predict", points);
                           ("multi_var", points); ("diff", diff)])].

(** The lists that one round of the loop of [update_data] collects before it
    touches the sources. *)
Record columns : Type := {
  col_x : list pyval;
  col_y : list pyval;
  col_y_pred : list float;
  col_multi_var_pred : list float;
  col_mrn : list pyval;
  col_uid : list pyval;
  col_study_date : list pyval
}.

Definition read_columns (self : attributes) (data : plot_data) (data_type : string)
    : result columns :=
  x ← dict_getitem (x data) data_type;
  y ← dict_getitem (y data) data_type;
  y_pred ← dict_getitem (predictions data) data_type;
  multi_var_pred ← (i ← dict_getitem (indices data) data_type;
                    mapM (getitem (multi_var_pred self)) i);
  mrn ← (i ← dict_getitem (indices data) data_type; mapM (getitem (mrn self)) i);
  uid ← (i ← dict_getitem (indices data) data_type; mapM (getitem (uid self)) i);
  study_date ← (i ← dict_getitem (indices data) data_type;
                mapM (getitem (study_date self)) i);
  Return {| col_x := x; col_y := y; col_y_pred := y_pred;
            col_multi_var_pred := multi_var_pred; col_mrn := mrn; col_uid := uid;
            col_study_date := study_date |}.

(** The four assignments to [srcs[...].data]. *)
Definition write_columns (c : columns) (srcs : sources) : result sources :=
  srcs ← set_data "data"
    (list_to_map [("x", col_x c); ("y", col_y c); ("mrn", col_mrn c);
                  ("study_date", col_study_date c); ("uid", col_uid c)])
    srcs;
  srcs ← set_data "predict"
    (list_to_map [("x", col_x c); ("y", PyFloat <$> col_y_pred c);
                  ("mrn", col_mrn c); ("study_date", col_study_date c)])
    srcs;
  srcs ← set_data "multi_var"
    (list_to_map [("x", col_x c); ("y", PyFloat <$> col_multi_var_pred c);
                  ("mrn", col_mrn c); ("study_date", col_study_date c)])
    srcs;
  y_np ← np_array (col_y c);
  y_mvr ← Numpy.subtract y_np (col_multi_var_pred c);
  y_np ← np_array (col_y c);
  y_ml ← Numpy.subtract y_np (col_y_pred c);
  set_data "diff"
    (list_to_map [("x", col_x c); ("y_mvr", PyFloat <$> y_mvr);
                  ("y_ml", PyFloat <$> y_ml);
                  ("y0", replicate (length (col_x c)) (PyInt 0));
                  ("mrn", col_mrn c); ("study_date", col_study_date c)])
    srcs.

(** One round of [for data_type in {'train', 'test'}]; the text of the [Div]
    is left out, the look-up of the mean square error it prints is not. *)
Definition update_data_type (self : attributes) (data : plot_data)
    (source : result (gmap string sources)) (data_type : string)
    : result (gmap string sources) :=
  source ← source;
  c ← read_columns self data data_type;
  srcs ← dict_getitem source data_type;
  srcs ← write_columns c srcs;
  _ ← dict_getitem (mse data) data_type;
  Return (<[data_type := srcs]> source).

(** The order in which the set [{'train', 'test'}] hands out its two
    elements, which Python does not fix. *)
Definition data_types (train_first : bool) : list string :=
  if train_first then ["train"; "test"] else ["test"; "train"].

(** [update_data]: the new [self.X] and [self.source]. *)
Definition update_data (train_first : bool) (self : attributes)
    (data : plot_data) (source : gmap string sources)
    : result (list (list float) * gmap string sources) :=
  X ← dict_getitem (X data) "data";
  source ← foldl (update_data_type self data) (Return source) (data_types train_first);
  Return (X, source).

End PlotMachineLearning.

(** ** [Options]: the checksum of the options file *)

Module OptionsFile.

(** The files at [OPTIONS_PATH] and [OPTIONS_CHECKSUM_PATH]: each is absent
    or holds its content. *)
Record files : Type := {
  options_file : option string;
  checksum_file : option string
}.

Section hashing.

(** [str] of the [bytes] read from the options file, and
    [hashlib.md5(s.encode('utf-8')).hexdigest()]. *)
Variable str_of_bytes : string → string.
Variable md5_hexdigest : string → string.

Definition calculate_checksum (fs : files) : option string :=
  match options_file fs with
  | Some content => Some (md5_hexdigest (str_of_bytes content))
  | None => None
  end.

Definition load_stored_checksum (fs : files) : option string :=
  checksum_file fs.

(** [if check_sum:] holds for a string that is not empty. *)
Definition save_checksum (fs : files) : files :=
  match calculate_checksum fs with
  | Some check_sum =>
      if bool_decide (check_sum ≠ "") then
        {| options_file := options_file fs; checksum_file := Some check_sum |}
      else fs
  | None => fs
  end.

(** [validate_options_file]; reading the two files does not fail here, so the
    [except] branch is not taken. *)
Definition validate_options_file (fs : files) : bool :=
  bool_decide (calculate_checksum fs = load_stored_checksum fs).

End hashing.

End OptionsFile.

(** * Vocabulary of the statements *)

(** The indices below [n] that are not flagged, in increasing order. *)
Definition kept_indices (bad : gset nat) (n : nat) : list nat :=
  filter (λ i, i ∉ bad) (seq 0 n).

(** The entries of [var] at the given indices, in the order of the indices. *)
Definition select {A} (var : list A) (indices : list nat) : list A :=
  omap (λ i, var !! i) indices.

(** What a keyword argument of [clean_data] contributes to the returned
    tuple: nothing when it is [None] or empty, else its unflagged entries. *)
Definition companion_part (bad : gset nat) (var : option (list pyval))
    : list (list pyval) :=
  match var with
  | None | Some [] => []
  | Some var => [select var (kept_indices bad (length var))]
  end.

(** A point is out of control when it is not strictly between the limits:
    NOT (lcl < value < ucl). *)
Definition out_of_control (lcl ucl value : float) : bool :=
  negb (float_lt lcl value && float_lt value ucl).

(** The colour and the opacity of each point of a control chart whose limits
    are [limits = (center_line, ucl, lcl)]: the out-of-control ones for the
    points that are out of control, the regular ones for the others. *)
Definition chart_colors (options : Options) (limits : float * float * float)
    (values : list float) : list pyval :=
  (λ v, if out_of_control limits.2 limits.1.2 v
        then CONTROL_CHART_OUT_OF_CONTROL_COLOR options else PLOT_COLOR options)
    <$> values.

Definition chart_alphas (options : Options) (limits : float * float * float)
    (values : list float) : list pyval :=
  (λ v, if out_of_control limits.2 limits.1.2 v
        then CONTROL_CHART_OUT_OF_CONTROL_ALPHA options
        else CONTROL_CHART_CIRCLE_ALPHA options)
    <$> values.

(** ** A control chart of four studies with a constant charting variable *)

Definition constant_series : list pyval := [PyInt 5; PyInt 5; PyInt 5; PyInt 5].

Definition four_studies : list pyval := [PyInt 1; PyInt 2; PyInt 3; PyInt 4].

Definition four_mrns : list pyval := [PyStr "a"; PyStr "b"; PyStr "c"; PyStr "d"].

Definition four_uids : list pyval :=
  [PyStr "1.2.1"; PyStr "1.2.2"; PyStr "1.2.3"; PyStr "1.2.4"].

Definition four_dates : list pyval :=
  [PyDate 737060; PyDate 737061; PyDate 737075; PyDate 737090].

Definition four_residuals : list pyval :=
  [PyFloat 0.5; PyFloat (-0.25); PyFloat 4; PyFloat (-0.25)].

(** The sources after [update_plot] on the constant series, and after
    [update_adjusted_control_chart] on top of it. *)
Definition constant_chart : sources :=
  Eval vm_compute in
    match PlotControlChart.update_plot default_options four_studies constant_series
            four_mrns four_uids four_dates PlotControlChart.init_source with
    | Return source => source
    | Raise _ => ∅
    end.

Definition constant_chart_adjusted : sources :=
  Eval vm_compute in
    match PlotControlChart.update_adjusted_control_chart default_options four_studies
            four_residuals four_mrns four_uids four_dates constant_chart with
    | Return source => source
    | Raise _ => ∅
    end.

(** ** A time series of five points *)

(** Stand-ins for the helpers of [dvha.tools.utilities] in the examples: the
    collapsed data are the two lists, and a window of any length passes them
    through. *)
Definition collapse_stand_in (x y : list pyval) : result (list pyval * list pyval) :=
  Return (x, y).

Definition moving_avg_stand_in (data : list pyval * list pyval) (avg_len : Z)
    : result (list pyval * list pyval) :=
  Return data.

(** A helper that raises when it is called. *)
Definition helper_raises {A B C} (a : A) (b : B) : result C := Raise ValueError.

(** [np.histogram] of an array without points: empty bins over [0, 1]. *)
Definition histogram_of_no_points (y : list pyval) (bins : Z)
    : result (list float * list float) :=
  Return (replicate (Z.to_nat bins) 0%float,
          (λ i, float_of_Z i / float_of_Z bins)%float <$> seqZ 0 (bins + 1)).

Definition five_dates : list pyval :=
  [PyDate 737060; PyDate 737061; PyDate 737075; PyDate 737090; PyDate 737100].

Definition five_points : list pyval :=
  [PyInt 10; PyInt 20; PyInt 30; PyInt 40; PyInt 50].

(** The sources once [update_plot_data] has stored the five points, and after
    [update_trend] with a window of 1 and a percentile of 80. *)
Definition five_points_source : sources :=
  Eval vm_compute in
    match PlotTimeSeries.update_plot_data five_dates five_points
            (replicate 5 (PyStr "a")) (replicate 5 (PyStr "1.2")) PlotTimeSeries.init_source with
    | Return source => source
    | Raise _ => ∅
    end.

Definition five_points_trend : sources :=
  Eval vm_compute in
    match PlotTimeSeries.update_trend collapse_stand_in moving_avg_stand_in
            Numpy.percentile 1 80%float five_points_source with
    | Return source => source
    | Raise _ => ∅
    end.

(** ** Studies in date order *)

(** The order that a stable ascending sort by [key] produces: index [i] comes
    before index [j] when its key is smaller, or the keys are the same and
    [i] is the smaller index. *)
Definition key_order (key : nat → Z) (i j : nat) : Prop :=
  (key i < key j)%Z ∨ (key i = key j ∧ i < j).

(** Study [i] comes before study [j] in the chart: its date is earlier, or the
    dates are the same and [i] was first in the input. *)
Definition date_order (dates : list Z) : nat → nat → Prop :=
  key_order (λ k, default 0%Z (dates !! k)).

(** Four studies out of date order, two of them on the same day. *)
Definition unordered_dates : list Z := [737075; 737060; 737090; 737060]%Z.

Definition unordered_X : list (list float) := [[1]; [2]; [3]; [4]]%float.

Definition unordered_y : list float := [2.5; 4; 5.5; 8.25]%float.

(** The prediction of the model y = 2 x. *)
Definition line_predict (X : list (list float)) : result (list float) :=
  Return (Stats.linear_predictor 0 [2] X)%float.

(** ** More vocabulary *)

(** A keyword argument of [clean_data] as it is handed back when nothing is
    flagged: itself when it is a non-empty list, nothing otherwise. *)
Definition supplied (var : option (list pyval)) : list (list pyval) :=
  match var with
  | Some (a :: var) => [a :: var]
  | _ => []
  end.

(** A cell that holds a number. *)
Definition is_number (value : pyval) : bool :=
  match value with
  | PyInt _ | PyFloat _ => true
  | _ => false
  end.

(** The sources that [update_plot] of the control chart writes. *)
Definition chart_keys : list string :=
  ["plot"; "patch"; "center_line"; "lcl_line"; "ucl_line"].

(** The sources when [update_plot] draws the constant series again over the
    adjusted chart. *)
Definition constant_chart_redrawn : sources :=
  Eval vm_compute in
    match PlotControlChart.update_plot default_options four_studies constant_series
            four_mrns four_uids four_dates constant_chart_adjusted with
    | Return source => source
    | Raise _ => ∅
    end.

(** The sources that [update_adjusted_control_chart] writes. *)
Definition adjusted_chart_keys : list string :=
  ["adj_plot"; "adj_patch"; "adj_center_line"; "adj_lcl_line"; "adj_ucl_line"].

(** Four studies in date order, two of them on the same day. *)
Definition ordered_dates : list Z := [737060; 737060; 737075; 737090]%Z.

(** ** Reading a CSV row *)

(** The character [sep] occurs in [s]. *)
Fixpoint occurs (sep : Ascii.ascii) (s : string) : bool :=
  match s with
  | EmptyString => false
  | String c s' => Ascii.eqb c sep || occurs sep s'
  end.

(** The cells of a row: the pieces of [s] between the occurrences of [sep]. *)
Fixpoint split_on (sep : Ascii.ascii) (s : string) : list string :=
  match s with
  | EmptyString => [EmptyString]
  | String c s' =>
      if Ascii.eqb c sep then EmptyString :: split_on sep s'
      else match split_on sep s' with
           | cell :: cells => String c cell :: cells
           | [] => [String c EmptyString]
           end
  end.

(** A stand-in for Python's [str]: strings print as themselves, integers in
    decimal, everything else as a fixed text. *)
Definition str_stand_in (value : pyval) : string :=
  match value with
  | PyStr s => s
  | PyInt z => pretty z
  | PyDate ordinal => pretty ordinal
  | PyFloat _ => "0.5"
  | PyNone => "None"
  end.

(** A value as it appears in a row of an export. *)
Definition csv_cell (str : pyval → string) (value : pyval) : string :=
  str_replace ","%char "^"%char (str value).

(** The constant chart with an adjusted chart of three studies only. *)
Definition constant_chart_three_residuals : sources :=
  Eval vm_compute in
    match PlotControlChart.update_adjusted_control_chart default_options
            (take 3 four_studies) (take 3 four_residuals) (take 3 four_mrns)
            (take 3 four_uids) (take 3 four_dates) constant_chart with
    | Return source => source
    | Raise _ => ∅
    end.

(** ** Feature importances *)

Definition three_importances : list float := [0.5; 0.125; 0.375]%float.

Definition three_variables : list string := ["Beam MU"; "PTV Volume"; "Rx Dose"].

(** ** A model trained on three of four studies *)

Definition ml_attributes : PlotMachineLearning.attributes := {|
  PlotMachineLearning.multi_var_pred := [2; 4; 6; 8]%float;
  PlotMachineLearning.mrn := four_mrns;
  PlotMachineLearning.uid := four_uids;
  PlotMachineLearning.study_date := four_dates
|}.

Definition ml_plot_data : PlotMachineLearning.plot_data := {|
  PlotMachineLearning.X := {["data" := unordered_X]};
  PlotMachineLearning.x :=
    list_to_map [("train", [PyInt 1; PyInt 2; PyInt 3]); ("test", [PyInt 1])];
  PlotMachineLearning.y :=
    list_to_map [("train", [PyFloat 5.5; PyFloat 2.5; PyFloat 8.25]);
                 ("test", [PyFloat 4])];
  PlotMachineLearning.predictions :=
    list_to_map [("train", [5; 2; 8]%float); ("test", [4.5]%float)];
  PlotMachineLearning.indices := list_to_map [("train", [2; 0; 3]); ("test", [1])];
  PlotMachineLearning.mse := list_to_map [("train", 0.125%float); ("test", 0.25%float)]
|}.

(** What [update_data] returns on it when the set hands out ['train'] first. *)
Definition ml_updated : list (list float) * gmap string sources :=
  Eval vm_compute in
    match PlotMachineLearning.update_data true ml_attributes ml_plot_data
            PlotMachineLearning.init_source with
    | Return r => r
    | Raise _ => ([], ∅)
    end.

(** ** Stand-ins for the hashing of the options file *)

(** A digest that tells contents apart: the text itself between brackets. *)
Definition digest_stand_in (s : string) : string := "[" +:+ s +:+ "]".

Definition bytes_stand_in (content : string) : string := "b'" +:+ content +:+ "'".

(** The title row of the export of the control chart, for the value [name] of
    [self.model_name]. *)
Definition chart_csv_title (y_axis_label : string) (name : option string)
    (resid : list pyval) : string :=
  "MRN,Study Instance UID,Study #,Date," +:+ y_axis_label
  +:+ (if bool_decide (resid ≠ []) then
         ",Residual" +:+ match name with
                         | Some name => " (" +:+ name +:+ ")"
                         | None => ""
                         end
       else "").

(** * Properties *)

(** ** Selecting entries by index *)

Lemma omap_ext_elem_of {A B} (f g : A → option B) (l : list A) :
  (∀ a, a ∈ l → f a = g a) → omap f l = omap g l.
Proof.
  induction l as [|a l IH]; intros Hfg; [done|].
  cbn. rewrite (Hfg a) by left. rewrite IH; [done|].
  intros b Hb. apply Hfg. by right.
Qed.

Lemma enumerate_zip_from {A} (var : list A) (n : nat) :
  imap (λ i a, (n + i, a)) var = zip (seq n (length var)) var.
Proof.
  revert n. induction var as [|a var IH]; intros n; [done|].
  cbn. rewrite Nat.add_0_r. f_equal. rewrite <- IH.
  apply imap_ext. intros i x _. cbn. f_equal. lia.
Qed.

Lemma enumerate_zip {A} (var : list A) :
  enumerate var = zip (seq 0 (length var)) var.
Proof. apply (enumerate_zip_from var 0). Qed.

Lemma filter_zip_seq {A} (P : nat → Prop) (Q : nat * A → Prop)
    `{!∀ i, Decision (P i)} `{!∀ iv, Decision (Q iv)} (var : list A) (n : nat) :
  (∀ iv, Q iv ↔ P iv.1) →
  (filter Q (zip (seq n (length var)) var)).*2
  = omap (λ i, var !! (i - n)) (filter P (seq n (length var))).
Proof.
  intros HQP. revert n. induction var as [|a var IH]; intros n; [done|].
  cbn [length seq zip zip_with]. rewrite !filter_cons.
  assert (Htail : (filter Q (zip (seq (S n) (length var)) var)).*2
                  = omap (λ i, (a :: var) !! (i - n)) (filter P (seq (S n) (length var)))).
  { rewrite IH. apply omap_ext_elem_of.
    intros i Hi. apply list_elem_of_filter in Hi as [_ Hi].
    apply elem_of_seq in Hi. replace (i - n) with (S (i - S n)) by lia. done. }
  destruct (decide (Q (n, a))) as [HQ|HQ], (decide (P n)) as [HP|HP];
    try (exfalso; apply HQP in HQ; cbn in HQ; tauto);
    try (exfalso; apply HQ, HQP; cbn; tauto).
  - cbn. rewrite Nat.sub_diag. cbn. f_equal. exact Htail.
  - exact Htail.
Qed.

Lemma select_length_lt {A} (var : list A) (indices : list nat) :
  Forall (λ i, i < length var) indices → length (select var indices) = length indices.
Proof.
  unfold select. induction 1 as [|i indices Hi _ IH]; [done|].
  cbn. destruct (lookup_lt_is_Some_2 var i Hi) as [a ->]. cbn. by rewrite IH.
Qed.

(** ** [clean_data] *)

Section clean_data.

Import Plot.

Lemma without_bad_select (bad : gset nat) (var : list pyval) :
  without_bad bad var = select var (kept_indices bad (length var)).
Proof.
  unfold without_bad, select, kept_indices.
  rewrite enumerate_zip.
  rewrite (filter_zip_seq (λ i, i ∉ bad) (λ iv, iv.1 ∉ bad) var 0) by done.
  apply omap_ext_elem_of. intros i _. by rewrite Nat.sub_0_r.
Qed.

Lemma eq_None_str_true (value : pyval) :
  eq_None_str value = true ↔ value = PyStr "None".
Proof.
  destruct value; cbn; try (split; [discriminate|discriminate]).
  rewrite bool_decide_eq_true. split; [by intros ->|by intros [= ->]].
Qed.

Lemma elem_of_none_indices (var : list pyval) (i : nat) :
  i ∈ none_indices var ↔ var !! i = Some (PyStr "None").
Proof.
  unfold none_indices, enumerate. rewrite list_elem_of_fmap. split.
  - intros ([j value] & -> & Hin). apply list_elem_of_filter in Hin as [Hnone Hin].
    apply elem_of_lookup_imap in Hin as (j' & value' & [= -> ->] & Hlookup).
    cbn in *. apply Is_true_true, eq_None_str_true in Hnone. by subst.
  - intros Hlookup. exists (i, PyStr "None"). split; [done|].
    apply list_elem_of_filter. split; [done|].
    apply elem_of_lookup_imap. by exists i, (PyStr "None").
Qed.

Lemma extend_bad_indices_from (data : list (list pyval)) (acc : list nat) :
  foldl (λ bad_indices var, bad_indices ++ none_indices var) acc data
  = acc ++ mjoin (none_indices <$> data).
Proof.
  revert acc. induction data as [|var data IH]; intros acc; cbn.
  - by rewrite app_nil_r.
  - by rewrite IH, <- app_assoc.
Qed.

Lemma elem_of_bad_indices (data : list (list pyval)) (i : nat) :
  i ∈ bad_indices data ↔ ∃ var, var ∈ data ∧ var !! i = Some (PyStr "None").
Proof.
  unfold bad_indices, extend_bad_indices.
  rewrite elem_of_list_to_set, extend_bad_indices_from, app_nil_l, list_elem_of_join.
  split.
  - intros (l & Hi & Hl). apply list_elem_of_fmap in Hl as (var & -> & Hvar).
    exists var. split; [done|]. by apply elem_of_none_indices.
  - intros (var & Hvar & Hi). exists (none_indices var). split.
    + by apply elem_of_none_indices.
    + apply list_elem_of_fmap. by exists var.
Qed.

Lemma clean_data_parts (data : list (list pyval)) (mrn uid dates : option (list pyval)) :
  clean_data data mrn uid dates
  = ((λ var, select var (kept_indices (bad_indices data) (length var))) <$> data)
      ++ companion_part (bad_indices data) mrn
      ++ companion_part (bad_indices data) uid
      ++ companion_part (bad_indices data) dates.
Proof.
  unfold clean_data. cbn [foldl].
  assert (Hstep : ∀ ans var,
    (if truthy var then ans ++ [without_bad (bad_indices data) (default [] var)] else ans)
    = ans ++ companion_part (bad_indices data) var).
  { intros ans [[|a var]|]; unfold truthy, companion_part, default;
      by rewrite ?app_nil_r, ?without_bad_select. }
  rewrite !Hstep, <- !app_assoc. f_equal.
  apply list_fmap_ext. intros _ var _. apply without_bad_select.
Qed.

End clean_data.

Lemma kept_indices_length (bad : gset nat) (n : nat) :
  (∀ i, i ∈ bad → i < n) → length (kept_indices bad n) = n - size bad.
Proof.
  intros Hbound. unfold kept_indices.
  pose proof (filter_app_complement (λ i, i ∉ bad) (seq 0 n)) as Hsplit.
  apply Permutation_length in Hsplit. rewrite length_app, length_seq in Hsplit.
  assert (Hflagged : filter (λ i : nat, ¬ (i ∉ bad)) (seq 0 n) ≡ₚ elements bad).
  { apply NoDup_Permutation.
    - apply NoDup_filter, NoDup_seq.
    - apply NoDup_elements.
    - intros i. rewrite list_elem_of_filter, elem_of_seq, elem_of_elements.
      split.
      + intros [Hi _]. by apply dec_stable.
      + intros Hi. split; [tauto|]. specialize (Hbound i Hi). lia. }
  apply Permutation_length in Hflagged.
  change (size bad) with (length (elements bad)). lia.
Qed.

Lemma kept_indices_lt (bad : gset nat) (n : nat) :
  Forall (λ i, i < n) (kept_indices bad n).
Proof.
  apply Forall_forall. intros i Hi. apply list_elem_of_filter in Hi as [_ Hi].
  apply elem_of_seq in Hi. lia.
Qed.

Lemma kept_indices_all_flagged (bad : gset nat) (n : nat) :
  (∀ i, i < n → i ∈ bad) → kept_indices bad n = [].
Proof.
  intros Hall. unfold kept_indices.
  destruct (filter _ _) as [|i l] eqn:Hfilter; [done|].
  assert (Hi : i ∈ filter (λ i, i ∉ bad) (seq 0 n)) by (rewrite Hfilter; left).
  apply list_elem_of_filter in Hi as [Hbad Hi]. apply elem_of_seq in Hi.
  destruct Hbad. apply Hall. lia.
Qed.

Lemma bad_indices_lt (data : list (list pyval)) (n i : nat) :
  Forall (λ var, length var = n) data → i ∈ Plot.bad_indices data → i < n.
Proof.
  intros Hlen Hi. apply elem_of_bad_indices in Hi as (var & Hvar & Hi).
  rewrite Forall_forall in Hlen. rewrite <- (Hlen var Hvar).
  by apply lookup_lt_Some in Hi.
Qed.

(** C1: [clean_data] flags exactly the indices at which some data sequence
    holds the string ['None'] (the union over the data sequences), and the
    leading components of its result are the data sequences restricted to the
    unflagged indices in increasing order; so [1, 'None', 3] and
    [4, 5, 'None'] come back as [1] and [4]. *)
Theorem clean_data_keeps_unflagged_entries :
  (∀ (data : list (list pyval)) (i : nat),
     i ∈ Plot.bad_indices data ↔ ∃ var, var ∈ data ∧ var !! i = Some (PyStr "None"))
  ∧ (∀ (data : list (list pyval)) (mrn uid dates : option (list pyval)),
       take (length data) (Plot.clean_data data mrn uid dates)
       = (λ var, select var (kept_indices (Plot.bad_indices data) (length var))) <$> data)
  ∧ Plot.clean_data [[PyInt 1; PyStr "None"; PyInt 3]; [PyInt 4; PyInt 5; PyStr "None"]]
                    None None None
    = [[PyInt 1]; [PyInt 4]].
Proof.
  split; [exact elem_of_bad_indices|]. split.
  - intros data mrn uid dates. rewrite clean_data_parts.
    rewrite take_app_length'; [done|]. by rewrite length_fmap.
  - vm_compute. reflexivity.
Qed.

(** C9: a keyword argument that is [None] or an empty list adds nothing to
    the returned tuple; the others follow the data sequences in the order
    mrn, uid, dates, each restricted to the unflagged indices; the tuple has
    one component per data sequence and one per truthy keyword argument. *)
Theorem clean_data_companions (data : list (list pyval))
    (mrn uid dates : option (list pyval)) :
  Plot.clean_data data mrn uid dates
  = ((λ var, select var (kept_indices (Plot.bad_indices data) (length var))) <$> data)
      ++ companion_part (Plot.bad_indices data) mrn
      ++ companion_part (Plot.bad_indices data) uid
      ++ companion_part (Plot.bad_indices data) dates
  ∧ length (Plot.clean_data data mrn uid dates)
    = length data + length (filter (λ var, Plot.truthy var) [mrn; uid; dates]).
Proof.
  split; [apply clean_data_parts|].
  rewrite clean_data_parts, !length_app, length_fmap.
  by destruct mrn as [[|??]|], uid as [[|??]|], dates as [[|??]|].
Qed.

(** C4: when the data sequences and the supplied keyword sequences all have
    length [n], and [flagged] lists without repetition the indices at which
    some data sequence holds ['None'], [clean_data] returns one sequence per
    data sequence and per non-empty keyword sequence, each of length [n]
    minus the number of flagged indices; and when every index is flagged,
    what it returns is that many empty sequences. *)
Theorem clean_data_lengths (data : list (list pyval))
    (mrn uid dates : option (list pyval)) (n : nat) (flagged : list nat) :
  Forall (λ var, length var = n) data →
  Forall (λ companion, ∀ var, companion = Some var → length var = n) [mrn; uid; dates] →
  NoDup flagged →
  (∀ i, i ∈ flagged ↔ ∃ var, var ∈ data ∧ var !! i = Some (PyStr "None")) →
  length (Plot.clean_data data mrn uid dates)
  = length data + length (supplied mrn ++ supplied uid ++ supplied dates)
  ∧ Forall (λ out, length out = n - length flagged)
           (Plot.clean_data data mrn uid dates)
  ∧ ((∀ i, i < n → i ∈ flagged) →
     Plot.clean_data data mrn uid dates
     = replicate (length data + length (supplied mrn ++ supplied uid ++ supplied dates))
                 []).
Proof.
  intros Hdata Hcompanions Hnodup Hflagged.
  assert (Hcount : length flagged = size (Plot.bad_indices data)).
  { change (size (Plot.bad_indices data))
      with (length (elements (Plot.bad_indices data))).
    apply Permutation_length, NoDup_Permutation; [done|apply NoDup_elements|].
    intros i. by rewrite Hflagged, elem_of_elements, elem_of_bad_indices. }
  assert (Hsel : ∀ var : list pyval, length var = n →
    length (select var (kept_indices (Plot.bad_indices data) (length var)))
    = n - length flagged).
  { intros var Hvar. rewrite select_length_lt by apply kept_indices_lt.
    rewrite Hvar, Hcount. apply kept_indices_length. intros i. by apply bad_indices_lt. }
  assert (Hpart : ∀ (P : list pyval → Prop) companion,
    (∀ var : list pyval, length var = n →
       P (select var (kept_indices (Plot.bad_indices data) (length var)))) →
    (∀ var, companion = Some var → length var = n) →
    Forall P (companion_part (Plot.bad_indices data) companion)).
  { intros P [[|a var]|] HP Hlen; cbn; [done| |done].
    repeat constructor. apply (HP (a :: var)). by apply Hlen. }
  assert (Hall : ∀ P : list pyval → Prop,
    (∀ var : list pyval, length var = n →
       P (select var (kept_indices (Plot.bad_indices data) (length var)))) →
    Forall P (Plot.clean_data data mrn uid dates)).
  { intros P HP. rewrite clean_data_parts.
    inversion_clear Hcompanions as [|?? Hmrn Hrest].
    inversion_clear Hrest as [|?? Huid Hrest'].
    inversion_clear Hrest' as [|?? Hdates _].
    repeat apply Forall_app_2; try by apply Hpart.
    apply Forall_fmap, Forall_forall. intros var Hvar. apply HP.
    rewrite Forall_forall in Hdata. by apply Hdata. }
  assert (Hlength : length (Plot.clean_data data mrn uid dates)
                    = length data
                      + length (supplied mrn ++ supplied uid ++ supplied dates)).
  { rewrite clean_data_parts, !length_app, length_fmap.
    by destruct mrn as [[|??]|], uid as [[|??]|], dates as [[|??]|]. }
  split; [exact Hlength|]. split.
  - apply Hall. exact Hsel.
  - intros Hevery. symmetry. apply replicate_as_Forall. split; [done|].
    apply Hall. intros var Hvar.
    rewrite Hvar, kept_indices_all_flagged; [done|].
    intros i Hi. apply elem_of_bad_indices, Hflagged. by apply Hevery.
Qed.

Lemma clean_data_lengths_witness :
  length (Plot.clean_data
            [[PyInt 1; PyStr "None"; PyInt 3]; [PyInt 4; PyInt 5; PyStr "None"]]
            (Some [PyStr "a"; PyStr "b"; PyStr "c"]) None None)
  = 2 + 1
  ∧ Forall (λ out, length out = 3 - 2)
           (Plot.clean_data
              [[PyInt 1; PyStr "None"; PyInt 3]; [PyInt 4; PyInt 5; PyStr "None"]]
              (Some [PyStr "a"; PyStr "b"; PyStr "c"]) None None)
  ∧ ((∀ i, i < 3 → i ∈ [1; 2]) →
     Plot.clean_data
       [[PyInt 1; PyStr "None"; PyInt 3]; [PyInt 4; PyInt 5; PyStr "None"]]
       (Some [PyStr "a"; PyStr "b"; PyStr "c"]) None None
     = replicate (2 + 1) []).
Proof.
  apply (clean_data_lengths
           [[PyInt 1; PyStr "None"; PyInt 3]; [PyInt 4; PyInt 5; PyStr "None"]]
           (Some [PyStr "a"; PyStr "b"; PyStr "c"]) None None 3 [1; 2]).
  - repeat constructor.
  - repeat constructor; intros var [= <-]; reflexivity.
  - apply NoDup_cons; split; [|apply NoDup_singleton].
    intros Hin%list_elem_of_singleton. discriminate.
  - intros i. split.
    + intros [->|[->|[]%elem_of_nil]%elem_of_cons]%elem_of_cons.
      * exists [PyInt 1; PyStr "None"; PyInt 3]. split; [set_solver|done].
      * exists [PyInt 4; PyInt 5; PyStr "None"]. split; [set_solver|done].
    + intros (var & Hvar & Hi).
      apply elem_of_cons in Hvar as [->|Hvar];
        [|apply list_elem_of_singleton in Hvar as ->];
        destruct i as [|[|[|i]]]; try discriminate; set_solver.
Defined.

(** Every study flagged: three sequences of two entries come back as three
    empty sequences. *)
Example clean_data_all_flagged :
  Plot.clean_data [[PyStr "None"; PyInt 2]; [PyInt 4; PyStr "None"]]
    (Some [PyStr "a"; PyStr "b"]) (Some []) None
  = [[]; []; []].
Proof. vm_compute. reflexivity. Qed.

(** ** Calls that return *)

Lemma bind_Return {A B} (m : result A) (f : A → result B) (b : B) :
  m ≫= f = Return b ↔ ∃ a, m = Return a ∧ f a = Return b.
Proof.
  destruct m as [e|a]; cbn.
  - split; [discriminate|]. by intros (a & [=] & _).
  - split; [by exists a|]. by intros (a' & [= <-] & Hf).
Qed.

Ltac inv_bind H :=
  repeat match type of H with
         | _ ≫= _ = Return _ =>
             let a := fresh "a" in
             let Ha := fresh "Ha" in
             apply bind_Return in H as (a & Ha & H)
         end.

Lemma set_data_Return (key : string) (data : column_data) (source source' : sources) :
  set_data key data source = Return source' → source' = <[key := data]> source.
Proof. unfold set_data. destruct (source !! key); by intros [= <-]. Qed.

Lemma column_set_data_eq (key col : string) (data : column_data) (source : sources) :
  column (<[key := data]> source) key col
  = match data !! col with Some l => Return l | None => Raise KeyError end.
Proof. unfold column. by rewrite lookup_insert_eq. Qed.

Lemma column_set_data_ne (key key' col : string) (data : column_data) (source : sources) :
  key ≠ key' → column (<[key := data]> source) key' col = column source key' col.
Proof. intros Hne. unfold column. by rewrite lookup_insert_ne. Qed.

(** A column of a dictionary that is written out as a literal. *)
Ltac lookup_columns :=
  repeat (rewrite list_to_map_cons, lookup_insert; case_decide; try congruence).

(** ** Control chart *)

Section control_chart.

Import PlotControlChart.

Lemma in_control_out_of_control (ucl lcl value : float) :
  in_control ucl value lcl = negb (out_of_control lcl ucl value).
Proof.
  unfold in_control, out_of_control, float_gt, float_lt.
  rewrite negb_involutive. apply andb_comm.
Qed.

Lemma pick_out_of_control (out inside : pyval) (ucl lcl : float) (value : pyval) :
  pick [out; inside] ucl lcl value
  = v ← to_float value; Return (if out_of_control lcl ucl v then out else inside).
Proof.
  unfold pick. destruct (to_float value) as [e|v]; [done|]. cbn.
  rewrite in_control_out_of_control. by destruct (out_of_control lcl ucl v).
Qed.

Lemma mapM_pick (out inside : pyval) (ucl lcl : float) (y : list pyval)
    (values : list float) :
  np_array y = Return values →
  mapM (pick [out; inside] ucl lcl) y
  = Return ((λ v, if out_of_control lcl ucl v then out else inside) <$> values).
Proof.
  unfold np_array. revert values. induction y as [|value y IH]; intros values Hy.
  - by injection Hy as <-.
  - cbn in Hy. inv_bind Hy. injection Hy as <-.
    cbn. rewrite pick_out_of_control, Ha. cbn. by rewrite (IH _ Ha0).
Qed.

Lemma set_limit_sources_other (prefix : string) (x : list pyval)
    (center_line ucl lcl : float) (source source' : sources) (key col : string) :
  set_limit_sources prefix x center_line ucl lcl source = Return source' →
  key ∉ [prefix +:+ "patch"; prefix +:+ "center_line"; prefix +:+ "lcl_line";
         prefix +:+ "ucl_line"] →
  column source' key col = column source key col.
Proof.
  unfold set_limit_sources. intros H Hkey. inv_bind H.
  apply set_data_Return in Ha1, Ha3, Ha5, H. subst.
  rewrite !column_set_data_ne; [done|..]; intros <-; apply Hkey;
    repeat first [by left | right].
Qed.

Lemma unpack5_Return {A} (values : list A) (a b c d e : A) :
  unpack5 values = Return (a, b, c, d, e) → values = [a; b; c; d; e].
Proof.
  destruct values as [|a' [|b' [|c' [|d' [|e' [|??]]]]]]; cbn; try discriminate.
  by intros [= -> -> -> -> ->].
Qed.

Lemma update_plot_classified (options : Options) (x y mrn uid dates : list pyval)
    (source source' : sources) :
  update_plot options x y mrn uid dates source = Return source' →
  ∃ y' values,
    Plot.clean_data [x; y] (Some mrn) (Some uid) (Some dates) !! 1 = Some y'
    ∧ np_array y' = Return values
    ∧ column source' "plot" "y" = Return y'
    ∧ column source' "plot" "color"
      = Return (chart_colors options (Stats.get_control_limits values) values)
    ∧ column source' "plot" "alpha"
      = Return (chart_alphas options (Stats.get_control_limits values) values).
Proof.
  unfold update_plot. intros H. apply bind_Return in H as ([[[[x' y'] mrn'] uid'] dates'] & Hclean & H).
  apply unpack5_Return in Hclean.
  apply bind_Return in H as (values & Hvalues & H).
  destruct (Stats.get_control_limits values) as [[center_line ucl] lcl] eqn:Hlimits.
  apply bind_Return in H as (color & Hcolor & H).
  apply bind_Return in H as (alpha & Halpha & H).
  apply bind_Return in H as (source1 & Hplot & H).
  rewrite (mapM_pick _ _ _ _ _ _ Hvalues) in Hcolor.
  rewrite (mapM_pick _ _ _ _ _ _ Hvalues) in Halpha.
  injection Hcolor as <-. injection Halpha as <-.
  apply set_data_Return in Hplot. subst source1.
  exists y', values. rewrite Hclean. split; [done|]. split; [done|].
  rewrite !(set_limit_sources_other _ _ _ _ _ _ _ "plot" _ H)
    by (cbn; rewrite !elem_of_cons, elem_of_nil; intros [|[|[|[|]]]]; done).
  rewrite !column_set_data_eq. unfold chart_colors, chart_alphas. rewrite Hlimits.
  repeat split; by lookup_columns.
Qed.

Lemma update_adjusted_classified (options : Options)
    (x residuals mrn uid dates : list pyval) (source source' : sources) :
  update_adjusted_control_chart options x residuals mrn uid dates source
  = Return source' →
  ∃ values,
    np_array residuals = Return values
    ∧ column source' "adj_plot" "y" = Return residuals
    ∧ column source' "adj_plot" "color"
      = Return (chart_colors options (Stats.get_control_limits values) values)
    ∧ column source' "adj_plot" "alpha"
      = Return (chart_alphas options (Stats.get_control_limits values) values).
Proof.
  unfold update_adjusted_control_chart. intros H.
  apply bind_Return in H as (values & Hvalues & H).
  destruct (Stats.get_control_limits values) as [[center_line ucl] lcl] eqn:Hlimits.
  apply bind_Return in H as (color & Hcolor & H).
  apply bind_Return in H as (alpha & Halpha & H).
  apply bind_Return in H as (source1 & Hplot & H).
  rewrite (mapM_pick _ _ _ _ _ _ Hvalues) in Hcolor.
  rewrite (mapM_pick _ _ _ _ _ _ Hvalues) in Halpha.
  injection Hcolor as <-. injection Halpha as <-.
  apply set_data_Return in Hplot. subst source1.
  exists values. split; [done|].
  rewrite !(set_limit_sources_other _ _ _ _ _ _ _ "adj_plot" _ H)
    by (cbn; rewrite !elem_of_cons, elem_of_nil; intros [|[|[|[|]]]]; done).
  rewrite !column_set_data_eq. unfold chart_colors, chart_alphas. rewrite Hlimits.
  repeat split; by lookup_columns.
Qed.

End control_chart.

(** C2: a point of a control chart is out of control exactly when it is not
    strictly between the limits, NOT (lcl < value < ucl); [update_plot] colours
    the charting values by this rule and [update_adjusted_control_chart]
    colours the regression residuals by the same rule, each against the limits
    computed from its own series. *)
Theorem control_chart_out_of_control_rule (options : Options)
    (x y mrn uid dates x_adj residuals mrn_adj uid_adj dates_adj : list pyval)
    (source source1 source2 : sources) :
  PlotControlChart.update_plot options x y mrn uid dates source = Return source1 →
  PlotControlChart.update_adjusted_control_chart
    options x_adj residuals mrn_adj uid_adj dates_adj source1 = Return source2 →
  (∀ ucl lcl value : float,
     PlotControlChart.in_control ucl value lcl = false
     ↔ ¬ (float_lt lcl value = true ∧ float_lt value ucl = true))
  ∧ (∃ y' values,
       Plot.clean_data [x; y] (Some mrn) (Some uid) (Some dates) !! 1 = Some y'
       ∧ np_array y' = Return values
       ∧ column source1 "plot" "y" = Return y'
       ∧ column source1 "plot" "color"
         = Return (chart_colors options (Stats.get_control_limits values) values)
       ∧ column source1 "plot" "alpha"
         = Return (chart_alphas options (Stats.get_control_limits values) values))
  ∧ (∃ values,
       np_array residuals = Return values
       ∧ column source2 "adj_plot" "y" = Return residuals
       ∧ column source2 "adj_plot" "color"
         = Return (chart_colors options (Stats.get_control_limits values) values)
       ∧ column source2 "adj_plot" "alpha"
         = Return (chart_alphas options (Stats.get_control_limits values) values)).
Proof.
  intros Hplot Hadj. split; [|split].
  - intros ucl lcl value. rewrite in_control_out_of_control.
    unfold out_of_control. rewrite negb_involutive, andb_false_iff.
    destruct (float_lt lcl value), (float_lt value ucl); intuition congruence.
  - by apply update_plot_classified in Hplot.
  - by apply update_adjusted_classified in Hadj.
Qed.

Lemma constant_chart_returns :
  PlotControlChart.update_plot default_options four_studies constant_series
    four_mrns four_uids four_dates PlotControlChart.init_source
  = Return constant_chart.
Proof. vm_cast_no_check (@eq_refl (result sources) (Return constant_chart)). Qed.

Lemma constant_chart_adjusted_returns :
  PlotControlChart.update_adjusted_control_chart default_options four_studies
    four_residuals four_mrns four_uids four_dates constant_chart
  = Return constant_chart_adjusted.
Proof. vm_cast_no_check (@eq_refl (result sources) (Return constant_chart_adjusted)). Qed.

Lemma control_chart_out_of_control_rule_witness :
  ∃ values,
    np_array four_residuals = Return values
    ∧ column constant_chart_adjusted "adj_plot" "y" = Return four_residuals
    ∧ column constant_chart_adjusted "adj_plot" "color"
      = Return (chart_colors default_options (Stats.get_control_limits values) values)
    ∧ column constant_chart_adjusted "adj_plot" "alpha"
      = Return (chart_alphas default_options (Stats.get_control_limits values) values).
Proof.
  exact (proj2 (proj2 (control_chart_out_of_control_rule default_options
            four_studies constant_series four_mrns four_uids four_dates
            four_studies four_residuals four_mrns four_uids four_dates
            PlotControlChart.init_source constant_chart constant_chart_adjusted
            constant_chart_returns constant_chart_adjusted_returns))).
Defined.

(** C3, as stated, fails: on the constant series [5, 5, 5, 5] the limits are
    5, 5 and 5, but the points are not classified as in control. *)
Lemma constant_series_not_in_control :
  ¬ (let '(center_line, ucl, lcl) := Stats.get_control_limits [5; 5; 5; 5]%float in
     center_line = 5%float ∧ ucl = 5%float ∧ lcl = 5%float
     ∧ Forall (λ value, PlotControlChart.in_control ucl value lcl = true)
              [5; 5; 5; 5]%float).
Proof.
  vm_compute. intros (_ & _ & _ & Hin). inversion Hin as [|?? H5 _]. discriminate H5.
Qed.

Lemma float_lt_irrefl (a : float) : float_lt a a = false.
Proof.
  unfold float_lt. rewrite ltb_spec. unfold SpecFloat.SFltb, SpecFloat.SFcompare.
  destruct (Prim2SF a) as [s|s| |s m e]; try done.
  - by destruct s.
  - rewrite Z.compare_refl. fold (Pos.compare m m). rewrite Pos.compare_refl.
    by destruct s.
Qed.

(** C3 (amended): on the constant series [5, 5, 5, 5] the control limits are
    center = 5, ucl = 5 and lcl = 5, and every point, lying exactly on the
    limits, is classified as out of control: [update_plot] gives each of them
    the out-of-control colour and opacity.  A value equal to a limit is never
    in control. *)
Theorem constant_series_on_the_limits :
  Stats.get_control_limits [5; 5; 5; 5]%float = (5, 5, 5)%float
  ∧ Forall (λ value, PlotControlChart.in_control 5 value 5 = false) [5; 5; 5; 5]%float
  ∧ PlotControlChart.update_plot default_options four_studies constant_series
      four_mrns four_uids four_dates PlotControlChart.init_source
    = Return constant_chart
  ∧ column constant_chart "plot" "color"
    = Return (replicate 4 (CONTROL_CHART_OUT_OF_CONTROL_COLOR default_options))
  ∧ column constant_chart "plot" "alpha"
    = Return (replicate 4 (CONTROL_CHART_OUT_OF_CONTROL_ALPHA default_options))
  ∧ (∀ ucl lcl : float,
       PlotControlChart.in_control ucl ucl lcl = false
       ∧ PlotControlChart.in_control ucl lcl lcl = false).
Proof.
  split; [vm_compute; reflexivity|]. split; [by repeat constructor|].
  split; [exact constant_chart_returns|].
  split; [vm_compute; reflexivity|]. split; [vm_compute; reflexivity|].
  intros ucl lcl. unfold PlotControlChart.in_control, float_gt.
  fold (float_lt ucl ucl) (float_lt lcl lcl). rewrite !float_lt_irrefl.
  by rewrite andb_false_r.
Qed.

(** ** Time series *)

Section time_series.

Import PlotTimeSeries.

Context {collapsed : Type}.
Variable collapse_into_single_dates : list pyval → list pyval → result collapsed.
Variable moving_avg : collapsed → Z → result (list pyval * list pyval).
Variable np_percentile : list float → float → result float.
Variable np_histogram : list pyval → Z → result (list float * list float).

Lemma column_clear_sources (source : sources) (key col : string) (l : list pyval) :
  column (clear_sources source) key col = Return l → l = [].
Proof.
  unfold column, clear_sources, clear_source_data. rewrite lookup_fmap.
  destruct (source !! key) as [data|]; cbn; [|discriminate].
  rewrite lookup_fmap. destruct (data !! col); cbn; [|discriminate].
  by intros [= <-].
Qed.

Lemma update_trend_no_points (avg_len : Z) (percentile : float) (source : sources)
    (x y : list pyval) :
  column source "plot" "x" = Return x →
  column source "plot" "y" = Return y →
  x = [] ∨ y = [] →
  update_trend collapse_into_single_dates moving_avg np_percentile
    avg_len percentile source = Return source.
Proof.
  intros Hx Hy Hempty. unfold update_trend. rewrite Hx, Hy. cbn.
  by destruct Hempty as [-> | ->]; [|rewrite andb_false_r].
Qed.

Lemma update_plot_data_Return (x y mrn uid : list pyval) (source source' : sources) :
  update_plot_data x y mrn uid source = Return source' →
  column source' "plot" "x" = Return (only_valid (valid_indices y) x)
  ∧ column source' "plot" "y" = Return (only_valid (valid_indices y) y)
  ∧ ∀ key col, key ≠ "plot" → column source' key col = column source key col.
Proof.
  unfold update_plot_data. intros H%set_data_Return. subst source'.
  rewrite !column_set_data_eq. repeat split; [by lookup_columns..|].
  intros key col Hkey. by rewrite column_set_data_ne.
Qed.

Lemma update_histogram_Return (bin_size : Z) (source source' : sources) :
  update_histogram np_histogram bin_size source = Return source' →
  ∀ key col, key ≠ "hist" → column source' key col = column source key col.
Proof.
  unfold update_histogram. intros H. inv_bind H. destruct a0 as [hist bins].
  inv_bind H. apply set_data_Return in H. subst source'.
  intros key col Hkey. by rewrite column_set_data_ne.
Qed.

Lemma only_valid_nil (var : list pyval) : only_valid [] var = [].
Proof.
  unfold only_valid. generalize (enumerate var). intros l.
  induction l as [|iv l IH]; [done|].
  rewrite filter_cons_False; [done|]. apply not_elem_of_nil.
Qed.

(** C8: on an empty series [update_trend] returns without raising and leaves
    the sources as they are, whatever the helpers would do; within
    [update_plot] the trend step therefore adds nothing to the outcome of the
    histogram step, and the trend, bound and patch sources keep the empty
    columns that [clear_sources] gave them. *)
Theorem empty_series_trend (x mrn uid : list pyval) (avg_len : Z) (percentile : float)
    (bin_size : Z) (source : sources) :
  is_Some (source !! "plot") →
  ∃ source1,
    update_plot_data x [] mrn uid (clear_sources source) = Return source1
    ∧ update_trend collapse_into_single_dates moving_avg np_percentile
        avg_len percentile source1 = Return source1
    ∧ update_plot collapse_into_single_dates moving_avg np_percentile np_histogram
        x [] mrn uid avg_len percentile bin_size source
      = update_histogram np_histogram bin_size source1
    ∧ ∀ source',
        update_plot collapse_into_single_dates moving_avg np_percentile np_histogram
          x [] mrn uid avg_len percentile bin_size source = Return source' →
        ∀ key col l, key ∈ ["trend"; "bound"; "patch"] →
                     column source' key col = Return l → l = [].
Proof.
  intros [data Hplot].
  assert (Hdata : ∃ source1,
    update_plot_data x [] mrn uid (clear_sources source) = Return source1).
  { unfold update_plot_data, set_data, clear_sources.
    rewrite lookup_fmap, Hplot. cbn. eauto. }
  destruct Hdata as [source1 Hdata]. exists source1.
  destruct (update_plot_data_Return _ _ _ _ _ _ Hdata) as (Hx & Hy & Hother).
  change (valid_indices []) with (@nil nat) in Hx, Hy. rewrite only_valid_nil in Hx, Hy.
  assert (Hplot_eq :
    update_plot collapse_into_single_dates moving_avg np_percentile np_histogram
      x [] mrn uid avg_len percentile bin_size source
    = update_histogram np_histogram bin_size source1).
  { unfold update_plot. rewrite Hdata. cbn.
    destruct (update_histogram np_histogram bin_size source1) as [e|source2] eqn:Hhist;
      [done|]. cbn.
    pose proof (update_histogram_Return _ _ _ Hhist) as Hkeep.
    apply (update_trend_no_points _ _ _ [] []); [| |by left].
    - by rewrite Hkeep.
    - by rewrite Hkeep. }
  split; [done|]. split; [by apply (update_trend_no_points _ _ _ [] []); auto|].
  split; [done|].
  intros source' Hreturn key col l Hkey Hcol. rewrite Hplot_eq in Hreturn.
  pose proof (update_histogram_Return _ _ _ Hreturn) as Hkeep.
  apply (column_clear_sources source key col).
  rewrite <- Hother, <- Hkeep; [done| |];
    intros ->; repeat (apply elem_of_cons in Hkey as [Hkey|Hkey]; [done|]);
    by apply elem_of_nil in Hkey.
Qed.

End time_series.

Lemma empty_series_trend_witness :
  ∃ source1,
    PlotTimeSeries.update_plot_data [] [] [] []
      (clear_sources PlotTimeSeries.init_source) = Return source1
    ∧ PlotTimeSeries.update_trend (collapsed := unit) helper_raises helper_raises
        helper_raises 1 90%float source1 = Return source1
    ∧ PlotTimeSeries.update_plot (collapsed := unit) helper_raises helper_raises
        helper_raises histogram_of_no_points [] [] [] [] 1 90%float 10
        PlotTimeSeries.init_source
      = PlotTimeSeries.update_histogram histogram_of_no_points 10 source1
    ∧ ∀ source',
        PlotTimeSeries.update_plot (collapsed := unit) helper_raises helper_raises
          helper_raises histogram_of_no_points [] [] [] [] 1 90%float 10
          PlotTimeSeries.init_source = Return source' →
        ∀ key col l, key ∈ ["trend"; "bound"; "patch"] →
                     column source' key col = Return l → l = [].
Proof.
  apply (empty_series_trend (collapsed := unit) helper_raises helper_raises
           helper_raises histogram_of_no_points [] [] [] 1 90%float 10
           PlotTimeSeries.init_source).
  unfold PlotTimeSeries.init_source. rewrite list_to_map_cons, lookup_insert_eq. eauto.
Defined.

Section percentile_band.

Import PlotTimeSeries.

Context {collapsed : Type}.
Variable collapse_into_single_dates : list pyval → list pyval → result collapsed.
Variable moving_avg : collapsed → Z → result (list pyval * list pyval).
Variable np_percentile : list float → float → result float.

Lemma set_data_is_Some (key : string) (data : column_data) (source : sources) :
  is_Some (source !! key) → set_data key data source = Return (<[key := data]> source).
Proof. intros [? Hkey]. unfold set_data. by rewrite Hkey. Qed.

Lemma getitem_0_getlast {A} (l : list A) :
  l ≠ [] → ∃ first final, getitem l 0 = Return first ∧ getlast l = Return final.
Proof.
  intros Hl. unfold getitem, getlast. destruct l as [|a l]; [done|].
  destruct (last_is_Some (a :: l)) as [_ [final ->]]; [done|]. cbn. eauto.
Qed.

(** C5: on a non-empty numeric series, once the helpers have returned,
    [update_trend] returns with the (50 - p/2)-th percentile of the series as
    the lower bound, the (50 + p/2)-th as the upper bound and the 50th as the
    average of the band; with numpy's percentile, the five points
    10, 20, 30, 40, 50 and p = 80 give the 10th percentile, the 90th
    percentile and the median 30. *)
Theorem update_trend_percentile_band (avg_len : Z) (p : float) (source : sources)
    (x y x_trend y_trend : list pyval) (values : list float) (data : collapsed)
    (lower center upper : float) :
  column source "plot" "x" = Return x →
  column source "plot" "y" = Return y →
  x ≠ [] → y ≠ [] →
  np_array y = Return values →
  collapse_into_single_dates x y = Return data →
  moving_avg data avg_len = Return (x_trend, y_trend) →
  np_percentile values (50 - p / 2)%float = Return lower →
  np_percentile values 50%float = Return center →
  np_percentile values (50 + p / 2)%float = Return upper →
  is_Some (source !! "trend") → is_Some (source !! "bound") → is_Some (source !! "patch") →
  (∃ source',
     update_trend collapse_into_single_dates moving_avg np_percentile avg_len p source
     = Return source'
     ∧ column source' "bound" "lower" = Return [PyFloat lower; PyFloat lower]
     ∧ column source' "bound" "avg" = Return [PyFloat center; PyFloat center]
     ∧ column source' "bound" "upper" = Return [PyFloat upper; PyFloat upper]
     ∧ column source' "patch" "y"
       = Return [PyFloat upper; PyFloat upper; PyFloat lower; PyFloat lower])
  ∧ (update_trend collapse_stand_in moving_avg_stand_in Numpy.percentile
       1 80%float five_points_source = Return five_points_trend
     ∧ (50 - 80 / 2 = 10)%float ∧ (50 + 80 / 2 = 90)%float
     ∧ column five_points_source "plot" "y" = Return five_points
     ∧ (a ← np_array five_points; Numpy.percentile a 10%float) = Return 14%float
     ∧ (a ← np_array five_points; Numpy.percentile a 50%float) = Return 30%float
     ∧ (a ← np_array five_points; Numpy.percentile a 90%float) = Return 46%float
     ∧ column five_points_trend "bound" "lower" = Return [PyFloat 14; PyFloat 14]
     ∧ column five_points_trend "bound" "avg" = Return [PyFloat 30; PyFloat 30]
     ∧ column five_points_trend "bound" "upper" = Return [PyFloat 46; PyFloat 46]).
Proof.
  intros Hx Hy Hxne Hyne Hvalues Hcollapse Hmoving Hlower Hcenter Hupper
    Htrend Hbound Hpatch.
  split.
  - destruct (getitem_0_getlast x Hxne) as (x_first & x_last & Hfirst & Hlast).
    unfold update_trend. rewrite Hx, Hy. cbn.
    rewrite !bool_decide_eq_true_2 by done. cbn.
    rewrite Hcollapse. cbn. rewrite Hmoving. cbn. rewrite Hvalues. cbn.
    rewrite Hupper. cbn. rewrite Hcenter. cbn. rewrite Hlower. cbn.
    rewrite (set_data_is_Some "trend") by done. cbn.
    rewrite Hfirst. cbn. rewrite Hlast. cbn.
    rewrite (set_data_is_Some "bound") by (by rewrite lookup_insert_ne). cbn.
    rewrite (set_data_is_Some "patch") by (by rewrite !lookup_insert_ne).
    eexists. split; [done|].
    rewrite !(column_set_data_ne "patch" "bound") by done.
    rewrite !column_set_data_eq. repeat split; by lookup_columns.
  - split; [vm_cast_no_check (@eq_refl (result sources) (Return five_points_trend))|].
    repeat split; vm_compute; reflexivity.
Qed.

End percentile_band.

Lemma update_trend_percentile_band_witness :
  ∃ source',
    PlotTimeSeries.update_trend collapse_stand_in moving_avg_stand_in Numpy.percentile
      1 80%float five_points_source = Return source'
    ∧ column source' "bound" "lower" = Return [PyFloat 14; PyFloat 14]
    ∧ column source' "bound" "avg" = Return [PyFloat 30; PyFloat 30]
    ∧ column source' "bound" "upper" = Return [PyFloat 46; PyFloat 46]
    ∧ column source' "patch" "y"
      = Return [PyFloat 46; PyFloat 46; PyFloat 14; PyFloat 14].
Proof.
  refine (proj1 (update_trend_percentile_band collapse_stand_in moving_avg_stand_in
            Numpy.percentile 1 80%float five_points_source five_dates five_points
            five_dates five_points [10; 20; 30; 40; 50]%float (five_dates, five_points)
            14%float 30%float 46%float _ _ _ _ _ _ _ _ _ _ _ _ _));
    try (vm_compute; reflexivity); try discriminate;
    apply is_Some_alt; vm_compute; exact I.
Defined.

(** ** Adjusted control chart *)

Section adjusted_control_chart.

Import PlotControlChart.

Variable key : nat → Z.

Lemma insert_by_key_Permutation (i : nat) (l : list nat) :
  insert_by_key key i l ≡ₚ i :: l.
Proof.
  induction l as [|j l IH]; [done|]. cbn.
  destruct (key j <? key i)%Z; [|done].
  rewrite IH. apply Permutation_swap.
Qed.

Lemma sorted_Permutation (l : list nat) : sorted key l ≡ₚ l.
Proof.
  induction l as [|i l IH]; [done|].
  change (sorted key (i :: l)) with (insert_by_key key i (sorted key l)).
  by rewrite insert_by_key_Permutation, IH.
Qed.

Lemma insert_by_key_StronglySorted (i : nat) (l : list nat) :
  StronglySorted (key_order key) l → Forall (λ j, (i < j)%nat) l →
  StronglySorted (key_order key) (insert_by_key key i l).
Proof.
  induction 1 as [|j l Hsorted IH Hj]; intros Hi; [repeat constructor|].
  apply Forall_cons in Hi as [Hij Hi]. cbn.
  destruct (Z.ltb_spec (key j) (key i)) as [Hlt|Hge].
  - constructor; [by apply IH|].
    rewrite insert_by_key_Permutation. constructor; [by left|done].
  - constructor; [by constructor|]. constructor; [unfold key_order; lia|].
    rewrite Forall_forall in Hj, Hi. apply Forall_forall. intros x Hx.
    specialize (Hj x Hx). specialize (Hi x Hx). unfold key_order in *. lia.
Qed.

Lemma sorted_StronglySorted (l : list nat) :
  StronglySorted lt l → StronglySorted (key_order key) (sorted key l).
Proof.
  induction 1 as [|i l Hsorted IH Hi]; [constructor|].
  change (sorted key (i :: l)) with (insert_by_key key i (sorted key l)).
  apply insert_by_key_StronglySorted; [done|].
  by rewrite sorted_Permutation.
Qed.

Lemma StronglySorted_keys (l : list nat) :
  StronglySorted (key_order key) l → Sorted Z.le (key <$> l).
Proof.
  intros Hsorted. apply StronglySorted_Sorted.
  induction Hsorted as [|i l Hsorted IH Hi]; [constructor|]. cbn.
  constructor; [done|]. apply Forall_fmap. eapply Forall_impl; [exact Hi|].
  intros j Hj. unfold key_order in Hj. cbn. lia.
Qed.

End adjusted_control_chart.

Lemma select_cons {A} (var : list A) (i : nat) (indices : list nat) (a : A) :
  var !! i = Some a → select var (i :: indices) = a :: select var indices.
Proof. intros Hi. unfold select. cbn. by rewrite Hi. Qed.

Lemma select_fmap_default {A} (var : list A) (indices : list nat) (d : A) :
  Forall (λ i, i < length var) indices →
  select var indices = (λ i, default d (var !! i)) <$> indices.
Proof.
  induction 1 as [|i indices Hi _ IH]; [done|].
  destruct (lookup_lt_is_Some_2 var i Hi) as [a Ha].
  rewrite (select_cons _ _ _ _ Ha), IH. cbn. by rewrite Ha.
Qed.

Lemma getitem_lt {A} (l : list A) (i : nat) :
  i < length l → ∃ a, l !! i = Some a ∧ getitem l i = Return a.
Proof.
  intros Hi. destruct (lookup_lt_is_Some_2 l i Hi) as [a Ha].
  exists a. unfold getitem. by rewrite Ha.
Qed.

Lemma append_sorted_loop (sort_index : list nat) (dates : list Z)
    (residuals : list float) (mrn uid : list pyval) (n : nat) :
  length dates = n → length residuals = n → length mrn = n → length uid = n →
  Forall (λ i, i < n) sort_index →
  ∀ (b a : nat) (d : list Z) (r : list float) (m u : list pyval),
    a + b ≤ length sort_index →
    foldl (PlotControlChart.append_sorted sort_index dates residuals mrn uid)
          (Return (d, r, m, u)) (seq a b)
    = Return (d ++ select dates (take b (drop a sort_index)),
              r ++ select residuals (take b (drop a sort_index)),
              m ++ select mrn (take b (drop a sort_index)),
              u ++ select uid (take b (drop a sort_index))).
Proof.
  intros Hdates Hresiduals Hmrn Huid Hindex.
  induction b as [|b IH]; intros a d r m u Hab.
  - cbn. by rewrite !app_nil_r.
  - destruct (getitem_lt sort_index a) as (i & Hi & Hgeti); [lia|].
    assert (Hin : i < n).
    { rewrite Forall_forall in Hindex. apply Hindex.
      by apply list_elem_of_lookup_2 in Hi. }
    destruct (getitem_lt dates i) as (date & Hdate & Hgetd); [lia|].
    destruct (getitem_lt residuals i) as (residual & Hres & Hgetr); [lia|].
    destruct (getitem_lt mrn i) as (m0 & Hm & Hgetm); [lia|].
    destruct (getitem_lt uid i) as (u0 & Hu & Hgetu); [lia|].
    cbn [seq foldl]. unfold PlotControlChart.append_sorted at 2. cbn.
    rewrite Hgeti. cbn. rewrite Hgetd. cbn. rewrite Hgetr. cbn.
    rewrite Hgetm. cbn. rewrite Hgetu. cbn.
    rewrite IH by lia. rewrite (drop_S _ _ _ Hi). cbn [take].
    rewrite (select_cons _ _ _ _ Hdate), (select_cons _ _ _ _ Hres),
      (select_cons _ _ _ _ Hm), (select_cons _ _ _ _ Hu).
    by rewrite <- !app_assoc.
Qed.

Lemma fmap_succ_seq (a n : nat) :
  (λ i, Z.of_nat i + 1)%Z <$> seq a n = Z.of_nat <$> seq (S a) n.
Proof.
  revert a. induction n as [|n IH]; intros a; [done|].
  cbn. rewrite IH. f_equal. lia.
Qed.

Lemma StronglySorted_seq (a n : nat) : StronglySorted lt (seq a n).
Proof.
  revert a. induction n as [|n IH]; intros a; [constructor|].
  cbn. constructor; [apply IH|].
  apply Forall_forall. intros j Hj. apply elem_of_seq in Hj. lia.
Qed.

(** C10: [get_adjusted_control_chart] reorders the residuals, the mrns, the
    uids and the dates by one and the same permutation of the studies, the
    one that puts them in ascending date order (studies of the same date stay
    in their input order); the returned dates are ascending, and [x] is
    1, 2, ..., n. *)
Theorem adjusted_control_chart_by_date
    (reg_predict : list (list float) → result (list float))
    (X : list (list float)) (y predictions : list float) (mrn uid : list pyval)
    (dates : list Z) :
  reg_predict X = Return predictions →
  length predictions = length y →
  length mrn = length y → length uid = length y → length dates = length y →
  ∃ chart sort_index,
    PlotControlChart.get_adjusted_control_chart reg_predict X y mrn uid dates
    = Return chart
    ∧ sort_index ≡ₚ seq 0 (length y)
    ∧ StronglySorted (date_order dates) sort_index
    ∧ PlotControlChart.chart_residuals chart
      = select (zip_with sub y predictions) sort_index
    ∧ PlotControlChart.chart_mrn chart = select mrn sort_index
    ∧ PlotControlChart.chart_uid chart = select uid sort_index
    ∧ PlotControlChart.chart_dates chart = select dates sort_index
    ∧ length (PlotControlChart.chart_dates chart) = length y
    ∧ Sorted Z.le (PlotControlChart.chart_dates chart)
    ∧ PlotControlChart.chart_x chart = Z.of_nat <$> seq 1 (length y).
Proof.
  intros Hpredict Hpredictions Hmrn Huid Hdates.
  set (key := λ k : nat, default 0%Z (dates !! k)).
  set (sort_index := PlotControlChart.sorted key (seq 0 (length dates))).
  assert (Hperm : sort_index ≡ₚ seq 0 (length y))
    by (rewrite <- Hdates; apply sorted_Permutation).
  assert (Hrange : Forall (λ i, i < length y) sort_index).
  { rewrite Hperm. apply Forall_forall. intros i Hi. apply elem_of_seq in Hi. lia. }
  assert (Hlength : length sort_index = length y)
    by (by rewrite Hperm, length_seq).
  assert (Hsorted : StronglySorted (date_order dates) sort_index)
    by apply sorted_StronglySorted, StronglySorted_seq.
  assert (Hselect : select dates sort_index = key <$> sort_index).
  { apply select_fmap_default. by rewrite Hdates. }
  eexists _, sort_index. split.
  - unfold PlotControlChart.get_adjusted_control_chart. rewrite Hpredict. cbn.
    unfold Numpy.subtract. rewrite bool_decide_eq_true_2 by done. cbn.
    fold key. fold sort_index.
    rewrite (append_sorted_loop sort_index dates (zip_with sub y predictions)
               mrn uid (length y)); try done.
    + rewrite length_zip_with. lia.
    + rewrite Hdates. lia.
  - cbn. rewrite Hdates, drop_0, take_ge by lia.
    repeat split; try done.
    + rewrite Hselect, length_fmap. lia.
    + rewrite Hselect. by apply StronglySorted_keys.
    + apply fmap_succ_seq.
Qed.

Lemma adjusted_control_chart_by_date_witness :
  ∃ chart sort_index,
    PlotControlChart.get_adjusted_control_chart line_predict unordered_X unordered_y
      four_mrns four_uids unordered_dates = Return chart
    ∧ sort_index ≡ₚ seq 0 (length unordered_y)
    ∧ StronglySorted (date_order unordered_dates) sort_index
    ∧ PlotControlChart.chart_residuals chart
      = select (zip_with sub unordered_y [2; 4; 6; 8]%float) sort_index
    ∧ PlotControlChart.chart_mrn chart = select four_mrns sort_index
    ∧ PlotControlChart.chart_uid chart = select four_uids sort_index
    ∧ PlotControlChart.chart_dates chart = select unordered_dates sort_index
    ∧ length (PlotControlChart.chart_dates chart) = length unordered_y
    ∧ Sorted Z.le (PlotControlChart.chart_dates chart)
    ∧ PlotControlChart.chart_x chart = Z.of_nat <$> seq 1 (length unordered_y).
Proof.
  apply (adjusted_control_chart_by_date line_predict unordered_X unordered_y
           [2; 4; 6; 8]%float four_mrns four_uids unordered_dates);
    vm_compute; reflexivity.
Defined.

Example adjusted_control_chart_four_studies :
  PlotControlChart.get_adjusted_control_chart line_predict unordered_X unordered_y
    four_mrns four_uids unordered_dates
  = Return {| PlotControlChart.chart_x := [1; 2; 3; 4]%Z;
              PlotControlChart.chart_residuals := [0; 0.25; 0.5; -0.5]%float;
              PlotControlChart.chart_mrn := [PyStr "b"; PyStr "d"; PyStr "a"; PyStr "c"];
              PlotControlChart.chart_uid :=
                [PyStr "1.2.2"; PyStr "1.2.4"; PyStr "1.2.1"; PyStr "1.2.3"];
              PlotControlChart.chart_dates := [737060; 737060; 737075; 737090]%Z |}.
Proof. vm_compute. reflexivity. Qed.

(** * Further properties of the code *)

(** ** More on [clean_data] *)

Lemma elem_of_select {A} (var : list A) (indices : list nat) (a : A) :
  a ∈ select var indices ↔ ∃ i, i ∈ indices ∧ var !! i = Some a.
Proof. unfold select. apply list_elem_of_omap. Qed.

Lemma select_seq_from {A} (var prefix : list A) :
  select (prefix ++ var) (seq (length prefix) (length var)) = var.
Proof.
  revert prefix. induction var as [|a var IH]; intros prefix; [done|].
  cbn [length seq]. rewrite (select_cons _ _ _ a).
  - f_equal. specialize (IH (prefix ++ [a])).
    rewrite length_app, Nat.add_1_r, <- app_assoc in IH. exact IH.
  - by rewrite lookup_app_r, Nat.sub_diag.
Qed.

Lemma select_seq {A} (var : list A) : select var (seq 0 (length var)) = var.
Proof. apply (select_seq_from var []). Qed.

Lemma kept_indices_empty (n : nat) : kept_indices ∅ n = seq 0 n.
Proof.
  unfold kept_indices. induction (seq 0 n) as [|i l IH]; [done|].
  rewrite filter_cons_True by set_solver. by rewrite IH.
Qed.

Lemma bad_indices_empty (data : list (list pyval)) :
  Forall (λ var, PyStr "None" ∉ var) data → Plot.bad_indices data = ∅.
Proof.
  intros Hdata. apply set_eq. intros i. rewrite elem_of_bad_indices.
  split; [|set_solver]. intros (var & Hvar & Hi).
  rewrite Forall_forall in Hdata. destruct (Hdata var Hvar).
  by apply list_elem_of_lookup_2 in Hi.
Qed.

Lemma clean_data_sentinel_free (data : list (list pyval))
    (mrn uid dates : option (list pyval)) :
  Forall (λ out, PyStr "None" ∉ out)
         (take (length data) (Plot.clean_data data mrn uid dates)).
Proof.
  rewrite clean_data_parts, take_app_length' by (by rewrite length_fmap).
  apply Forall_fmap, Forall_forall. intros var Hvar. cbn.
  rewrite elem_of_select. intros (i & Hkept & Hi).
  apply list_elem_of_filter in Hkept as [Hbad _]. apply Hbad.
  apply elem_of_bad_indices. by exists var.
Qed.

Lemma clean_data_unflagged (data : list (list pyval))
    (mrn uid dates : option (list pyval)) :
  Forall (λ var, PyStr "None" ∉ var) data →
  Plot.clean_data data mrn uid dates
  = data ++ supplied mrn ++ supplied uid ++ supplied dates.
Proof.
  intros Hdata. rewrite clean_data_parts, (bad_indices_empty _ Hdata).
  assert (Hid : ∀ var : list pyval, select var (kept_indices ∅ (length var)) = var)
    by (intros var; by rewrite kept_indices_empty, select_seq).
  f_equal.
  - rewrite <- (list_fmap_id data) at 2. apply list_fmap_ext. intros _ var _. apply Hid.
  - by destruct mrn as [[|??]|], uid as [[|??]|], dates as [[|??]|];
      cbn [companion_part supplied]; rewrite ?Hid.
Qed.

(** X1: no data sequence that [clean_data] returns holds the string
    ['None']. *)
Theorem clean_data_removes_every_sentinel (data : list (list pyval))
    (mrn uid dates : option (list pyval)) :
  Forall (λ out, PyStr "None" ∉ out)
         (take (length data) (Plot.clean_data data mrn uid dates)).
Proof. apply clean_data_sentinel_free. Qed.

(** X2: when no data sequence holds ['None'], [clean_data] hands back the data
    sequences and the non-empty keyword sequences exactly as they came; the
    keyword sequences are not scanned, so one that holds ['None'] itself comes
    back unchanged too. *)
Theorem clean_data_without_sentinel (data : list (list pyval))
    (mrn uid dates : option (list pyval)) :
  Forall (λ var, PyStr "None" ∉ var) data →
  Plot.clean_data data mrn uid dates
  = data ++ supplied mrn ++ supplied uid ++ supplied dates.
Proof. apply clean_data_unflagged. Qed.

Lemma clean_data_without_sentinel_witness :
  Plot.clean_data [[PyInt 1; PyInt 2]; [PyInt 3; PyInt 4]]
    (Some [PyStr "None"; PyStr "b"]) (Some []) None
  = [[PyInt 1; PyInt 2]; [PyInt 3; PyInt 4]]
      ++ supplied (Some [PyStr "None"; PyStr "b"]) ++ supplied (Some []) ++ supplied None.
Proof.
  apply (clean_data_without_sentinel [[PyInt 1; PyInt 2]; [PyInt 3; PyInt 4]]
           (Some [PyStr "None"; PyStr "b"]) (Some []) None).
  repeat constructor; vm_compute; inversion 1; subst;
    repeat match goal with H : _ ∈ _ |- _ => inversion H; clear H; subst end.
Defined.

(** X3: cleaning cleaned data changes nothing: [clean_data] applied to its own
    result on data sequences gives that result again. *)
Theorem clean_data_idempotent (data : list (list pyval)) :
  Plot.clean_data (Plot.clean_data data None None None) None None None
  = Plot.clean_data data None None None.
Proof.
  pose proof (clean_data_sentinel_free data None None None) as Hclean.
  assert (Hlen : length (Plot.clean_data data None None None) = length data)
    by (rewrite clean_data_parts; cbn; by rewrite !app_nil_r, length_fmap).
  rewrite <- Hlen, firstn_all in Hclean.
  rewrite (clean_data_unflagged _ None None None Hclean). cbn.
  by rewrite !app_nil_r.
Qed.

(** ** Clearing the sources *)

Lemma clear_source_data_idemp (data : column_data) :
  clear_source_data (clear_source_data data) = clear_source_data data.
Proof.
  unfold clear_source_data. rewrite <- map_fmap_compose. by apply map_fmap_ext.
Qed.

Lemma clear_source_alter (key : string) (source : sources) :
  is_Some (source !! key) →
  clear_source key source = Return (alter clear_source_data key source).
Proof.
  intros [data Hkey]. unfold clear_source. rewrite Hkey. f_equal.
  apply map_eq. intros k. destruct (decide (key = k)) as [<-|Hne].
  - by rewrite lookup_insert_eq, lookup_alter_eq, Hkey.
  - by rewrite lookup_insert_ne, lookup_alter_ne.
Qed.

Lemma clear_sources_loop_alter (keys : list string) (source : sources) :
  Forall (λ key, is_Some (source !! key)) keys →
  clear_sources_loop keys source
  = Return (foldl (λ source key, alter clear_source_data key source) source keys).
Proof.
  unfold clear_sources_loop. revert source.
  induction keys as [|key keys IH]; intros source Hkeys; [done|].
  apply Forall_cons in Hkeys as [Hkey Hkeys]. cbn.
  rewrite (clear_source_alter _ _ Hkey). apply IH.
  eapply Forall_impl; [exact Hkeys|]. intros k Hk. cbn in Hk.
  destruct (decide (key = k)) as [<-|Hne].
  - rewrite lookup_alter_eq. destruct Hk as [d ->]. by eexists.
  - by rewrite lookup_alter_ne.
Qed.

Lemma lookup_foldl_alter (keys : list string) (source : sources) (k : string) :
  foldl (λ source key, alter clear_source_data key source) source keys !! k
  = if decide (k ∈ keys) then clear_source_data <$> source !! k else source !! k.
Proof.
  revert source. induction keys as [|key keys IH]; intros source; [done|].
  cbn [foldl]. rewrite IH.
  destruct (decide (key = k)) as [<-|Hne].
  - rewrite lookup_alter_eq.
    rewrite (decide_True (P := key ∈ key :: keys)) by left.
    destruct (decide (key ∈ keys)); [|done].
    destruct (source !! key); cbn; [|done]. by rewrite clear_source_data_idemp.
  - rewrite lookup_alter_ne by done.
    destruct (decide (k ∈ keys)) as [Hin|Hout].
    + by rewrite (decide_True (P := k ∈ key :: keys)) by by right.
    + rewrite (decide_False (P := k ∈ key :: keys)); [done|].
      intros [->|?]%elem_of_cons; done.
Qed.

(** X4: the loop of [clear_sources], which calls [clear_source] on each key
    that the dictionary of sources lists, never raises a KeyError and leaves
    every source with its column names and empty columns, whatever the order
    of the keys; [clear_source] on a key that is not in the dictionary raises
    KeyError. *)
Theorem clear_sources_loop_correct (keys : list string) (source : sources) :
  (∀ key, key ∈ keys ↔ is_Some (source !! key)) →
  clear_sources_loop keys source = Return (clear_sources source)
  ∧ (∀ key col, column (clear_sources source) key col
                = (λ _, []) <$> column source key col)
  ∧ (∀ key, source !! key = None → clear_source key source = Raise KeyError).
Proof.
  intros Hkeys. split; [|split].
  - rewrite clear_sources_loop_alter
      by (apply Forall_forall; intros key Hkey; by apply Hkeys).
    f_equal. apply map_eq. intros k. rewrite lookup_foldl_alter.
    unfold clear_sources. rewrite lookup_fmap.
    destruct (decide (k ∈ keys)) as [Hin|Hout]; [done|].
    destruct (source !! k) eqn:Hk; [|done].
    destruct Hout. apply Hkeys. by eexists.
  - intros key col. unfold column, clear_sources, clear_source_data.
    rewrite lookup_fmap. destruct (source !! key) as [data|]; cbn; [|done].
    rewrite lookup_fmap. by destruct (data !! col).
  - intros key Hkey. unfold clear_source. by rewrite Hkey.
Qed.

Lemma clear_sources_loop_correct_witness :
  clear_sources_loop ["patch"; "plot"; "trend"; "hist"; "bound"]
    PlotTimeSeries.init_source
  = Return (clear_sources PlotTimeSeries.init_source).
Proof.
  refine (proj1 (clear_sources_loop_correct ["patch"; "plot"; "trend"; "hist"; "bound"]
                   PlotTimeSeries.init_source _)).
  intros key. unfold PlotTimeSeries.init_source.
  rewrite !list_to_map_cons, !lookup_insert_is_Some, !elem_of_cons, elem_of_nil.
  change (list_to_map [] !! key) with (@None column_data).
  rewrite is_Some_alt.
  destruct (decide ("plot" = key)), (decide ("hist" = key)), (decide ("trend" = key)),
    (decide ("bound" = key)), (decide ("patch" = key)); intuition congruence.
Defined.

(** ** The points of the time series *)

Lemma filter_ext_elem_of {A} (P Q : A → Prop) `{!∀ a, Decision (P a)}
    `{!∀ a, Decision (Q a)} (l : list A) :
  (∀ a, a ∈ l → P a ↔ Q a) → filter P l = filter Q l.
Proof.
  induction l as [|a l IH]; intros HPQ; [done|].
  rewrite !filter_cons. rewrite IH by (intros b Hb; apply HPQ; by right).
  destruct (decide (P a)) as [HP|HP], (decide (Q a)) as [HQ|HQ]; try done.
  - destruct HQ. by apply (HPQ a); [left|].
  - destruct HP. by apply (HPQ a); [left|].
Qed.

Lemma filter_nothing {A} (l : list A) : filter (λ _ : A, False) l = [].
Proof. induction l as [|a l IH]; [done|]. by rewrite filter_cons_False by tauto. Qed.

Lemma elem_of_valid_indices (y : list pyval) (i : nat) :
  i ∈ PlotTimeSeries.valid_indices y
  ↔ ∃ value, y !! i = Some value ∧ value ≠ PyStr "None".
Proof.
  unfold PlotTimeSeries.valid_indices, enumerate. rewrite list_elem_of_fmap. split.
  - intros ([j value] & -> & Hin). apply list_elem_of_filter in Hin as [Hvalid Hin].
    apply elem_of_lookup_imap in Hin as (j' & value' & [= -> ->] & Hlookup).
    cbn in *. exists value'. split; [done|]. intros Hnone.
    apply eq_None_str_true in Hnone. rewrite Hnone in Hvalid. done.
  - intros (value & Hlookup & Hvalue). exists (i, value). split; [done|].
    apply list_elem_of_filter. split.
    + cbn. destruct (eq_None_str value) eqn:Hnone; [|done].
      by apply eq_None_str_true in Hnone.
    + apply elem_of_lookup_imap. by exists i, value.
Qed.

Lemma valid_iff_not_bad (y : list pyval) (i : nat) :
  i < length y → i ∈ PlotTimeSeries.valid_indices y ↔ i ∉ Plot.bad_indices [y].
Proof.
  intros Hi. rewrite elem_of_valid_indices, elem_of_bad_indices.
  destruct (lookup_lt_is_Some_2 y i Hi) as [value Hvalue]. split.
  - intros (v & Hv & Hne) (var & Hvar & Hnone).
    apply list_elem_of_singleton in Hvar as ->. congruence.
  - intros Hbad. exists value. split; [done|]. intros ->. apply Hbad.
    exists y. split; [by apply list_elem_of_singleton|done].
Qed.

Lemma only_valid_select (valid : list nat) (var : list pyval) :
  PlotTimeSeries.only_valid valid var
  = select var (filter (λ i, i ∈ valid) (seq 0 (length var))).
Proof.
  unfold PlotTimeSeries.only_valid, select. rewrite enumerate_zip.
  rewrite (filter_zip_seq (λ i, i ∈ valid) (λ iv, iv.1 ∈ valid) var 0) by done.
  apply omap_ext_elem_of. intros i _. by rewrite Nat.sub_0_r.
Qed.

Lemma select_take {A} (var : list A) (n : nat) (indices : list nat) :
  Forall (λ i, i < n) indices → select (take n var) indices = select var indices.
Proof.
  intros Hindices. unfold select. apply omap_ext_elem_of. intros i Hi.
  rewrite Forall_forall in Hindices. by rewrite lookup_take_lt by by apply Hindices.
Qed.

Lemma only_valid_without_bad (y var : list pyval) :
  PlotTimeSeries.only_valid (PlotTimeSeries.valid_indices y) var
  = Plot.without_bad (Plot.bad_indices [y]) (take (length y) var).
Proof.
  rewrite only_valid_select, without_bad_select. unfold kept_indices.
  rewrite length_take.
  assert (Hfilter :
    filter (λ i, i ∈ PlotTimeSeries.valid_indices y) (seq 0 (length var))
    = filter (λ i, i ∉ Plot.bad_indices [y]) (seq 0 (length y `min` length var))).
  { destruct (Nat.le_ge_cases (length var) (length y)) as [Hle|Hge].
    - rewrite Nat.min_r by done. apply filter_ext_elem_of.
      intros i Hi%elem_of_seq. apply valid_iff_not_bad. lia.
    - rewrite Nat.min_l by done.
      replace (length var) with (length y + (length var - length y)) at 1 by lia.
      rewrite seq_app, filter_app.
      rewrite (filter_ext_elem_of _ (λ i, i ∉ Plot.bad_indices [y]) (seq 0 (length y)))
        by (intros i Hi%elem_of_seq; apply valid_iff_not_bad; lia).
      rewrite (filter_ext_elem_of _ (λ _, False) (seq (0 + length y) _)).
      + by rewrite filter_nothing, app_nil_r.
      + intros i Hi%elem_of_seq. split; [|done].
        intros (value & Hvalue%lookup_lt_Some & _)%elem_of_valid_indices. lia. }
  rewrite Hfilter. symmetry. apply select_take.
  apply Forall_forall. intros i [_ Hi%elem_of_seq]%list_elem_of_filter. lia.
Qed.

(** X5: [update_plot_data] keeps in the plot source exactly the studies whose
    [y] is not ['None']: each of the four columns is the argument cut to the
    length of [y] and filtered as [clean_data] filters when [y] is its only
    data sequence.  The stored [y] holds no ['None'], and the four columns
    have one length when the arguments have. *)
Theorem update_plot_data_filters_like_clean_data (x y mrn uid : list pyval)
    (source : sources) :
  is_Some (source !! "plot") →
  ∃ source',
    PlotTimeSeries.update_plot_data x y mrn uid source = Return source'
    ∧ column source' "plot" "x"
      = Return (Plot.without_bad (Plot.bad_indices [y]) (take (length y) x))
    ∧ column source' "plot" "y" = Return (Plot.without_bad (Plot.bad_indices [y]) y)
    ∧ column source' "plot" "mrn"
      = Return (Plot.without_bad (Plot.bad_indices [y]) (take (length y) mrn))
    ∧ column source' "plot" "uid"
      = Return (Plot.without_bad (Plot.bad_indices [y]) (take (length y) uid))
    ∧ (PyStr "None" ∉ Plot.without_bad (Plot.bad_indices [y]) y)
    ∧ (length x = length y → length mrn = length y → length uid = length y →
       ∀ col l, column source' "plot" col = Return l →
                length l = length y - size (Plot.bad_indices [y])).
Proof.
  intros Hplot. eexists. split.
  { unfold PlotTimeSeries.update_plot_data. by apply set_data_is_Some. }
  rewrite !column_set_data_eq.
  assert (Hy : PlotTimeSeries.only_valid (PlotTimeSeries.valid_indices y) y
               = Plot.without_bad (Plot.bad_indices [y]) y)
    by (by rewrite only_valid_without_bad, firstn_all).
  rewrite <- !only_valid_without_bad, <- Hy.
  split; [by lookup_columns|]. split; [by lookup_columns|].
  split; [by lookup_columns|]. split; [by lookup_columns|]. split.
  - rewrite Hy, without_bad_select, elem_of_select.
    intros (i & [Hbad _]%list_elem_of_filter & Hi). apply Hbad.
    apply elem_of_bad_indices. exists y. split; [by apply list_elem_of_singleton|done].
  - intros Hx Hmrn Huid col l.
    assert (Hlen : ∀ var : list pyval, length var = length y →
      length (PlotTimeSeries.only_valid (PlotTimeSeries.valid_indices y) var)
      = length y - size (Plot.bad_indices [y])).
    { intros var Hvar. rewrite only_valid_without_bad, <- Hvar, firstn_all.
      rewrite without_bad_select, select_length_lt by apply kept_indices_lt.
      rewrite Hvar. apply kept_indices_length. intros i.
      apply bad_indices_lt. by repeat constructor. }
    rewrite column_set_data_eq.
    repeat (rewrite list_to_map_cons, lookup_insert; case_decide;
            [intros [= Hl]; subst l; by apply Hlen|]).
    change (list_to_map [] !! col) with (@None (list pyval)). discriminate.
Qed.

Lemma update_plot_data_filters_like_clean_data_witness :
  ∃ source',
    PlotTimeSeries.update_plot_data five_dates
      [PyInt 10; PyStr "None"; PyInt 30; PyInt 40; PyStr "None"]
      (replicate 5 (PyStr "a")) (replicate 5 (PyStr "1.2")) PlotTimeSeries.init_source
    = Return source'
    ∧ column source' "plot" "y" = Return [PyInt 10; PyInt 30; PyInt 40].
Proof.
  destruct (update_plot_data_filters_like_clean_data five_dates
              [PyInt 10; PyStr "None"; PyInt 30; PyInt 40; PyStr "None"]
              (replicate 5 (PyStr "a")) (replicate 5 (PyStr "1.2"))
              PlotTimeSeries.init_source)
    as (source' & Hreturn & _ & Hy & _).
  - apply is_Some_alt. vm_compute. exact I.
  - exists source'. split; [exact Hreturn|]. rewrite Hy. vm_compute. reflexivity.
Defined.

(** ** Edge behaviour of the control chart *)

Lemma unpack5_length {A} (values : list A) :
  length values ≠ 5 → PlotControlChart.unpack5 values = Raise ValueError.
Proof.
  destruct values as [|a [|b [|c [|d [|e [|??]]]]]]; cbn; intros Hlen; try done.
Qed.

Lemma companion_part_length (bad : gset nat) (var : list pyval) :
  length (companion_part bad (Some var)) = if decide (var = []) then 0 else 1.
Proof. by destruct var. Qed.

(** X6: [update_plot] of the control chart raises a ValueError as soon as one
    of [mrn], [uid], [dates] is an empty list, in particular on a chart
    without studies: [clean_data] leaves the empty sequence out and the tuple
    no longer unpacks into five names. *)
Theorem control_chart_update_plot_empty_companion (options : Options)
    (x y mrn uid dates : list pyval) (source : sources) :
  mrn = [] ∨ uid = [] ∨ dates = [] →
  PlotControlChart.update_plot options x y mrn uid dates source = Raise ValueError.
Proof.
  intros Hempty. unfold PlotControlChart.update_plot.
  rewrite unpack5_length; [done|].
  rewrite clean_data_parts, !length_app, length_fmap, !companion_part_length. cbn.
  destruct Hempty as [->| [->| ->]]; repeat case_decide; try done; cbn; lia.
Qed.

Lemma control_chart_update_plot_empty_companion_witness :
  PlotControlChart.update_plot default_options [] [] [] [] []
    PlotControlChart.init_source = Raise ValueError.
Proof.
  apply (control_chart_update_plot_empty_companion default_options [] [] [] [] []
           PlotControlChart.init_source).
  left. reflexivity.
Defined.

Lemma update_plot_with_modelled (options : Options) (x y mrn uid dates : list pyval)
    (source : sources) :
  PlotControlChart.update_plot_with PlotControlChart.get_control_limits options
    x y mrn uid dates source
  = PlotControlChart.update_plot options x y mrn uid dates source.
Proof.
  unfold PlotControlChart.update_plot_with, PlotControlChart.update_plot,
    PlotControlChart.get_control_limits.
  destruct (PlotControlChart.unpack5 _) as [e|[[[[x' y'] mrn'] uid'] dates']]; [done|].
  cbn [mbind result_bind].
  destruct (np_array y') as [e|values]; [done|]. cbn [mbind result_bind].
  by destruct (Stats.get_control_limits values) as [[center_line ucl] lcl].
Qed.

Lemma update_adjusted_control_chart_with_modelled (options : Options)
    (x residuals mrn uid dates : list pyval) (source : sources) :
  PlotControlChart.update_adjusted_control_chart_with
    PlotControlChart.get_control_limits options x residuals mrn uid dates source
  = PlotControlChart.update_adjusted_control_chart options x residuals mrn uid dates
      source.
Proof.
  unfold PlotControlChart.update_adjusted_control_chart_with,
    PlotControlChart.update_adjusted_control_chart,
    PlotControlChart.get_control_limits.
  destruct (np_array residuals) as [e|values]; [done|]. cbn [mbind result_bind].
  by destruct (Stats.get_control_limits values) as [[center_line ucl] lcl].
Qed.

Lemma update_plot_steps (options : Options) (x y mrn uid dates : list pyval)
    (source : sources) (x' y' mrn' uid' dates' : list pyval) (values : list float) :
  Plot.clean_data [x; y] (Some mrn) (Some uid) (Some dates)
  = [x'; y'; mrn'; uid'; dates'] →
  np_array y' = Return values →
  PlotControlChart.update_plot options x y mrn uid dates source
  = source1 ← set_data "plot"
      (list_to_map
         [("x", x'); ("y", y'); ("mrn", mrn'); ("uid", uid');
          ("color", chart_colors options (Stats.get_control_limits values) values);
          ("alpha", chart_alphas options (Stats.get_control_limits values) values);
          ("dates", dates')])
      (clear_sources source);
    PlotControlChart.set_limit_sources "" x'
      (Stats.get_control_limits values).1.1 (Stats.get_control_limits values).1.2
      (Stats.get_control_limits values).2 source1.
Proof.
  intros Hclean Hvalues. unfold PlotControlChart.update_plot.
  rewrite Hclean. cbn [PlotControlChart.unpack5]. cbn [mbind result_bind].
  rewrite Hvalues. cbn [mbind result_bind].
  unfold chart_colors, chart_alphas.
  destruct (Stats.get_control_limits values) as [[center_line ucl] lcl].
  rewrite !(mapM_pick _ _ _ _ _ _ Hvalues). done.
Qed.

Lemma update_plot_Return (options : Options) (x y mrn uid dates : list pyval)
    (source source' : sources) :
  PlotControlChart.update_plot options x y mrn uid dates source = Return source' →
  ∃ x' y' mrn' uid' dates' values,
    Plot.clean_data [x; y] (Some mrn) (Some uid) (Some dates)
    = [x'; y'; mrn'; uid'; dates']
    ∧ np_array y' = Return values
    ∧ ∀ col, column source' "plot" col
             = column (<["plot" := list_to_map
                 [("x", x'); ("y", y'); ("mrn", mrn'); ("uid", uid');
                  ("color", chart_colors options (Stats.get_control_limits values) values);
                  ("alpha", chart_alphas options (Stats.get_control_limits values) values);
                  ("dates", dates')]]> (∅ : sources)) "plot" col.
Proof.
  intros Hreturn. pose proof Hreturn as H. unfold PlotControlChart.update_plot in H.
  apply bind_Return in H as ([[[[x' y'] mrn'] uid'] dates'] & Hclean & H).
  apply unpack5_Return in Hclean.
  apply bind_Return in H as (values & Hvalues & _).
  exists x', y', mrn', uid', dates', values. split; [done|]. split; [done|].
  rewrite (update_plot_steps _ _ _ _ _ _ _ _ _ _ _ _ _ Hclean Hvalues) in Hreturn.
  apply bind_Return in Hreturn as (source1 & Hplot%set_data_Return & Hlimits).
  subst source1. intros col.
  rewrite (set_limit_sources_other _ _ _ _ _ _ _ "plot" col Hlimits)
    by (cbn; rewrite !elem_of_cons, elem_of_nil; intros [|[|[|[|]]]]; done).
  by rewrite !column_set_data_eq.
Qed.

Lemma select_kept_length (bad : gset nat) (var : list pyval) (n : nat) :
  length var = n → (∀ i, i ∈ bad → i < n) →
  length (select var (kept_indices bad (length var))) = n - size bad.
Proof.
  intros Hvar Hbad. rewrite select_length_lt by apply kept_indices_lt.
  rewrite Hvar. by apply kept_indices_length.
Qed.

Lemma clean_data_chart (x y mrn uid dates : list pyval) :
  mrn ≠ [] → uid ≠ [] → dates ≠ [] →
  Plot.clean_data [x; y] (Some mrn) (Some uid) (Some dates)
  = (λ var, select var (kept_indices (Plot.bad_indices [x; y]) (length var)))
      <$> [x; y; mrn; uid; dates].
Proof.
  intros Hmrn Huid Hdates. rewrite clean_data_parts.
  by destruct mrn, uid, dates.
Qed.

Lemma np_array_length (l : list pyval) (values : list float) :
  np_array l = Return values → length values = length l.
Proof.
  unfold np_array. revert values. induction l as [|value l IH]; intros values H.
  - by injection H as <-.
  - cbn in H. inv_bind H. injection H as <-. cbn. f_equal. by apply IH.
Qed.

Lemma np_array_numbers (l : list pyval) :
  Forall (λ value, is_number value = true) l → ∃ values, np_array l = Return values.
Proof.
  unfold np_array. induction 1 as [|value l Hvalue _ [values IH]]; [by eexists|].
  cbn. rewrite IH. destruct value; try discriminate; cbn; by eexists.
Qed.

(** X7: when the lists are not empty and every study is flagged (each index
    holds ['None'] in [x] or [y]), [update_plot] of the control chart does not
    return, whatever [get_control_limits] is: all cleaned sequences are empty,
    [get_control_limits] is called on the empty list, and either it raises,
    and [update_plot] raises the same exception, or it returns and [x[0]],
    which does not exist, raises an IndexError. *)
Theorem control_chart_update_plot_all_flagged
    (get_control_limits : list pyval → result (float * float * float))
    (options : Options) (x y mrn uid dates : list pyval) (source : sources) (n : nat) :
  0 < n →
  length x = n → length y = n → length mrn = n → length uid = n → length dates = n →
  (∀ i, i < n → i ∈ Plot.bad_indices [x; y]) →
  is_Some (source !! "plot") →
  PlotControlChart.update_plot_with get_control_limits options x y mrn uid dates source
  = match get_control_limits [] with
    | Raise e => Raise e
    | Return _ => Raise IndexError
    end.
Proof.
  intros Hn Hx Hy Hmrn Huid Hdates Hflagged [data Hplot].
  assert (Hclean : Plot.clean_data [x; y] (Some mrn) (Some uid) (Some dates)
                   = [[]; []; []; []; []]).
  { rewrite clean_data_chart by (intros ->; cbn in *; lia). cbn.
    rewrite Hx, Hy, Hmrn, Huid, Hdates, kept_indices_all_flagged by done. done. }
  unfold PlotControlChart.update_plot_with. rewrite Hclean.
  cbn [PlotControlChart.unpack5]. cbn [mbind result_bind].
  destruct (get_control_limits []) as [e|[[center_line ucl] lcl]]; [done|].
  cbn [mbind result_bind mapM].
  unfold set_data, clear_sources. rewrite lookup_fmap, Hplot. done.
Qed.

Lemma control_chart_update_plot_all_flagged_witness :
  PlotControlChart.update_plot_with (λ _, Raise InsufficientDataError) default_options
    [PyInt 1; PyInt 2] [PyStr "None"; PyStr "None"] [PyStr "a"; PyStr "b"]
    [PyStr "1.2.1"; PyStr "1.2.2"] [PyDate 737060; PyDate 737061]
    PlotControlChart.init_source
  = Raise InsufficientDataError.
Proof.
  apply (control_chart_update_plot_all_flagged (λ _, Raise InsufficientDataError)
           default_options
           [PyInt 1; PyInt 2] [PyStr "None"; PyStr "None"] [PyStr "a"; PyStr "b"]
           [PyStr "1.2.1"; PyStr "1.2.2"] [PyDate 737060; PyDate 737061]
           PlotControlChart.init_source 2); try reflexivity; try lia.
  - intros i Hi. apply elem_of_bad_indices.
    exists [PyStr "None"; PyStr "None"]. split; [set_solver|].
    destruct i as [|[|i]]; [done|done|lia].
  - apply is_Some_alt. vm_compute. exact I.
Defined.

(** With the [get_control_limits] of [Stats], which returns on the empty list,
    the exception is the IndexError of [x[0]]. *)
Example control_chart_update_plot_all_flagged_modelled :
  PlotControlChart.update_plot default_options
    [PyInt 1; PyInt 2] [PyStr "None"; PyStr "None"] [PyStr "a"; PyStr "b"]
    [PyStr "1.2.1"; PyStr "1.2.2"] [PyDate 737060; PyDate 737061]
    PlotControlChart.init_source
  = Raise IndexError.
Proof. vm_compute. reflexivity. Qed.

(** X8: when [update_plot] of the control chart returns on lists of one
    length [n], the seven columns of the plot source (x, y, mrn, uid, color,
    alpha, dates) all have the same length, [n] minus the number of flagged
    studies. *)
Theorem control_chart_columns_aligned (options : Options)
    (x y mrn uid dates : list pyval) (source source' : sources) (n : nat) :
  PlotControlChart.update_plot options x y mrn uid dates source = Return source' →
  length x = n → length y = n → length mrn = n → length uid = n → length dates = n →
  Forall (λ col, ∃ l, column source' "plot" col = Return l
                      ∧ length l = n - size (Plot.bad_indices [x; y]))
         ["x"; "y"; "mrn"; "uid"; "color"; "alpha"; "dates"].
Proof.
  intros Hreturn Hx Hy Hmrn Huid Hdates.
  apply update_plot_Return in Hreturn
    as (x' & y' & mrn' & uid' & dates' & values & Hclean & Hvalues & Hcolumns).
  assert (Hbad : ∀ i, i ∈ Plot.bad_indices [x; y] → i < n).
  { intros i. apply bad_indices_lt. repeat constructor; done. }
  assert (Hne : mrn ≠ [] ∧ uid ≠ [] ∧ dates ≠ []).
  { rewrite clean_data_parts in Hclean.
    destruct mrn, uid, dates; cbn in Hclean; try discriminate; done. }
  destruct Hne as (Hmrn' & Huid' & Hdates').
  rewrite clean_data_chart in Hclean by done.
  injection Hclean as <- <- <- <- <-.
  apply np_array_length in Hvalues.
  rewrite (select_kept_length _ _ n) in Hvalues by done.
  repeat (apply Forall_cons; split);
    try (eexists; rewrite Hcolumns, column_set_data_eq; split; [by lookup_columns|]);
    try (unfold chart_colors, chart_alphas; by rewrite length_fmap);
    try (by apply select_kept_length).
  constructor.
Qed.

Lemma control_chart_columns_aligned_witness :
  Forall (λ col, ∃ l, column constant_chart "plot" col = Return l
                      ∧ length l = 4 - size (Plot.bad_indices [four_studies; constant_series]))
         ["x"; "y"; "mrn"; "uid"; "color"; "alpha"; "dates"].
Proof.
  apply (control_chart_columns_aligned default_options four_studies constant_series
           four_mrns four_uids four_dates PlotControlChart.init_source constant_chart 4);
    [exact constant_chart_returns|reflexivity..].
Defined.

Lemma py_min_ints (z : Z) (zs : list Z) :
  py_min (PyInt <$> z :: zs) = Return (PyInt (foldl Z.min z zs)).
Proof.
  unfold py_min. cbn [fmap list_fmap]. revert z.
  induction zs as [|a zs IH]; intros z; [done|].
  cbn [fmap list_fmap foldl]. cbn [mbind result_bind py_lt].
  replace (if (a <? z)%Z then PyInt a else PyInt z) with (PyInt (Z.min z a)); [apply IH|].
  destruct (Z.ltb_spec a z); f_equal; lia.
Qed.

Lemma py_max_ints (z : Z) (zs : list Z) :
  py_max (PyInt <$> z :: zs) = Return (PyInt (foldl Z.max z zs)).
Proof.
  unfold py_max. cbn [fmap list_fmap]. revert z.
  induction zs as [|a zs IH]; intros z; [done|].
  cbn [fmap list_fmap foldl]. cbn [mbind result_bind py_lt].
  replace (if (z <? a)%Z then PyInt a else PyInt z) with (PyInt (Z.max z a)); [apply IH|].
  destruct (Z.ltb_spec z a); f_equal; lia.
Qed.

Lemma foldl_min_spec (z : Z) (zs : list Z) :
  foldl Z.min z zs ∈ z :: zs ∧ Forall (λ a, (foldl Z.min z zs ≤ a)%Z) (z :: zs).
Proof.
  revert z. induction zs as [|a zs IH]; intros z.
  - split; [by left|]. repeat constructor. cbn. lia.
  - cbn [foldl]. destruct (IH (Z.min z a)) as [Hin Hle]. split.
    + apply elem_of_cons in Hin as [->|Hin].
      * destruct (Z.min_spec z a) as [[_ ->]|[_ ->]]; [left|right; left].
      * by do 2 right.
    + apply Forall_cons in Hle as [Hmin Hle].
      constructor; [lia|]. constructor; [lia|done].
Qed.

Lemma foldl_max_spec (z : Z) (zs : list Z) :
  foldl Z.max z zs ∈ z :: zs ∧ Forall (λ a, (a ≤ foldl Z.max z zs)%Z) (z :: zs).
Proof.
  revert z. induction zs as [|a zs IH]; intros z.
  - split; [by left|]. repeat constructor. cbn. lia.
  - cbn [foldl]. destruct (IH (Z.max z a)) as [Hin Hle]. split.
    + apply elem_of_cons in Hin as [->|Hin].
      * destruct (Z.max_spec z a) as [[_ ->]|[_ ->]]; [right; left|left].
      * by do 2 right.
    + apply Forall_cons in Hle as [Hmax Hle].
      constructor; [lia|]. constructor; [lia|done].
Qed.

Lemma set_limit_sources_ints (z : Z) (zs : list Z) (center_line ucl lcl : float)
    (source : sources) :
  Forall (λ key, is_Some (source !! key)) ["patch"; "center_line"; "lcl_line"; "ucl_line"] →
  ∃ source',
    PlotControlChart.set_limit_sources "" (PyInt <$> z :: zs) center_line ucl lcl source
    = Return source'
    ∧ Forall (λ key, column source' key "x"
                     = Return [PyInt (foldl Z.min z zs); PyInt (foldl Z.max z zs)])
             ["center_line"; "lcl_line"; "ucl_line"].
Proof.
  intros Hkeys.
  apply Forall_cons in Hkeys as [Hpatch Hkeys]. apply Forall_cons in Hkeys as [Hcenter Hkeys].
  apply Forall_cons in Hkeys as [Hlcl Hkeys]. apply Forall_cons in Hkeys as [Hucl _].
  unfold PlotControlChart.set_limit_sources.
  destruct (getitem_0_getlast (PyInt <$> z :: zs)) as (first & final & -> & ->); [done|].
  rewrite py_min_ints, py_max_ints. cbn [mbind result_bind String.app].
  rewrite (set_data_is_Some "patch") by done. cbn [mbind result_bind].
  rewrite (set_data_is_Some "center_line") by (by rewrite lookup_insert_ne).
  cbn [mbind result_bind].
  rewrite (set_data_is_Some "lcl_line") by (by rewrite !lookup_insert_ne).
  cbn [mbind result_bind].
  rewrite (set_data_is_Some "ucl_line") by (by rewrite !lookup_insert_ne).
  eexists. split; [done|].
  repeat (apply Forall_cons; split); [| | |constructor].
  - rewrite !(column_set_data_ne _ "center_line") by done.
    rewrite column_set_data_eq. by lookup_columns.
  - rewrite !(column_set_data_ne _ "lcl_line") by done.
    rewrite column_set_data_eq. by lookup_columns.
  - rewrite column_set_data_eq. by lookup_columns.
Qed.

Lemma select_fmap {A B} (f : A → B) (var : list A) (indices : list nat) :
  select (f <$> var) indices = f <$> select var indices.
Proof.
  unfold select. induction indices as [|i indices IH]; [done|].
  cbn. rewrite list_lookup_fmap. destruct (var !! i); cbn; by rewrite IH.
Qed.

Lemma bad_indices_ints (studies : list Z) (y : list pyval) (i : nat) :
  i ∈ Plot.bad_indices [PyInt <$> studies; y] ↔ y !! i = Some (PyStr "None").
Proof.
  rewrite elem_of_bad_indices. split.
  - intros (var & Hvar & Hi). apply elem_of_cons in Hvar as [->|Hvar].
    + rewrite list_lookup_fmap in Hi. by destruct (studies !! i).
    + by apply list_elem_of_singleton in Hvar as ->.
  - intros Hi. exists y. split; [set_solver|done].
Qed.

Lemma update_plot_with_steps
    (get_control_limits : list pyval → result (float * float * float))
    (options : Options) (x y mrn uid dates : list pyval)
    (source : sources) (x' y' mrn' uid' dates' : list pyval) (values : list float)
    (limits : float * float * float) :
  Plot.clean_data [x; y] (Some mrn) (Some uid) (Some dates)
  = [x'; y'; mrn'; uid'; dates'] →
  get_control_limits y' = Return limits →
  np_array y' = Return values →
  PlotControlChart.update_plot_with get_control_limits options x y mrn uid dates source
  = source1 ← set_data "plot"
      (list_to_map
         [("x", x'); ("y", y'); ("mrn", mrn'); ("uid", uid');
          ("color", chart_colors options limits values);
          ("alpha", chart_alphas options limits values);
          ("dates", dates')])
      (clear_sources source);
    PlotControlChart.set_limit_sources "" x' limits.1.1 limits.1.2 limits.2 source1.
Proof.
  intros Hclean Hlimits Hvalues. unfold PlotControlChart.update_plot_with.
  rewrite Hclean. cbn [PlotControlChart.unpack5]. cbn [mbind result_bind].
  rewrite Hlimits. cbn [mbind result_bind].
  unfold chart_colors, chart_alphas.
  destruct limits as [[center_line ucl] lcl].
  rewrite !(mapM_pick _ _ _ _ _ _ Hvalues). done.
Qed.

Lemma select_app_l {A} (var rest : list A) (indices : list nat) :
  Forall (λ i, i < length var) indices →
  select (var ++ rest) indices = select var indices.
Proof.
  unfold select. induction 1 as [|i indices Hi _ IH]; [done|].
  cbn. by rewrite lookup_app_l, IH.
Qed.

Lemma select_app {A} (var : list A) (first rest : list nat) :
  select var (first ++ rest) = select var first ++ select var rest.
Proof. apply omap_app. Qed.

Lemma select_filter_seq {A} (P : nat → Prop) (Q : A → Prop)
    `{!∀ i, Decision (P i)} `{!∀ a, Decision (Q a)} (var : list A) :
  (∀ i a, var !! i = Some a → P i ↔ Q a) →
  select var (filter P (seq 0 (length var))) = filter Q var.
Proof.
  induction var as [|a var IH] using rev_ind; intros HPQ; [done|].
  rewrite length_app, seq_app, !filter_app. cbn [length seq plus].
  rewrite select_app. f_equal.
  - rewrite select_app_l.
    + apply IH. intros i b Hb. apply HPQ. by apply lookup_app_l_Some.
    + apply Forall_forall. intros i [_ Hi%elem_of_seq]%list_elem_of_filter. lia.
  - specialize (HPQ (length var) a (list_lookup_middle _ _ _ _ eq_refl)).
    rewrite !filter_cons, !filter_nil.
    destruct (decide (P (length var))) as [HP|HP], (decide (Q a)) as [HQ|HQ];
      try tauto.
    unfold select. cbn. by rewrite list_lookup_middle.
Qed.

(** X9: [update_plot] of the control chart returns on every well-formed input
    that [get_control_limits] accepts: integer study numbers, lists of one
    length, a [y] made of numbers and ['None'] with at least one number, the
    five sources in place, and [get_control_limits] returning on the numbers
    of [y].  The center line and the two limit lines then run from the
    smallest to the largest study number that is plotted. *)
Theorem control_chart_update_plot_returns
    (get_control_limits : list pyval → result (float * float * float))
    (options : Options) (studies : list Z)
    (y mrn uid dates : list pyval) (source : sources)
    (limits : float * float * float) :
  length y = length studies → length mrn = length studies →
  length uid = length studies → length dates = length studies →
  Forall (λ value, value = PyStr "None" ∨ is_number value = true) y →
  Exists (λ value, value ≠ PyStr "None") y →
  get_control_limits (filter (λ value, negb (eq_None_str value)) y) = Return limits →
  Forall (λ key, is_Some (source !! key)) chart_keys →
  ∃ source' lowest highest,
    PlotControlChart.update_plot_with get_control_limits options
      (PyInt <$> studies) y mrn uid dates source
    = Return source'
    ∧ Forall (λ key, column source' key "x" = Return [PyInt lowest; PyInt highest])
             ["center_line"; "lcl_line"; "ucl_line"]
    ∧ (∀ i z, studies !! i = Some z → y !! i ≠ Some (PyStr "None") →
              (lowest ≤ z ≤ highest)%Z).
Proof.
  intros Hy Hmrn Huid Hdates Hnumbers Hsome Hlimits Hkeys.
  set (x := PyInt <$> studies).
  set (kept := kept_indices (Plot.bad_indices [x; y]) (length studies)).
  assert (Hkept : ∀ i, i ∈ kept ↔ i < length studies ∧ y !! i ≠ Some (PyStr "None")).
  { intros i. unfold kept, kept_indices, x.
    rewrite list_elem_of_filter, elem_of_seq, bad_indices_ints. intuition lia. }
  assert (Hfilter : select y kept = filter (λ value, negb (eq_None_str value)) y).
  { unfold kept, kept_indices. rewrite <- Hy. apply select_filter_seq.
    intros i a Ha. unfold x. rewrite bad_indices_ints, Ha.
    destruct (eq_None_str a) eqn:Hnone; cbn.
    - apply eq_None_str_true in Hnone as ->. tauto.
    - split; [done|]. intros _ [= ->]. discriminate. }
  apply Exists_exists in Hsome as (value & Hvalue & Hne).
  apply list_elem_of_lookup in Hvalue as [i0 Hi0].
  assert (Hn : 0 < length studies) by (apply lookup_lt_Some in Hi0; lia).
  assert (Hclean : Plot.clean_data [x; y] (Some mrn) (Some uid) (Some dates)
                   = [PyInt <$> select studies kept; select y kept; select mrn kept;
                      select uid kept; select dates kept]).
  { rewrite clean_data_chart by (intros ->; cbn in *; lia). cbn [fmap list_fmap].
    assert (Hx : length x = length studies) by apply length_fmap.
    rewrite Hx, Hy, Hmrn, Huid, Hdates. fold kept. unfold x.
    by rewrite select_fmap. }
  destruct (np_array_numbers (select y kept)) as [values Hvalues].
  { apply Forall_forall. intros v (i & Hi & Hv)%elem_of_select.
    apply Hkept in Hi as [_ Hi]. rewrite Forall_forall in Hnumbers.
    destruct (Hnumbers v) as [->|Hnumber]; [by apply list_elem_of_lookup_2 in Hv|done|done]. }
  destruct (select studies kept) as [|z zs] eqn:Hselect.
  { assert (Hin : i0 ∈ kept).
    { apply Hkept. split; [apply lookup_lt_Some in Hi0; lia|congruence]. }
    destruct (lookup_lt_is_Some_2 studies i0) as [z0 Hz0];
      [apply lookup_lt_Some in Hi0; lia|].
    assert (z0 ∈ select studies kept) by (apply elem_of_select; eauto).
    rewrite Hselect in H. by apply elem_of_nil in H. }
  rewrite <- Hfilter in Hlimits.
  rewrite (update_plot_with_steps _ _ _ _ _ _ _ _ _ _ _ _ _ _ _ Hclean Hlimits Hvalues).
  apply Forall_cons in Hkeys as [[data Hplot] Hkeys].
  unfold set_data at 1. unfold clear_sources at 1. rewrite lookup_fmap, Hplot.
  cbn [fmap option_fmap option_map mbind result_bind].
  edestruct (set_limit_sources_ints z zs) as (source' & -> & Hlines).
  { eapply Forall_impl; [exact Hkeys|]. intros key [d Hd]. cbn.
    destruct (decide (key = "plot")) as [->|Hne'].
    - rewrite lookup_insert_eq. by eexists.
    - rewrite lookup_insert_ne by done. unfold clear_sources.
      rewrite lookup_fmap, Hd. by eexists. }
  exists source', (foldl Z.min z zs), (foldl Z.max z zs).
  split; [done|]. split; [exact Hlines|].
  intros i a Ha Hyi.
  assert (Hin : a ∈ z :: zs).
  { rewrite <- Hselect. apply elem_of_select. exists i. split; [|done].
    apply Hkept. split; [by apply lookup_lt_Some in Ha|done]. }
  destruct (foldl_min_spec z zs) as [_ Hmin], (foldl_max_spec z zs) as [_ Hmax].
  rewrite Forall_forall in Hmin, Hmax. split; [by apply Hmin|by apply Hmax].
Qed.

Lemma control_chart_update_plot_returns_witness :
  ∃ source' lowest highest,
    PlotControlChart.update_plot_with PlotControlChart.get_control_limits
      default_options (PyInt <$> [1; 2; 3; 4]%Z)
      [PyInt 5; PyStr "None"; PyFloat 7; PyInt 6] four_mrns four_uids four_dates
      PlotControlChart.init_source
    = Return source'
    ∧ Forall (λ key, column source' key "x" = Return [PyInt lowest; PyInt highest])
             ["center_line"; "lcl_line"; "ucl_line"]
    ∧ (∀ i z, [1; 2; 3; 4]%Z !! i = Some z →
              [PyInt 5; PyStr "None"; PyFloat 7; PyInt 6] !! i ≠ Some (PyStr "None") →
              (lowest ≤ z ≤ highest)%Z).
Proof.
  apply (control_chart_update_plot_returns PlotControlChart.get_control_limits
           default_options [1; 2; 3; 4]%Z
           [PyInt 5; PyStr "None"; PyFloat 7; PyInt 6] four_mrns four_uids four_dates
           PlotControlChart.init_source
           (Stats.get_control_limits [5; 7; 6]%float)); try reflexivity.
  - repeat (apply Forall_cons; split); [by right|by left|by right|by right|constructor].
  - constructor. discriminate.
  - repeat constructor; apply is_Some_alt; vm_compute; exact I.
Defined.

(** ** The other sources of the control chart *)

Lemma column_fmap_clear (source : sources) (key col : string) :
  column (clear_sources source) key col = (λ _, []) <$> column source key col.
Proof.
  unfold column, clear_sources, clear_source_data.
  rewrite lookup_fmap. destruct (source !! key) as [data|]; [|done]. cbn.
  rewrite lookup_fmap. by destruct (data !! col).
Qed.

Lemma update_plot_other_sources (options : Options)
    (x y mrn uid dates : list pyval) (source source' : sources) (key col : string) :
  PlotControlChart.update_plot options x y mrn uid dates source = Return source' →
  key ∉ chart_keys →
  column source' key col = (λ _, []) <$> column source key col.
Proof.
  intros Hreturn Hkey. pose proof Hreturn as H.
  unfold PlotControlChart.update_plot in H.
  apply bind_Return in H as ([[[[x' y'] mrn'] uid'] dates'] & Hclean & H).
  apply unpack5_Return in Hclean.
  apply bind_Return in H as (values & Hvalues & _).
  rewrite (update_plot_steps _ _ _ _ _ _ _ _ _ _ _ _ _ Hclean Hvalues) in Hreturn.
  apply bind_Return in Hreturn as (source1 & Hplot%set_data_Return & Hlimits).
  subst source1. unfold chart_keys in Hkey.
  rewrite (set_limit_sources_other _ _ _ _ _ _ _ key col Hlimits)
    by (cbn; intros Hin; apply Hkey; by right).
  rewrite column_set_data_ne by (intros <-; apply Hkey; by left).
  apply column_fmap_clear.
Qed.

(** X10: [update_plot] of the control chart empties every column of every
    source it does not write itself, those of the adjusted chart included. *)
Theorem control_chart_update_plot_clears_other_sources (options : Options)
    (x y mrn uid dates : list pyval) (source source' : sources) (key col : string) :
  PlotControlChart.update_plot options x y mrn uid dates source = Return source' →
  key ∉ chart_keys →
  column source' key col = (λ _, []) <$> column source key col.
Proof. apply update_plot_other_sources. Qed.

Lemma constant_chart_redrawn_returns :
  PlotControlChart.update_plot default_options four_studies constant_series
    four_mrns four_uids four_dates constant_chart_adjusted
  = Return constant_chart_redrawn.
Proof. vm_cast_no_check (@eq_refl (result sources) (Return constant_chart_redrawn)). Qed.

Lemma control_chart_update_plot_clears_other_sources_witness :
  column constant_chart_adjusted "adj_plot" "y" = Return four_residuals
  ∧ column constant_chart_redrawn "adj_plot" "y"
    = (λ _, []) <$> column constant_chart_adjusted "adj_plot" "y".
Proof.
  split; [vm_compute; reflexivity|].
  apply (control_chart_update_plot_clears_other_sources default_options four_studies
           constant_series four_mrns four_uids four_dates constant_chart_adjusted
           constant_chart_redrawn "adj_plot" "y" constant_chart_redrawn_returns).
  unfold chart_keys. rewrite !elem_of_cons, elem_of_nil.
  intros [|[|[|[|[|]]]]]; done.
Defined.

(** X11: [update_adjusted_control_chart] writes the five sources of the adjusted
    chart and nothing else: every column of every other source, the chart of
    the charting variable included, is as it was. *)
Theorem adjusted_chart_update_keeps_other_sources (options : Options)
    (x residuals mrn uid dates : list pyval) (source source' : sources)
    (key col : string) :
  PlotControlChart.update_adjusted_control_chart options x residuals mrn uid dates source
  = Return source' →
  key ∉ adjusted_chart_keys →
  column source' key col = column source key col.
Proof.
  unfold PlotControlChart.update_adjusted_control_chart. intros H Hkey.
  apply bind_Return in H as (values & Hvalues & H).
  destruct (Stats.get_control_limits values) as [[center_line ucl] lcl].
  apply bind_Return in H as (color & _ & H).
  apply bind_Return in H as (alpha & _ & H).
  apply bind_Return in H as (source1 & Hplot%set_data_Return & H).
  subst source1. unfold adjusted_chart_keys in Hkey.
  rewrite (set_limit_sources_other _ _ _ _ _ _ _ key col H)
    by (cbn; intros Hin; apply Hkey; by right).
  apply column_set_data_ne. intros <-. apply Hkey. by left.
Qed.

Lemma adjusted_chart_update_keeps_other_sources_witness :
  column constant_chart_adjusted "plot" "y" = column constant_chart "plot" "y"
  ∧ column constant_chart "plot" "y" = Return constant_series.
Proof.
  split; [|vm_compute; reflexivity].
  apply (adjusted_chart_update_keeps_other_sources default_options four_studies
           four_residuals four_mrns four_uids four_dates constant_chart
           constant_chart_adjusted "plot" "y" constant_chart_adjusted_returns).
  unfold adjusted_chart_keys. rewrite !elem_of_cons, elem_of_nil.
  intros [|[|[|[|[|]]]]]; done.
Defined.

(** ** The adjusted chart of studies given in date order, or with columns too
    short *)

Lemma insert_by_key_head (key : nat → Z) (i : nat) (l : list nat) :
  (∀ j, head l = Some j → (key i ≤ key j)%Z) →
  PlotControlChart.insert_by_key key i l = i :: l.
Proof.
  destruct l as [|j l]; [done|]. intros Hhead. cbn.
  specialize (Hhead j eq_refl).
  destruct (Z.ltb_spec (key j) (key i)); [lia|done].
Qed.

Lemma sorted_seq_ascending (key : nat → Z) (n a : nat) :
  (∀ i, a ≤ i → S i < a + n → (key i ≤ key (S i))%Z) →
  PlotControlChart.sorted key (seq a n) = seq a n.
Proof.
  revert a. induction n as [|n IH]; intros a Hkey; [done|].
  change (PlotControlChart.sorted key (seq a (S n)))
    with (PlotControlChart.insert_by_key key a (PlotControlChart.sorted key (seq (S a) n))).
  rewrite IH by (intros i ? ?; apply Hkey; lia).
  apply insert_by_key_head. destruct n as [|n]; [done|].
  cbn. intros j [= <-]. apply Hkey; lia.
Qed.

Lemma Sorted_lookup_succ (l : list Z) (i : nat) (a b : Z) :
  Sorted Z.le l → l !! i = Some a → l !! S i = Some b → (a ≤ b)%Z.
Proof.
  intros Hsorted. revert i. induction Hsorted as [|c l Hsorted IH Hhd]; intros i; [done|].
  destruct i as [|i]; cbn.
  - intros [= ->] Hb. destruct l as [|d l]; [done|].
    cbn in Hb. injection Hb as ->. by apply HdRel_inv in Hhd.
  - apply IH.
Qed.

Lemma select_all {A} (var : list A) (n : nat) :
  length var = n → select var (take n (drop 0 (seq 0 n))) = var.
Proof.
  intros <-. rewrite drop_0, take_ge by (rewrite length_seq; lia). apply select_seq.
Qed.

(** X12: when the studies are handed over in ascending date order already
    (equal dates allowed), [get_adjusted_control_chart] leaves every column
    in its input order: the residuals are y - prediction study by study. *)
Theorem adjusted_control_chart_in_date_order
    (reg_predict : list (list float) → result (list float))
    (X : list (list float)) (y predictions : list float) (mrn uid : list pyval)
    (dates : list Z) :
  reg_predict X = Return predictions →
  length predictions = length y →
  length mrn = length y → length uid = length y → length dates = length y →
  Sorted Z.le dates →
  PlotControlChart.get_adjusted_control_chart reg_predict X y mrn uid dates
  = Return {| PlotControlChart.chart_x := Z.of_nat <$> seq 1 (length y);
              PlotControlChart.chart_residuals := zip_with sub y predictions;
              PlotControlChart.chart_mrn := mrn;
              PlotControlChart.chart_uid := uid;
              PlotControlChart.chart_dates := dates |}.
Proof.
  intros Hpredict Hpredictions Hmrn Huid Hdates Hsorted.
  assert (Hresiduals : length (zip_with sub y predictions) = length y)
    by (rewrite length_zip_with; lia).
  unfold PlotControlChart.get_adjusted_control_chart. rewrite Hpredict. cbn.
  unfold Numpy.subtract. rewrite bool_decide_eq_true_2 by done. cbn.
  rewrite sorted_seq_ascending.
  - rewrite (append_sorted_loop (seq 0 (length dates)) dates
               (zip_with sub y predictions) mrn uid (length y)); try done.
    + rewrite !select_all by congruence. cbn. by rewrite fmap_succ_seq.
    + rewrite Hdates. apply Forall_forall. intros i Hi. apply elem_of_seq in Hi. lia.
    + rewrite length_seq. lia.
  - intros i _ Hi. cbn in Hi.
    destruct (lookup_lt_is_Some_2 dates i) as [a Ha]; [lia|].
    destruct (lookup_lt_is_Some_2 dates (S i)) as [b Hb]; [lia|].
    rewrite Ha, Hb. cbn. by eapply Sorted_lookup_succ.
Qed.

Lemma adjusted_control_chart_in_date_order_witness :
  PlotControlChart.get_adjusted_control_chart line_predict unordered_X unordered_y
    four_mrns four_uids ordered_dates
  = Return {| PlotControlChart.chart_x := Z.of_nat <$> seq 1 (length unordered_y);
              PlotControlChart.chart_residuals :=
                zip_with sub unordered_y [2; 4; 6; 8]%float;
              PlotControlChart.chart_mrn := four_mrns;
              PlotControlChart.chart_uid := four_uids;
              PlotControlChart.chart_dates := ordered_dates |}.
Proof.
  apply (adjusted_control_chart_in_date_order line_predict unordered_X unordered_y
           [2; 4; 6; 8]%float four_mrns four_uids ordered_dates);
    try (vm_compute; reflexivity).
  unfold ordered_dates. repeat (constructor; try lia).
Defined.

Lemma append_sorted_Raise (sort_index : list nat) (dates : list Z)
    (residuals : list float) (mrn uid : list pyval) (e : exn) (l : list nat) :
  foldl (PlotControlChart.append_sorted sort_index dates residuals mrn uid) (Raise e) l
  = Raise e.
Proof. induction l as [|s l IH]; [done|]. cbn. apply IH. Qed.

Lemma append_sorted_lookups (sort_index : list nat) (dates : list Z)
    (residuals : list float) (mrn uid : list pyval) (l : list nat)
    (acc : list Z * list float * list pyval * list pyval) :
  foldl (PlotControlChart.append_sorted sort_index dates residuals mrn uid)
        (Return acc) l = Raise IndexError
  ∨ ∀ s, s ∈ l →
      ∃ i, sort_index !! s = Some i ∧ i < length dates ∧ i < length residuals
           ∧ i < length mrn ∧ i < length uid.
Proof.
  revert acc. induction l as [|s l IH]; intros [[[d r] m] u].
  - right. intros s Hs. by apply elem_of_nil in Hs.
  - cbn [foldl]. unfold PlotControlChart.append_sorted at 2, getitem.
    cbn [mbind result_bind].
    destruct (sort_index !! s) as [i|] eqn:Hi;
      [|left; apply append_sorted_Raise].
    cbn [mbind result_bind].
    destruct (dates !! i) as [date|] eqn:Hdate;
      [|left; apply append_sorted_Raise].
    cbn [mbind result_bind].
    destruct (residuals !! i) as [residual|] eqn:Hresidual;
      [|left; apply append_sorted_Raise].
    cbn [mbind result_bind].
    destruct (mrn !! i) as [m0|] eqn:Hm; [|left; apply append_sorted_Raise].
    cbn [mbind result_bind].
    destruct (uid !! i) as [u0|] eqn:Hu; [|left; apply append_sorted_Raise].
    cbn [mbind result_bind mret result_ret].
    destruct (IH (d ++ [date], r ++ [residual], m ++ [m0], u ++ [u0])) as [Hraise|Hall];
      [by left|right].
    intros s' [->|Hs']%elem_of_cons; [|by apply Hall].
    exists i. apply lookup_lt_Some in Hdate, Hresidual, Hm, Hu. done.
Qed.

(** X13: when the patient columns or the response are shorter than the dates,
    [get_adjusted_control_chart] raises an [IndexError]: the loop over the
    dates reaches the last study in whatever position the sort puts it. *)
Theorem adjusted_control_chart_short_column
    (reg_predict : list (list float) → result (list float))
    (X : list (list float)) (y predictions : list float) (mrn uid : list pyval)
    (dates : list Z) :
  reg_predict X = Return predictions →
  length predictions = length y →
  length y < length dates ∨ length mrn < length dates ∨ length uid < length dates →
  PlotControlChart.get_adjusted_control_chart reg_predict X y mrn uid dates
  = Raise IndexError.
Proof.
  intros Hpredict Hpredictions Hshort.
  unfold PlotControlChart.get_adjusted_control_chart. rewrite Hpredict. cbn.
  unfold Numpy.subtract. rewrite bool_decide_eq_true_2 by done. cbn.
  set (sort_index := PlotControlChart.sorted _ _).
  destruct (append_sorted_lookups sort_index dates (zip_with sub y predictions) mrn uid
              (seq 0 (length dates)) ([], [], [], [])) as [->|Hall]; [done|].
  exfalso.
  assert (Hperm : sort_index ≡ₚ seq 0 (length dates)) by apply sorted_Permutation.
  assert (Hlast : length dates - 1 ∈ sort_index).
  { rewrite Hperm. apply elem_of_seq. lia. }
  apply list_elem_of_lookup_1 in Hlast as [s Hs].
  assert (Hrange : s ∈ seq 0 (length dates)).
  { apply lookup_lt_Some in Hs. rewrite Hperm, length_seq in Hs.
    apply elem_of_seq. lia. }
  destruct (Hall s Hrange) as (i & Hi & Hd & Hr & Hm & Hu).
  rewrite Hs in Hi. injection Hi as <-.
  rewrite length_zip_with in Hr. lia.
Qed.

Lemma adjusted_control_chart_short_column_witness :
  PlotControlChart.get_adjusted_control_chart line_predict unordered_X unordered_y
    (take 3 four_mrns) four_uids unordered_dates
  = Raise IndexError.
Proof.
  apply (adjusted_control_chart_short_column line_predict unordered_X unordered_y
           [2; 4; 6; 8]%float (take 3 four_mrns) four_uids unordered_dates);
    [reflexivity|reflexivity|].
  right. left. cbn. lia.
Defined.

(** ** Rows of the CSV exports *)

Lemma occurs_str_replace (old new : Ascii.ascii) (s : string) :
  old ≠ new → occurs old (str_replace old new s) = false.
Proof.
  intros Hnew. induction s as [|c s IH]; [done|]. cbn. rewrite IH, orb_false_r.
  destruct (Ascii.eqb_spec c old) as [->|Hc].
  - by apply Ascii.eqb_neq.
  - by apply Ascii.eqb_neq.
Qed.

Lemma split_on_free (sep : Ascii.ascii) (s : string) :
  occurs sep s = false → split_on sep s = [s].
Proof.
  induction s as [|c s IH]; [done|]. cbn. intros [Hc Hs]%orb_false_elim.
  by rewrite Hc, IH.
Qed.

Lemma split_on_app (sep : Ascii.ascii) (cell rest : string) :
  occurs sep cell = false →
  split_on sep (cell +:+ String sep rest) = cell :: split_on sep rest.
Proof.
  induction cell as [|c cell IH].
  - intros _. change ("" +:+ String sep rest) with (String sep rest).
    cbn. by rewrite Ascii.eqb_refl.
  - intros [Hc Hcell]%orb_false_elim.
    change (String c cell +:+ String sep rest)
      with (String c (cell +:+ String sep rest)).
    cbn [split_on]. by rewrite Hc, IH.
Qed.

Lemma split_on_concat (sep : Ascii.ascii) (cell : string) (cells : list string) :
  Forall (λ c, occurs sep c = false) (cell :: cells) →
  split_on sep (String.concat (String sep EmptyString) (cell :: cells)) = cell :: cells.
Proof.
  revert cell. induction cells as [|cell' cells IH]; intros cell Hfree.
  - apply Forall_cons in Hfree as [Hcell _]. by apply split_on_free.
  - apply Forall_cons in Hfree as [Hcell Hfree].
    change (String.concat (String sep EmptyString) (cell :: cell' :: cells))
      with (cell +:+ String sep (String.concat (String sep EmptyString) (cell' :: cells))).
    by rewrite split_on_app, IH.
Qed.

Lemma csv_cells_Return (str : pyval → string) (data : column_data)
    (keys : list string) (i : nat) (values : list pyval) :
  Forall2 (λ key value, ∃ l, data !! key = Some l ∧ l !! i = Some value) keys values →
  csv_cells str data keys i = Return (csv_cell str <$> values).
Proof.
  unfold csv_cells. induction 1 as [|key value keys values (l & Hl & Hi) _ IH]; [done|].
  assert (Hcol : data_column data key = Return l)
    by (unfold data_column; by rewrite Hl).
  assert (Hget : getitem l i = Return value) by (unfold getitem; by rewrite Hi).
  cbn. rewrite Hcol. cbn. rewrite Hget. cbn. by rewrite IH.
Qed.

Lemma split_on_cells (str : pyval → string) (values : list pyval) :
  values ≠ [] →
  split_on ","%char (String.concat "," (csv_cell str <$> values)) = csv_cell str <$> values.
Proof.
  destruct values as [|value values]; [done|]. intros _. cbn [fmap list_fmap].
  apply split_on_concat.
  change (Forall (λ c, occurs ","%char c = false) (csv_cell str <$> value :: values)).
  apply Forall_fmap, Forall_forall. intros v _. by apply occurs_str_replace.
Qed.

Lemma foldl_append_rows {A} (step : result (list A) → nat → result (list A))
    (P : nat → A → Prop) (l : list nat) (rows acc : list A) :
  (∀ acc i row, P i row → step (Return acc) i = Return (acc ++ [row])) →
  Forall2 P l rows → foldl step (Return acc) l = Return (acc ++ rows).
Proof.
  intros Hstep Hrows. revert acc.
  induction Hrows as [|i row l rows Hi _ IH]; intros acc.
  - by rewrite app_nil_r.
  - cbn. rewrite (Hstep _ _ _ Hi), IH. by rewrite <- app_assoc.
Qed.

Lemma column_data_column (source : sources) (key col : string) (l : list pyval) :
  column source key col = Return l →
  ∃ data, source !! key = Some data ∧ data !! col = Some l.
Proof.
  unfold column. destruct (source !! key) as [data|]; [|discriminate].
  destruct (data !! col) as [l'|] eqn:Hcol; [|discriminate].
  intros [= ->]. eauto.
Qed.

(** X14: when the columns of the time series are as long as its [mrn] column,
    [get_csv] produces the title row and one row per point, and splitting a
    row at its commas gives back the four cells of the point, whatever their
    text: a comma inside a cell has become a [^]. *)
Theorem time_series_csv_rows (str : pyval → string) (y_axis_label : string)
    (source : sources) (mrn uid x y : list pyval) :
  column source "plot" "mrn" = Return mrn →
  column source "plot" "uid" = Return uid →
  column source "plot" "x" = Return x →
  column source "plot" "y" = Return y →
  length mrn ≤ length uid → length mrn ≤ length x → length mrn ≤ length y →
  ∃ rows,
    PlotTimeSeries.csv_data str y_axis_label source
    = Return (("MRN,Study Instance UID,Date," +:+ y_axis_label) :: rows)
    ∧ length rows = length mrn
    ∧ ∀ i row, rows !! i = Some row →
        ∃ m u xv yv,
          mrn !! i = Some m ∧ uid !! i = Some u ∧ x !! i = Some xv ∧ y !! i = Some yv
          ∧ split_on ","%char row = csv_cell str <$> [m; u; xv; yv].
Proof.
  intros (data & Hplot & Hmrn)%column_data_column (? & Hplot1 & Huid)%column_data_column
    (? & Hplot2 & Hx)%column_data_column (? & Hplot3 & Hy)%column_data_column
    Hlen_uid Hlen_x Hlen_y.
  rewrite Hplot in Hplot1, Hplot2, Hplot3.
  injection Hplot1 as <-. injection Hplot2 as <-. injection Hplot3 as <-.
  set (values := λ i : nat, omap (λ l : list pyval, l !! i) [mrn; uid; x; y]).
  set (row := λ i : nat, String.concat "," (csv_cell str <$> values i)).
  assert (Hvalues : ∀ i, i < length mrn →
    ∃ m u xv yv, mrn !! i = Some m ∧ uid !! i = Some u ∧ x !! i = Some xv
                 ∧ y !! i = Some yv ∧ values i = [m; u; xv; yv]).
  { intros i Hi.
    destruct (lookup_lt_is_Some_2 mrn i) as [m Hm]; [lia|].
    destruct (lookup_lt_is_Some_2 uid i) as [u Hu]; [lia|].
    destruct (lookup_lt_is_Some_2 x i) as [xv Hxv]; [lia|].
    destruct (lookup_lt_is_Some_2 y i) as [yv Hyv]; [lia|].
    exists m, u, xv, yv. unfold values. cbn. by rewrite Hm, Hu, Hxv, Hyv. }
  exists (row <$> seq 0 (length mrn)).
  split; [|split].
  - unfold PlotTimeSeries.csv_data, source_data. rewrite Hplot.
    cbn [mbind result_bind]. unfold data_column at 1. rewrite Hmrn.
    cbn [mbind result_bind].
    apply (foldl_append_rows _ (λ i r, i < length mrn ∧ r = row i) _ _
             ["MRN,Study Instance UID,Date," +:+ y_axis_label]).
    + intros acc i r [Hi ->].
      destruct (Hvalues i Hi) as (m & u & xv & yv & Hm & Hu & Hxv & Hyv & Hrow).
      rewrite (csv_cells_Return str data _ i [m; u; xv; yv]).
      * unfold row. by rewrite Hrow.
      * repeat constructor; eauto.
    + apply Forall2_fmap_r, Forall_Forall2_diag, Forall_forall.
      intros i Hi%elem_of_seq. split; [lia|done].
  - by rewrite length_fmap, length_seq.
  - intros i r Hr. apply list_lookup_fmap_Some in Hr as (j & -> & Hj).
    apply lookup_seq in Hj as [-> Hi]. change (0 + i) with i in *.
    destruct (Hvalues i Hi) as (m & u & xv & yv & Hm & Hu & Hxv & Hyv & Hrow).
    exists m, u, xv, yv. repeat (split; [done|]).
    unfold row. rewrite Hrow. by apply split_on_cells.
Qed.

Lemma time_series_csv_rows_witness :
  ∃ rows,
    PlotTimeSeries.csv_data str_stand_in "Dose" five_points_source
    = Return (("MRN,Study Instance UID,Date," +:+ "Dose") :: rows)
    ∧ length rows = length (replicate 5 (PyStr "a"))
    ∧ ∀ i row, rows !! i = Some row →
        ∃ m u xv yv,
          replicate 5 (PyStr "a") !! i = Some m
          ∧ replicate 5 (PyStr "1.2") !! i = Some u
          ∧ five_dates !! i = Some xv ∧ five_points !! i = Some yv
          ∧ split_on ","%char row = csv_cell str_stand_in <$> [m; u; xv; yv].
Proof.
  apply (time_series_csv_rows str_stand_in "Dose" five_points_source
           (replicate 5 (PyStr "a")) (replicate 5 (PyStr "1.2")) five_dates five_points);
    try (vm_compute; reflexivity); cbn; lia.
Defined.

Lemma split_on_cons (sep : Ascii.ascii) (s : string) :
  ∃ cell cells, split_on sep s = cell :: cells.
Proof.
  destruct s as [|c s]; cbn; [by eexists _, _|].
  destruct (Ascii.eqb c sep); [by eexists _, _|].
  destruct (split_on sep s); by eexists _, _.
Qed.

Lemma split_on_append (sep : Ascii.ascii) (a b : string) :
  split_on sep (a +:+ String sep b) = split_on sep a ++ split_on sep b.
Proof.
  induction a as [|c a IH].
  - change ("" +:+ String sep b) with (String sep b). cbn.
    by rewrite Ascii.eqb_refl.
  - change (String c a +:+ String sep b) with (String c (a +:+ String sep b)).
    cbn [split_on]. rewrite IH. destruct (Ascii.eqb c sep); [done|].
    by destruct (split_on_cons sep a) as (cell & cells & ->).
Qed.

Lemma foldl_Raise {A B} (step : result A → B → result A) (e : exn) (l : list B) :
  (∀ b, step (Raise e) b = Raise e) → foldl step (Raise e) l = Raise e.
Proof. intros Hstep. induction l as [|b l IH]; [done|]. cbn. by rewrite Hstep. Qed.

Section control_chart_csv.

Variable str : pyval → string.
Variable y_axis_label : string.
Variable model_name : option (option string).
Variable source : sources.
Variables mrn uid x dates y resid : list pyval.

Hypothesis Hmrn : column source "plot" "mrn" = Return mrn.
Hypothesis Huid : column source "plot" "uid" = Return uid.
Hypothesis Hx : column source "plot" "x" = Return x.
Hypothesis Hdates : column source "plot" "dates" = Return dates.
Hypothesis Hy : column source "plot" "y" = Return y.
Hypothesis Hresid : column source "adj_plot" "y" = Return resid.
Hypothesis Hlen_uid : length mrn ≤ length uid.
Hypothesis Hlen_x : length mrn ≤ length x.
Hypothesis Hlen_dates : length mrn ≤ length dates.
Hypothesis Hlen_y : length mrn ≤ length y.

Lemma chart_point (i : nat) :
  i < length mrn →
  ∃ m u xv d yv,
    mrn !! i = Some m ∧ uid !! i = Some u ∧ x !! i = Some xv ∧ dates !! i = Some d
    ∧ y !! i = Some yv.
Proof.
  intros Hi.
  destruct (lookup_lt_is_Some_2 mrn i) as [m Hm]; [lia|].
  destruct (lookup_lt_is_Some_2 uid i) as [u Hu]; [lia|].
  destruct (lookup_lt_is_Some_2 x i) as [xv Hxv]; [lia|].
  destruct (lookup_lt_is_Some_2 dates i) as [d Hd]; [lia|].
  destruct (lookup_lt_is_Some_2 y i) as [yv Hyv]; [lia|].
  by exists m, u, xv, d, yv.
Qed.

Lemma control_chart_csv_loop (name : option string) :
  resid = [] ∨ model_name = Some name →
  ∃ data : column_data,
    source !! "plot" = Some data
    ∧ PlotControlChart.csv_data str y_axis_label model_name source
      = foldl (PlotControlChart.append_row str data resid)
              (Return [chart_csv_title y_axis_label name resid])
              (seq 0 (length mrn)).
Proof.
  intros Hname.
  apply column_data_column in Hmrn as (data & Hplot & Hcol).
  apply column_data_column in Hresid as (adj_data & Hadj & Hadj_y).
  exists data. split; [done|].
  assert (Hcol_y : data_column adj_data "y" = Return resid)
    by (unfold data_column; by rewrite Hadj_y).
  assert (Hcol_mrn : data_column data "mrn" = Return mrn)
    by (unfold data_column; by rewrite Hcol).
  unfold PlotControlChart.csv_data, source_data, chart_csv_title.
  rewrite Hplot, Hadj.
  cbn [mbind result_bind]. rewrite Hcol_y. cbn [mbind result_bind].
  destruct Hname as [->| ->].
  - rewrite !bool_decide_eq_false_2 by (by intros []).
    cbn [mbind result_bind]. by rewrite Hcol_mrn.
  - case_bool_decide; cbn [PlotControlChart.read_model_name mbind result_bind];
      by rewrite Hcol_mrn.
Qed.

Lemma control_chart_csv_unset :
  resid ≠ [] → model_name = None →
  PlotControlChart.csv_data str y_axis_label model_name source = Raise AttributeError.
Proof.
  intros Hnonempty ->.
  apply column_data_column in Hmrn as (data & Hplot & Hcol).
  apply column_data_column in Hresid as (adj_data & Hadj & Hadj_y).
  assert (Hcol_y : data_column adj_data "y" = Return resid)
    by (unfold data_column; by rewrite Hadj_y).
  unfold PlotControlChart.csv_data, source_data. rewrite Hplot, Hadj.
  cbn [mbind result_bind]. rewrite Hcol_y. cbn [mbind result_bind].
  by rewrite bool_decide_eq_true_2 by done.
Qed.

Lemma chart_cells (data : column_data) (i : nat) :
  source !! "plot" = Some data → i < length mrn →
  ∃ m u xv d yv,
    mrn !! i = Some m ∧ uid !! i = Some u ∧ x !! i = Some xv ∧ dates !! i = Some d
    ∧ y !! i = Some yv
    ∧ csv_cells str data ["mrn"; "uid"; "x"; "dates"; "y"] i
      = Return (csv_cell str <$> [m; u; xv; d; yv]).
Proof.
  intros Hplot Hi.
  destruct (chart_point i Hi) as (m & u & xv & d & yv & Hm & Hu & Hxv & Hd & Hyv).
  exists m, u, xv, d, yv. repeat (split; [done|]).
  apply column_data_column in Hmrn as (? & Hplot0 & Hcol_mrn).
  apply column_data_column in Huid as (? & Hplot1 & Hcol_uid).
  apply column_data_column in Hx as (? & Hplot2 & Hcol_x).
  apply column_data_column in Hdates as (? & Hplot3 & Hcol_dates).
  apply column_data_column in Hy as (? & Hplot4 & Hcol_y).
  rewrite Hplot in Hplot0, Hplot1, Hplot2, Hplot3, Hplot4.
  injection Hplot0 as <-. injection Hplot1 as <-. injection Hplot2 as <-.
  injection Hplot3 as <-. injection Hplot4 as <-.
  apply csv_cells_Return. repeat constructor; eauto.
Qed.

Lemma append_row_rows (data : column_data) (k : nat) :
  source !! "plot" = Some data → k ≤ length mrn → resid = [] ∨ k ≤ length resid →
  ∃ rows,
    Forall2 (λ i row,
               ∃ m u xv d yv,
                 mrn !! i = Some m ∧ uid !! i = Some u ∧ x !! i = Some xv
                 ∧ dates !! i = Some d ∧ y !! i = Some yv
                 ∧ (∀ acc, PlotControlChart.append_row str data resid (Return acc) i
                           = Return (acc ++ [row]))
                 ∧ ∃ cells,
                     option_list (resid !! i) = cells
                     ∧ row = foldl (λ row cell, row +:+ "," +:+ str cell)
                               (String.concat "," (csv_cell str <$> [m; u; xv; d; yv]))
                               cells)
            (seq 0 k) rows.
Proof.
  intros Hplot Hk Hresid_len. induction k as [|k IH].
  - exists []. constructor.
  - destruct IH as [rows IH]; [lia|destruct Hresid_len; [by left|right; lia]|].
    destruct (chart_cells data k Hplot) as (m & u & xv & d & yv & Hm & Hu & Hxv & Hd & Hyv & Hcells);
      [lia|].
    rewrite seq_S. cbn [plus].
    destruct Hresid_len as [Hnil|Hlen].
    + exists (rows ++ [String.concat "," (csv_cell str <$> [m; u; xv; d; yv])]).
      apply Forall2_app; [done|]. constructor; [|constructor].
      exists m, u, xv, d, yv. repeat (split; [done|]). split.
      * intros acc. unfold PlotControlChart.append_row. cbn [mbind result_bind].
        rewrite Hcells. cbn [mbind result_bind].
        by rewrite bool_decide_eq_false_2 by (by intros []).
      * exists []. by rewrite Hnil.
    + destruct (lookup_lt_is_Some_2 resid k) as [r Hr]; [lia|].
      exists (rows ++ [String.concat "," (csv_cell str <$> [m; u; xv; d; yv])
                       +:+ "," +:+ str r]).
      apply Forall2_app; [done|]. constructor; [|constructor].
      exists m, u, xv, d, yv. repeat (split; [done|]). split.
      * intros acc. unfold PlotControlChart.append_row. cbn [mbind result_bind].
        rewrite Hcells. cbn [mbind result_bind].
        rewrite bool_decide_eq_true_2 by (intros ->; by destruct k).
        unfold getitem. by rewrite Hr.
      * exists [r]. by rewrite Hr.
Qed.

Lemma append_rows (data : column_data) (k : nat) (rows acc : list string) :
  Forall2 (λ i row,
             ∃ m u xv d yv,
               mrn !! i = Some m ∧ uid !! i = Some u ∧ x !! i = Some xv
               ∧ dates !! i = Some d ∧ y !! i = Some yv
               ∧ (∀ acc, PlotControlChart.append_row str data resid (Return acc) i
                         = Return (acc ++ [row]))
               ∧ ∃ cells,
                   option_list (resid !! i) = cells
                   ∧ row = foldl (λ row cell, row +:+ "," +:+ str cell)
                             (String.concat "," (csv_cell str <$> [m; u; xv; d; yv]))
                             cells)
          (seq 0 k) rows →
  foldl (PlotControlChart.append_row str data resid) (Return acc) (seq 0 k)
  = Return (acc ++ rows).
Proof.
  intros Hrows. eapply foldl_append_rows; [|exact Hrows].
  cbn beta. intros acc' i row (m & u & xv & d & yv & _ & _ & _ & _ & _ & Hstep & _).
  apply Hstep.
Qed.

(** X15: with every column of the chart as long as its [mrn] column, and the
    adjusted chart empty, or as long and [self.model_name] set by the caller,
    [get_csv] of the control chart produces a title row and one row per
    point; splitting a row at its commas gives the five cells of the point,
    commas inside them replaced by [^], followed by the residual when there
    is an adjusted chart (its text is not escaped, so it must itself be free
    of commas). *)
Theorem control_chart_csv_rows :
  resid = [] ∨ (is_Some model_name ∧ length mrn ≤ length resid) →
  Forall (λ r, occurs ","%char (str r) = false) resid →
  ∃ header rows,
    PlotControlChart.csv_data str y_axis_label model_name source
    = Return (header :: rows)
    ∧ length rows = length mrn
    ∧ ∀ i row, rows !! i = Some row →
        ∃ m u xv d yv,
          mrn !! i = Some m ∧ uid !! i = Some u ∧ x !! i = Some xv
          ∧ dates !! i = Some d ∧ y !! i = Some yv
          ∧ split_on ","%char row
            = (csv_cell str <$> [m; u; xv; d; yv]) ++ (str <$> option_list (resid !! i)).
Proof.
  intros Hadjusted Hfree.
  assert (Hname : ∃ name, resid = [] ∨ model_name = Some name).
  { destruct Hadjusted as [->|[[name ->] _]]; [exists None; by left|].
    exists name. by right. }
  destruct Hname as [name Hname].
  assert (Hresid_len : resid = [] ∨ length mrn ≤ length resid)
    by (destruct Hadjusted as [?|[_ ?]]; auto).
  destruct (control_chart_csv_loop name Hname) as (data & Hplot & Hloop).
  destruct (append_row_rows data (length mrn) Hplot) as [rows Hrows]; [lia|done|].
  exists (chart_csv_title y_axis_label name resid), rows. split; [|split].
  - rewrite Hloop. by apply (append_rows data _ rows [_]).
  - apply Forall2_length in Hrows. by rewrite length_seq in Hrows.
  - intros i row Hrow.
    destruct (Forall2_lookup_r _ _ _ _ _ Hrows Hrow)
      as (j & Hj & m & u & xv & d & yv & Hm & Hu & Hxv & Hd & Hyv & _ & cells & Hcells & ->).
    apply lookup_seq in Hj as [-> _]. change (0 + i) with i in *.
    exists m, u, xv, d, yv. repeat (split; [done|]).
    destruct (resid !! i) as [r|] eqn:Hr; cbn in Hcells; subst cells; cbn [foldl].
    + change ("," +:+ str r) with (String ","%char (str r)).
      rewrite split_on_append, split_on_cells by done.
      rewrite split_on_free; [done|].
      rewrite Forall_forall in Hfree. apply Hfree.
      by eapply list_elem_of_lookup_2.
    + rewrite split_on_cells by done. by rewrite app_nil_r.
Qed.

(** X16: with an adjusted chart, [get_csv] of the control chart raises an
    [AttributeError] as long as no caller has set [self.model_name] (the class
    never does); once it is set, an adjusted chart with fewer points than the
    chart itself makes it raise an [IndexError]: the row of the first point
    without a residual cannot be completed. *)
Theorem control_chart_csv_short_residuals :
  resid ≠ [] →
  model_name = None ∨ length resid < length mrn →
  PlotControlChart.get_csv str y_axis_label model_name source
  = Raise (match model_name with None => AttributeError | Some _ => IndexError end).
Proof.
  intros Hnonempty Hcase. unfold PlotControlChart.get_csv.
  assert (Hmodel : model_name = None ∨ ∃ name, model_name = Some name)
    by (destruct model_name; eauto).
  destruct Hmodel as [Hmodel|[name Hmodel]].
  { rewrite control_chart_csv_unset by done. by rewrite Hmodel. }
  destruct Hcase as [Hunset|Hshort]; [congruence|].
  destruct (control_chart_csv_loop name) as (data & Hplot & Hloop); [by right|].
  replace (match model_name with None => AttributeError | Some _ => IndexError end)
    with IndexError by (by rewrite Hmodel).
  destruct (append_row_rows data (length resid) Hplot) as [rows Hrows];
    [lia|by right|].
  rewrite Hloop.
  replace (length mrn) with (length resid + S (length mrn - S (length resid))) by lia.
  rewrite seq_app, foldl_app, (append_rows data _ rows [_] Hrows).
  cbn [seq foldl plus].
  destruct (chart_cells data (length resid) Hplot)
    as (m & u & xv & d & yv & _ & _ & _ & _ & _ & Hcells); [lia|].
  unfold PlotControlChart.append_row at 2. cbn [mbind result_bind].
  rewrite Hcells. cbn [mbind result_bind].
  rewrite bool_decide_eq_true_2 by done.
  unfold getitem. rewrite lookup_ge_None_2 by lia. cbn [mbind result_bind].
  by rewrite foldl_Raise.
Qed.

End control_chart_csv.

Lemma control_chart_csv_rows_witness :
  ∃ header rows,
    PlotControlChart.csv_data str_stand_in "Dose" (Some None) constant_chart_adjusted
    = Return (header :: rows)
    ∧ length rows = length four_mrns
    ∧ ∀ i row, rows !! i = Some row →
        ∃ m u xv d yv,
          four_mrns !! i = Some m ∧ four_uids !! i = Some u
          ∧ four_studies !! i = Some xv ∧ four_dates !! i = Some d
          ∧ constant_series !! i = Some yv
          ∧ split_on ","%char row
            = (csv_cell str_stand_in <$> [m; u; xv; d; yv])
              ++ (str_stand_in <$> option_list (four_residuals !! i)).
Proof.
  apply (control_chart_csv_rows str_stand_in "Dose" (Some None) constant_chart_adjusted
           four_mrns four_uids four_studies four_dates constant_series four_residuals);
    try (vm_compute; reflexivity); try (cbn; lia).
  - right. split; [by eexists|cbn; lia].
  - repeat constructor.
Defined.

Lemma control_chart_csv_short_residuals_witness :
  PlotControlChart.get_csv str_stand_in "Dose" None constant_chart_adjusted
  = Raise AttributeError.
Proof.
  apply (control_chart_csv_short_residuals str_stand_in "Dose" None
           constant_chart_adjusted four_mrns four_uids four_studies four_dates
           constant_series four_residuals);
    try (vm_compute; reflexivity); try (cbn; lia).
  - discriminate.
  - by left.
Defined.

Example control_chart_csv_three_residuals :
  PlotControlChart.get_csv str_stand_in "Dose" (Some (Some "Model 1"))
    constant_chart_three_residuals
  = Raise IndexError.
Proof. vm_compute. reflexivity. Qed.

(** ** The bars of the feature importances *)

Lemma SFcompare_antisym (a b : SpecFloat.spec_float) :
  SpecFloat.SFcompare b a = CompOpp <$> SpecFloat.SFcompare a b.
Proof.
  destruct a as [sa|sa| |sa ma ea], b as [sb|sb| |sb mb eb]; cbn; try done;
    try (destruct sa; done); try (destruct sb; done);
    try (destruct sa, sb; done).
  change (Pos.compare_cont Eq mb ma) with (Pos.compare mb ma).
  change (Pos.compare_cont Eq ma mb) with (Pos.compare ma mb).
  rewrite (Z.compare_antisym ea eb), (Pos.compare_antisym ma mb).
  destruct sa, sb; try done;
    destruct (ea ?= eb)%Z; cbn; try done; by destruct (ma ?= mb)%positive.
Qed.

Lemma is_nan_compare (a b : float) :
  is_nan a = false → is_nan b = false →
  is_Some (SpecFloat.SFcompare (Prim2SF a) (Prim2SF b)).
Proof.
  unfold is_nan. rewrite !FloatAxioms.eqb_spec. unfold SpecFloat.SFeqb.
  destruct (Prim2SF a) as [sa|sa| |sa ma ea], (Prim2SF b) as [sb|sb| |sb mb eb];
    cbn; try done.
Qed.

Lemma float_ltb_leb (a b : float) : (a <? b)%float = true → (a <=? b)%float = true.
Proof.
  rewrite FloatAxioms.ltb_spec, FloatAxioms.leb_spec.
  unfold SpecFloat.SFltb, SpecFloat.SFleb.
  by destruct (SpecFloat.SFcompare (Prim2SF a) (Prim2SF b)) as [[]|].
Qed.

Lemma float_not_ltb_leb (a b : float) :
  is_nan a = false → is_nan b = false →
  (b <? a)%float = false → (a <=? b)%float = true.
Proof.
  intros Ha Hb. rewrite FloatAxioms.ltb_spec, FloatAxioms.leb_spec.
  unfold SpecFloat.SFltb, SpecFloat.SFleb.
  rewrite (SFcompare_antisym (Prim2SF a) (Prim2SF b)).
  destruct (is_nan_compare a b Ha Hb) as [c ->]. by destruct c.
Qed.

Section sorted_by_float_key.

Context {A : Type}.
Variable key : A → float.

Lemma insert_by_float_key_Permutation (a : A) (l : list A) :
  PlotFeatureImportance.insert_by_key key a l ≡ₚ a :: l.
Proof.
  induction l as [|b l IH]; [done|]. cbn.
  destruct (key b <? key a)%float; [|done].
  rewrite IH. apply Permutation_swap.
Qed.

Lemma sorted_by_float_key_Permutation (l : list A) :
  PlotFeatureImportance.sorted key l ≡ₚ l.
Proof.
  induction l as [|a l IH]; [done|].
  change (PlotFeatureImportance.sorted key (a :: l))
    with (PlotFeatureImportance.insert_by_key key a (PlotFeatureImportance.sorted key l)).
  by rewrite insert_by_float_key_Permutation, IH.
Qed.

Lemma insert_by_float_key_Sorted (a : A) (l : list A) :
  is_nan (key a) = false → Forall (λ b, is_nan (key b) = false) l →
  Sorted (λ b c, (key b <=? key c)%float = true) l →
  Sorted (λ b c, (key b <=? key c)%float = true)
         (PlotFeatureImportance.insert_by_key key a l).
Proof.
  intros Ha Hl Hsorted.
  induction Hsorted as [|b l Hsorted IH Hhd]; [by repeat constructor|].
  apply Forall_cons in Hl as [Hb Hl]. cbn.
  destruct (key b <? key a)%float eqn:Hlt.
  - constructor; [by apply IH|].
    destruct Hhd as [|c l Hbc]; cbn.
    + constructor. by apply float_ltb_leb.
    + destruct (key c <? key a)%float; constructor; [done|by apply float_ltb_leb].
  - constructor; [by constructor|]. constructor. by apply float_not_ltb_leb.
Qed.

Lemma sorted_by_float_key_Sorted (l : list A) :
  Forall (λ b, is_nan (key b) = false) l →
  Sorted (λ b c, (key b <=? key c)%float = true) (PlotFeatureImportance.sorted key l).
Proof.
  induction 1 as [|a l Ha Hl IH]; [constructor|].
  change (PlotFeatureImportance.sorted key (a :: l))
    with (PlotFeatureImportance.insert_by_key key a (PlotFeatureImportance.sorted key l)).
  apply insert_by_float_key_Sorted; [done| |done].
  by rewrite sorted_by_float_key_Permutation.
Qed.

End sorted_by_float_key.

Lemma mapM_getitem {A} (l : list A) (indices : list nat) :
  Forall (λ i, i < length l) indices →
  mapM (getitem l) indices = Return (select l indices).
Proof.
  induction 1 as [|i indices Hi _ IH]; [done|].
  destruct (getitem_lt l i Hi) as (a & Ha & Hget).
  rewrite (select_cons _ _ _ _ Ha). cbn. rewrite Hget. cbn. by rewrite IH.
Qed.

Lemma mapM_getitem_out_of_range {A} (l : list A) (indices : list nat) (i : nat) :
  i ∈ indices → length l ≤ i → mapM (getitem l) indices = Raise IndexError.
Proof.
  intros Hi Hge. induction indices as [|j indices IH]; [by apply elem_of_nil in Hi|].
  cbn. destruct (l !! j) as [a|] eqn:Hj.
  - assert (Hget : getitem l j = Return a) by (unfold getitem; by rewrite Hj).
    rewrite Hget. cbn. apply elem_of_cons in Hi as [->|Hi].
    + apply lookup_lt_Some in Hj. lia.
    + by rewrite IH.
  - assert (Hget : getitem l j = Raise IndexError) by (unfold getitem; by rewrite Hj).
    by rewrite Hget.
Qed.

Lemma enumerate_lookups {A} (l : list A) :
  Forall (λ ia, l !! ia.1 = Some ia.2) (enumerate l).
Proof.
  apply Forall_forall. intros [i a] Hia. unfold enumerate in Hia.
  apply list_elem_of_lookup_1 in Hia as [j Hj].
  rewrite list_lookup_imap in Hj.
  destruct (l !! j) as [b|] eqn:Hb; [|done]. cbn in Hj. by injection Hj as <- <-.
Qed.

Lemma select_pairs {A} (l : list A) (pairs : list (nat * A)) :
  Forall (λ ia, l !! ia.1 = Some ia.2) pairs → select l pairs.*1 = pairs.*2.
Proof.
  induction 1 as [|[i a] pairs Hia _ IH]; [done|].
  cbn in Hia. cbn [fmap list_fmap fst snd]. rewrite (select_cons _ _ _ _ Hia).
  f_equal. apply IH.
Qed.

Lemma enumerate_fst {A} (l : list A) : (enumerate l).*1 = seq 0 (length l).
Proof. rewrite enumerate_zip. apply fst_zip. rewrite length_seq. lia. Qed.

Lemma Sorted_list_fmap {A B} (R : A → A → Prop) (S : B → B → Prop) (f : A → B)
    (l : list A) :
  (∀ a b, R a b → S (f a) (f b)) → Sorted R l → Sorted S (f <$> l).
Proof.
  intros Hf. induction 1 as [|a l Hsorted IH Hhd]; [constructor|].
  cbn. constructor; [done|]. destruct Hhd; constructor. by apply Hf.
Qed.

Lemma feature_order (feature_importances : list float) :
  (PlotFeatureImportance.sorted snd (enumerate feature_importances)).*1
  ≡ₚ seq 0 (length feature_importances)
  ∧ select feature_importances
      (PlotFeatureImportance.sorted snd (enumerate feature_importances)).*1
    = (PlotFeatureImportance.sorted snd (enumerate feature_importances)).*2.
Proof.
  split.
  - rewrite sorted_by_float_key_Permutation. by rewrite enumerate_fst.
  - apply select_pairs. rewrite sorted_by_float_key_Permutation.
    apply enumerate_lookups.
Qed.

Lemma float_max_Return (v : float) (values : list float) :
  ∃ top, float_max (v :: values) = Return top.
Proof. by eexists. Qed.

(** X17: on importances without NaN and at least as many variable names,
    [set_data] draws the bars in ascending order of importance: the [right]
    and [variable] columns (and the factors of the y range) are the
    importances and the names rearranged by one and the same permutation of
    the features, the importances come out ascending, and all four columns
    of the plot source have one entry per feature. *)
Theorem feature_importance_bars (x_variables : list string)
    (feature_importances : list float) (source : sources) :
  feature_importances ≠ [] →
  length feature_importances ≤ length x_variables →
  Forall (λ v, is_nan v = false) feature_importances →
  is_Some (source !! "plot") →
  ∃ source' order top,
    PlotFeatureImportance.set_data x_variables feature_importances source
    = Return (source', select x_variables order, top)
    ∧ order ≡ₚ seq 0 (length feature_importances)
    ∧ column source' "plot" "right"
      = Return (PyFloat <$> select feature_importances order)
    ∧ column source' "plot" "variable" = Return (PyStr <$> select x_variables order)
    ∧ Sorted (λ a b, (a <=? b)%float = true) (select feature_importances order)
    ∧ (∀ col l, column source' "plot" col = Return l →
                length l = length feature_importances).
Proof.
  intros Hnonempty Hnames Hnan [data Hplot].
  destruct (feature_order feature_importances) as [Hperm Hselect].
  set (order := (PlotFeatureImportance.sorted snd (enumerate feature_importances)).*1)
    in *.
  assert (Hrange : Forall (λ i, i < length feature_importances) order).
  { rewrite Hperm. apply Forall_forall. intros i Hi%elem_of_seq. lia. }
  assert (Hrange' : Forall (λ i, i < length x_variables) order).
  { eapply Forall_impl; [exact Hrange|]. cbn. lia. }
  assert (Horder : length order = length feature_importances)
    by (by rewrite Hperm, length_seq).
  assert (Htop : ∃ top, float_max feature_importances = Return top)
    by (destruct feature_importances; [done|apply float_max_Return]).
  destruct Htop as [top Htop].
  exists (<["plot" := list_to_map
             [("y", (λ i, PyFloat (float_of_Z (Z.of_nat i) + 0.5))
                    <$> seq 0 (length feature_importances));
              ("right", PyFloat <$> select feature_importances order);
              ("height", replicate (length feature_importances) (PyFloat 0.5));
              ("variable", PyStr <$> select x_variables order)]]> source),
    order, (top * 1.05)%float.
  split; [|split; [done|split; [|split; [|split]]]].
  - unfold PlotFeatureImportance.set_data. fold order.
    rewrite (mapM_getitem _ _ Hrange). cbn [mbind result_bind].
    rewrite (mapM_getitem _ _ Hrange'). cbn [mbind result_bind].
    unfold set_data. rewrite Hplot. cbn [mbind result_bind].
    by rewrite Htop.
  - rewrite column_set_data_eq. by lookup_columns.
  - rewrite column_set_data_eq. by lookup_columns.
  - rewrite Hselect.
    apply (Sorted_list_fmap (λ b c : nat * float, (b.2 <=? c.2)%float = true));
      [done|].
    apply sorted_by_float_key_Sorted.
    rewrite enumerate_zip. apply Forall_forall. intros [i a] Hia%elem_of_zip_r.
    rewrite Forall_forall in Hnan. by apply Hnan.
  - intros col l. rewrite column_set_data_eq. lookup_columns; intros [= <-];
      rewrite ?length_fmap, ?length_seq, ?length_replicate; try done.
    + by rewrite select_length_lt.
    + by rewrite select_length_lt.
Qed.

Lemma feature_importance_bars_witness :
  ∃ source' order top,
    PlotFeatureImportance.set_data three_variables three_importances
      PlotFeatureImportance.init_source
    = Return (source', select three_variables order, top)
    ∧ order ≡ₚ seq 0 (length three_importances)
    ∧ column source' "plot" "right"
      = Return (PyFloat <$> select three_importances order)
    ∧ column source' "plot" "variable"
      = Return (PyStr <$> select three_variables order)
    ∧ Sorted (λ a b, (a <=? b)%float = true) (select three_importances order)
    ∧ (∀ col l, column source' "plot" col = Return l →
                length l = length three_importances).
Proof.
  apply (feature_importance_bars three_variables three_importances
           PlotFeatureImportance.init_source).
  - discriminate.
  - cbn. lia.
  - repeat constructor.
  - apply is_Some_alt. vm_compute. exact I.
Defined.

Example feature_importance_three_bars :
  fst <$> PlotFeatureImportance.set_data three_variables three_importances
            PlotFeatureImportance.init_source
  = Return (<["plot" := list_to_map
               [("y", PyFloat <$> [0.5; 1.5; 2.5]%float);
                ("right", PyFloat <$> [0.125; 0.375; 0.5]%float);
                ("height", PyFloat <$> [0.5; 0.5; 0.5]%float);
                ("variable", PyStr <$> ["PTV Volume"; "Rx Dose"; "Beam MU"])]]>
              PlotFeatureImportance.init_source,
            ["PTV Volume"; "Rx Dose"; "Beam MU"]).
Proof. vm_compute. reflexivity. Qed.

(** X18: with fewer variable names than importances, [set_data] raises an
    [IndexError], wherever the sort puts the feature without a name. *)
Theorem feature_importance_missing_names (x_variables : list string)
    (feature_importances : list float) (source : sources) :
  length x_variables < length feature_importances →
  PlotFeatureImportance.set_data x_variables feature_importances source
  = Raise IndexError.
Proof.
  intros Hshort.
  destruct (feature_order feature_importances) as [Hperm _].
  unfold PlotFeatureImportance.set_data.
  rewrite (mapM_getitem feature_importances).
  - cbn [mbind result_bind].
    rewrite (mapM_getitem_out_of_range x_variables _ (length x_variables)); [done| |done].
    rewrite Hperm. apply elem_of_seq. lia.
  - rewrite Hperm. apply Forall_forall. intros i Hi%elem_of_seq. lia.
Qed.

Lemma feature_importance_missing_names_witness :
  PlotFeatureImportance.set_data (take 2 three_variables) three_importances
    PlotFeatureImportance.init_source
  = Raise IndexError.
Proof.
  apply (feature_importance_missing_names (take 2 three_variables) three_importances
           PlotFeatureImportance.init_source).
  cbn. lia.
Defined.

(** X19: without importances [set_data] raises a [ValueError]: the columns are
    written empty, then [max] of nothing fails. *)
Theorem feature_importance_no_features (x_variables : list string) (source : sources) :
  is_Some (source !! "plot") →
  PlotFeatureImportance.set_data x_variables [] source = Raise ValueError.
Proof.
  intros [data Hplot]. unfold PlotFeatureImportance.set_data, set_data. cbn.
  by rewrite Hplot.
Qed.

Lemma feature_importance_no_features_witness :
  PlotFeatureImportance.set_data three_variables [] PlotFeatureImportance.init_source
  = Raise ValueError.
Proof.
  apply (feature_importance_no_features three_variables
           PlotFeatureImportance.init_source).
  apply is_Some_alt. vm_compute. exact I.
Defined.

(** ** The sources of the machine learning plot *)

Lemma mapM_getitem_Return {A} (l : list A) (indices : list nat) (r : list A) :
  mapM (getitem l) indices = Return r →
  r = select l indices ∧ Forall (λ i, i < length l) indices.
Proof.
  intros Hr. destruct (decide (Forall (λ i, i < length l) indices)) as [Hrange|Hout].
  - rewrite (mapM_getitem _ _ Hrange) in Hr. by injection Hr as <-.
  - apply not_Forall_Exists in Hout; [|apply _].
    apply Exists_exists in Hout as (i & Hi & Hge). unfold compose in Hge.
    rewrite (mapM_getitem_out_of_range l indices i) in Hr; [done|done|lia].
Qed.

Lemma subtract_Return (a b r : list float) :
  Numpy.subtract a b = Return r →
  length a = length b ∨ length a = 1 ∨ length b = 1.
Proof.
  unfold Numpy.subtract. case_bool_decide; [by left|].
  destruct a as [|a0 [|a1 a]]; destruct b as [|b0 [|b1 b]]; cbn; try done; auto.
Qed.

Section machine_learning.

Import PlotMachineLearning.

Variable self : attributes.
Variable data : plot_data.

Lemma update_data_type_Return (source source' : gmap string sources)
    (data_type : string) :
  update_data_type self data (Return source) data_type = Return source' →
  ∃ c srcs srcs',
    read_columns self data data_type = Return c
    ∧ source !! data_type = Some srcs
    ∧ write_columns c srcs = Return srcs'
    ∧ is_Some (mse data !! data_type)
    ∧ source' = <[data_type := srcs']> source.
Proof.
  unfold update_data_type. cbn [mbind result_bind]. intros H.
  apply bind_Return in H as (c & Hc & H).
  apply bind_Return in H as (srcs & Hsrcs & H).
  apply bind_Return in H as (srcs' & Hwrite & H).
  apply bind_Return in H as (m & Hmse & H).
  injection H as <-. exists c, srcs, srcs'.
  unfold dict_getitem in Hsrcs, Hmse.
  destruct (source !! data_type) as [s|]; [|done]. injection Hsrcs as ->.
  destruct (mse data !! data_type) as [m'|]; [|done]. eauto 6.
Qed.

Lemma update_data_type_steps (source : gmap string sources) (data_type : string)
    (c : columns) (srcs srcs' : sources) :
  read_columns self data data_type = Return c →
  source !! data_type = Some srcs →
  write_columns c srcs = Return srcs' →
  is_Some (mse data !! data_type) →
  update_data_type self data (Return source) data_type
  = Return (<[data_type := srcs']> source).
Proof.
  intros Hc Hsrcs Hwrite [m Hmse]. unfold update_data_type, dict_getitem.
  cbn [mbind result_bind]. rewrite Hc. cbn [mbind result_bind].
  rewrite Hsrcs. cbn [mbind result_bind]. rewrite Hwrite. cbn [mbind result_bind].
  by rewrite Hmse.
Qed.

Lemma update_data_swap (source : gmap string sources) (a b : string)
    (source' : gmap string sources) :
  a ≠ b →
  foldl (update_data_type self data) (Return source) [a; b] = Return source' →
  foldl (update_data_type self data) (Return source) [b; a] = Return source'.
Proof.
  intros Hab H. cbn [foldl] in H |- *.
  destruct (update_data_type self data (Return source) a) as [e|source1] eqn:Ha;
    [done|].
  apply update_data_type_Return in Ha as (ca & sa & sa' & Hca & Hsa & Hwa & Hma & ->).
  apply update_data_type_Return in H as (cb & sb & sb' & Hcb & Hsb & Hwb & Hmb & ->).
  rewrite lookup_insert_ne in Hsb by done.
  rewrite (update_data_type_steps source b cb sb sb') by done.
  rewrite (update_data_type_steps _ a ca sa sa');
    [|done|by rewrite lookup_insert_ne|done|done].
  by rewrite insert_insert_ne.
Qed.

Lemma update_data_order_swap (source : gmap string sources)
    (train_first train_first' : bool)
    (r : list (list float) * gmap string sources) :
  update_data train_first self data source = Return r →
  update_data train_first' self data source = Return r.
Proof.
  unfold update_data. intros H.
  apply bind_Return in H as (X' & HX & H). rewrite HX. cbn [mbind result_bind].
  apply bind_Return in H as (source2 & H & Hr).
  assert (Hswap : foldl (update_data_type self data) (Return source)
                    (data_types train_first') = Return source2).
  { destruct train_first, train_first'; try done;
      by apply update_data_swap in H. }
  by rewrite Hswap.
Qed.

(** X20: the outcome of [update_data] does not depend on the order in which
    the set of data types is walked: when the two rounds return in one order,
    they return the same [self.X] and sources in the other. *)
Theorem update_data_order_independent (source : gmap string sources)
    (train_first train_first' : bool)
    (r : list (list float) * gmap string sources) :
  update_data train_first self data source = Return r →
  update_data train_first' self data source = Return r.
Proof. apply update_data_order_swap. Qed.

Lemma read_columns_Return (data_type : string) (c : columns) :
  read_columns self data data_type = Return c →
  ∃ idx,
    indices data !! data_type = Some idx
    ∧ x data !! data_type = Some (col_x c)
    ∧ y data !! data_type = Some (col_y c)
    ∧ predictions data !! data_type = Some (col_y_pred c)
    ∧ col_multi_var_pred c = select (multi_var_pred self) idx
    ∧ col_mrn c = select (mrn self) idx
    ∧ col_uid c = select (uid self) idx
    ∧ col_study_date c = select (study_date self) idx
    ∧ Forall (λ i, i < length (multi_var_pred self) ∧ i < length (mrn self)
                   ∧ i < length (uid self) ∧ i < length (study_date self)) idx.
Proof.
  unfold read_columns, dict_getitem. intros H.
  destruct (x data !! data_type) as [xs|]; [|done].
  destruct (y data !! data_type) as [ys|]; [|done].
  destruct (predictions data !! data_type) as [y_pred|]; [|done].
  destruct (indices data !! data_type) as [idx|]; [|done].
  cbn [mbind result_bind] in H.
  apply bind_Return in H as (mvp & [-> Hmvp]%mapM_getitem_Return & H).
  apply bind_Return in H as (m & [-> Hm]%mapM_getitem_Return & H).
  apply bind_Return in H as (u & [-> Hu]%mapM_getitem_Return & H).
  apply bind_Return in H as (d & [-> Hd]%mapM_getitem_Return & H).
  injection H as <-. exists idx. cbn. repeat (split; [done|]).
  rewrite Forall_forall in Hmvp, Hm, Hu, Hd. apply Forall_forall. intros i Hi.
  auto.
Qed.

Lemma write_columns_Return (c : columns) (srcs srcs' : sources) :
  write_columns c srcs = Return srcs' →
  (∀ col, column srcs' "data" col
          = column (<["data" := list_to_map
               [("x", col_x c); ("y", col_y c); ("mrn", col_mrn c);
                ("study_date", col_study_date c); ("uid", col_uid c)]]>
             (∅ : sources)) "data" col)
  ∧ column srcs' "predict" "y" = Return (PyFloat <$> col_y_pred c)
  ∧ column srcs' "multi_var" "y" = Return (PyFloat <$> col_multi_var_pred c)
  ∧ column srcs' "diff" "y0" = Return (replicate (length (col_x c)) (PyInt 0))
  ∧ ∃ y_np y_mvr y_ml,
      np_array (col_y c) = Return y_np
      ∧ Numpy.subtract y_np (col_multi_var_pred c) = Return y_mvr
      ∧ Numpy.subtract y_np (col_y_pred c) = Return y_ml
      ∧ column srcs' "diff" "y_mvr" = Return (PyFloat <$> y_mvr)
      ∧ column srcs' "diff" "y_ml" = Return (PyFloat <$> y_ml).
Proof.
  unfold write_columns. intros H.
  apply bind_Return in H as (s1 & ->%set_data_Return & H).
  apply bind_Return in H as (s2 & ->%set_data_Return & H).
  apply bind_Return in H as (s3 & ->%set_data_Return & H).
  apply bind_Return in H as (y_np & Hy_np & H).
  apply bind_Return in H as (y_mvr & Hmvr & H).
  apply bind_Return in H as (y_np' & Hy_np' & H).
  rewrite Hy_np in Hy_np'. injection Hy_np' as <-.
  apply bind_Return in H as (y_ml & Hml & ->%set_data_Return).
  split; [|split; [|split; [|split]]].
  - intros col. rewrite !column_set_data_ne by done. by rewrite !column_set_data_eq.
  - rewrite !column_set_data_ne by done. rewrite column_set_data_eq. by lookup_columns.
  - rewrite !column_set_data_ne by done. rewrite column_set_data_eq. by lookup_columns.
  - rewrite column_set_data_eq. by lookup_columns.
  - exists y_np, y_mvr, y_ml. repeat (split; [done|]).
    rewrite !column_set_data_eq. split; by lookup_columns.
Qed.

(** X21: when [update_data] returns, the sources of each data type hold the
    patient columns and the multi-variable predictions picked at the indices
    of that data type, every index being in range; and the two subtractions
    have checked the response against them: unless one side has a single
    entry (which numpy broadcasts), the response has one entry per index and
    per prediction. *)
Theorem update_data_columns (source source' : gmap string sources)
    (train_first : bool) (X' : list (list float)) (data_type : string) :
  update_data train_first self data source = Return (X', source') →
  data_type ∈ ["train"; "test"] →
  ∃ idx ys y_pred srcs,
    indices data !! data_type = Some idx
    ∧ y data !! data_type = Some ys
    ∧ predictions data !! data_type = Some y_pred
    ∧ source' !! data_type = Some srcs
    ∧ column srcs "data" "y" = Return ys
    ∧ column srcs "data" "mrn" = Return (select (mrn self) idx)
    ∧ column srcs "data" "uid" = Return (select (uid self) idx)
    ∧ column srcs "data" "study_date" = Return (select (study_date self) idx)
    ∧ column srcs "multi_var" "y"
      = Return (PyFloat <$> select (multi_var_pred self) idx)
    ∧ Forall (λ i, i < length (multi_var_pred self) ∧ i < length (mrn self)
                   ∧ i < length (uid self) ∧ i < length (study_date self)) idx
    ∧ (length ys = length idx ∨ length ys = 1 ∨ length idx = 1)
    ∧ (length ys = length y_pred ∨ length ys = 1 ∨ length y_pred = 1).
Proof.
  intros H Hdt.
  apply (update_data_order_swap source train_first true) in H.
  unfold update_data in H.
  apply bind_Return in H as (X0 & _ & H).
  apply bind_Return in H as (source2 & H & [= _ <-]).
  change (data_types true) with ["train"; "test"] in H. cbn [foldl] in H.
  set (a := "train") in *. set (b := "test") in *.
  assert (Hab : a ≠ b) by done.
  destruct (update_data_type self data (Return source) a) as [e|source1] eqn:Ha;
    [done|].
  apply update_data_type_Return in Ha as (ca & sa & sa' & Hca & Hsa & Hwa & Hma & ->).
  apply update_data_type_Return in H as (cb & sb & sb' & Hcb & Hsb & Hwb & Hmb & ->).
  assert (Hround : ∃ c srcs0 srcs,
    read_columns self data data_type = Return c
    ∧ write_columns c srcs0 = Return srcs
    ∧ <[b := sb']> (<[a := sa']> source) !! data_type = Some srcs).
  { apply elem_of_cons in Hdt as [->|Hdt].
    - exists ca, sa, sa'. repeat (split; [done|]).
      by rewrite lookup_insert_ne, lookup_insert_eq.
    - apply list_elem_of_singleton in Hdt as ->.
      exists cb, sb, sb'. repeat (split; [done|]). by rewrite lookup_insert_eq. }
  destruct Hround as (c & srcs0 & srcs & Hc & Hw & Hlookup).
  apply read_columns_Return in Hc
    as (idx & Hidx & Hx & Hy & Hpred & Hmvp & Hmrn & Huid & Hdate & Hrange).
  apply write_columns_Return in Hw
    as (Hdata & _ & Hmv & _ & y_np & y_mvr & y_ml & Hnp & Hsub1 & Hsub2 & _).
  exists idx, (col_y c), (col_y_pred c), srcs. repeat (split; [done|]).
  rewrite !Hdata, !column_set_data_eq, Hmv, Hmvp, <- Hmrn, <- Huid, <- Hdate.
  repeat (split; [by lookup_columns|]).
  apply np_array_length in Hnp. apply subtract_Return in Hsub1, Hsub2.
  rewrite Hnp in Hsub1, Hsub2. rewrite Hmvp, select_length_lt in Hsub1; [done|].
  eapply Forall_impl; [exact Hrange|]. cbn. tauto.
Qed.

End machine_learning.

Lemma ml_updated_returns :
  PlotMachineLearning.update_data true ml_attributes ml_plot_data
    PlotMachineLearning.init_source
  = Return ml_updated.
Proof.
  vm_cast_no_check
    (@eq_refl (result (list (list float) * gmap string sources)) (Return ml_updated)).
Qed.

Lemma update_data_order_independent_witness :
  PlotMachineLearning.update_data false ml_attributes ml_plot_data
    PlotMachineLearning.init_source
  = Return ml_updated.
Proof.
  apply (update_data_order_independent ml_attributes ml_plot_data
           PlotMachineLearning.init_source true false ml_updated).
  apply ml_updated_returns.
Defined.

Lemma update_data_columns_witness :
  ∃ idx ys y_pred srcs,
    PlotMachineLearning.indices ml_plot_data !! "train" = Some idx
    ∧ PlotMachineLearning.y ml_plot_data !! "train" = Some ys
    ∧ PlotMachineLearning.predictions ml_plot_data !! "train" = Some y_pred
    ∧ ml_updated.2 !! "train" = Some srcs
    ∧ column srcs "data" "y" = Return ys
    ∧ column srcs "data" "mrn" = Return (select four_mrns idx)
    ∧ column srcs "data" "uid" = Return (select four_uids idx)
    ∧ column srcs "data" "study_date" = Return (select four_dates idx)
    ∧ column srcs "multi_var" "y" = Return (PyFloat <$> select [2; 4; 6; 8]%float idx)
    ∧ Forall (λ i, i < 4 ∧ i < 4 ∧ i < 4 ∧ i < 4) idx
    ∧ (length ys = length idx ∨ length ys = 1 ∨ length idx = 1)
    ∧ (length ys = length y_pred ∨ length ys = 1 ∨ length y_pred = 1).
Proof.
  apply (update_data_columns ml_attributes ml_plot_data PlotMachineLearning.init_source
           ml_updated.2 true ml_updated.1 "train").
  - rewrite <- surjective_pairing. apply ml_updated_returns.
  - by left.
Defined.

Lemma mapM_getitem_cases {A} (l : list A) (indices : list nat) :
  mapM (getitem l) indices = Return (select l indices)
  ∨ mapM (getitem l) indices = Raise IndexError.
Proof.
  destruct (decide (Forall (λ i, i < length l) indices)) as [Hrange|Hout].
  - left. by apply mapM_getitem.
  - right. apply not_Forall_Exists in Hout; [|apply _].
    apply Exists_exists in Hout as (i & Hi & Hge). unfold compose in Hge.
    apply (mapM_getitem_out_of_range l indices i); [done|lia].
Qed.

(** X22: when an index of the data type that the set hands out first is out
    of range for the predictions or for one of the patient columns of the
    plot, [update_data] raises an [IndexError]. *)
Theorem update_data_index_out_of_range (self : PlotMachineLearning.attributes)
    (data : PlotMachineLearning.plot_data) (source : gmap string sources)
    (train_first : bool) (data_type : string) (idx : list nat) (i : nat) :
  head (PlotMachineLearning.data_types train_first) = Some data_type →
  is_Some (PlotMachineLearning.X data !! "data") →
  is_Some (PlotMachineLearning.x data !! data_type) →
  is_Some (PlotMachineLearning.y data !! data_type) →
  is_Some (PlotMachineLearning.predictions data !! data_type) →
  PlotMachineLearning.indices data !! data_type = Some idx →
  i ∈ idx →
  length (PlotMachineLearning.multi_var_pred self) ≤ i
  ∨ length (PlotMachineLearning.mrn self) ≤ i
  ∨ length (PlotMachineLearning.uid self) ≤ i
  ∨ length (PlotMachineLearning.study_date self) ≤ i →
  PlotMachineLearning.update_data train_first self data source = Raise IndexError.
Proof.
  intros Hfirst [X' HX] [xs Hx] [ys Hy] [y_pred Hpred] Hidx Hi Hout.
  assert (Hread : PlotMachineLearning.read_columns self data data_type = Raise IndexError).
  { unfold PlotMachineLearning.read_columns, dict_getitem.
    rewrite Hx, Hy, Hpred, Hidx. cbn [mbind result_bind].
    destruct (mapM_getitem_cases (PlotMachineLearning.multi_var_pred self) idx)
      as [Hmvp|Hmvp]; [|by rewrite Hmvp].
    destruct (mapM_getitem_cases (PlotMachineLearning.mrn self) idx)
      as [Hmrn|Hmrn]; [|by rewrite Hmvp, Hmrn].
    destruct (mapM_getitem_cases (PlotMachineLearning.uid self) idx)
      as [Huid|Huid]; [|by rewrite Hmvp, Hmrn, Huid].
    destruct (mapM_getitem_cases (PlotMachineLearning.study_date self) idx)
      as [Hdate|Hdate]; [|by rewrite Hmvp, Hmrn, Huid, Hdate].
    apply mapM_getitem_Return in Hmvp as [_ Hmvp], Hmrn as [_ Hmrn],
      Huid as [_ Huid], Hdate as [_ Hdate].
    rewrite Forall_forall in Hmvp, Hmrn, Huid, Hdate.
    specialize (Hmvp i Hi). specialize (Hmrn i Hi). specialize (Huid i Hi).
    specialize (Hdate i Hi). lia. }
  unfold PlotMachineLearning.update_data, dict_getitem. rewrite HX.
  destruct (PlotMachineLearning.data_types train_first) as [|first rest]; [done|].
  injection Hfirst as ->. cbn [mbind result_bind foldl].
  unfold PlotMachineLearning.update_data_type at 2. cbn [mbind result_bind].
  rewrite Hread. cbn [mbind result_bind].
  by rewrite foldl_Raise.
Qed.

Lemma update_data_index_out_of_range_witness :
  PlotMachineLearning.update_data true
    {| PlotMachineLearning.multi_var_pred := [2; 4; 6; 8]%float;
       PlotMachineLearning.mrn := four_mrns;
       PlotMachineLearning.uid := take 3 four_uids;
       PlotMachineLearning.study_date := four_dates |}
    ml_plot_data PlotMachineLearning.init_source
  = Raise IndexError.
Proof.
  apply (update_data_index_out_of_range _ ml_plot_data PlotMachineLearning.init_source
           true "train" [2; 0; 3] 3);
    try (apply is_Some_alt; vm_compute; exact I).
  - reflexivity.
  - vm_compute. reflexivity.
  - set_solver.
  - cbn. lia.
Defined.

(** ** The checksum of the options file *)

(** X23: once [save_checksum] has run, [validate_options_file] accepts the
    files exactly when there is an options file or there was no checksum file
    to begin with (without an options file nothing is written, and an old
    checksum file stays and is refused); and after [save_checksum], an options
    file replaced by content with another digest is refused. The digest of
    md5 is never the empty string. *)
Theorem save_checksum_validates (str_of_bytes md5_hexdigest : string → string)
    (fs : OptionsFile.files) :
  (∀ s, md5_hexdigest s ≠ "") →
  OptionsFile.validate_options_file str_of_bytes md5_hexdigest
    (OptionsFile.save_checksum str_of_bytes md5_hexdigest fs)
  = bool_decide (is_Some (OptionsFile.options_file fs)
                 ∨ OptionsFile.checksum_file fs = None)
  ∧ ∀ content content',
      OptionsFile.options_file fs = Some content →
      md5_hexdigest (str_of_bytes content') ≠ md5_hexdigest (str_of_bytes content) →
      OptionsFile.validate_options_file str_of_bytes md5_hexdigest
        {| OptionsFile.options_file := Some content';
           OptionsFile.checksum_file :=
             OptionsFile.checksum_file
               (OptionsFile.save_checksum str_of_bytes md5_hexdigest fs) |}
      = false.
Proof.
  intros Hdigest.
  assert (Hsaved : ∀ content stored,
    OptionsFile.save_checksum str_of_bytes md5_hexdigest
      {| OptionsFile.options_file := Some content;
         OptionsFile.checksum_file := stored |}
    = {| OptionsFile.options_file := Some content;
         OptionsFile.checksum_file := Some (md5_hexdigest (str_of_bytes content)) |}).
  { intros content stored. unfold OptionsFile.save_checksum. cbn.
    by rewrite bool_decide_eq_true_2 by apply Hdigest. }
  destruct fs as [[content|] stored].
  - rewrite Hsaved. unfold OptionsFile.validate_options_file. cbn. split.
    + by apply bool_decide_eq_true_2.
    + intros c c' [= <-] Hc. apply bool_decide_eq_false_2. by intros [= ?].
  - unfold OptionsFile.validate_options_file. cbn. split; [|done].
    by destruct stored.
Qed.

Lemma save_checksum_validates_witness :
  OptionsFile.validate_options_file bytes_stand_in digest_stand_in
    (OptionsFile.save_checksum bytes_stand_in digest_stand_in
       {| OptionsFile.options_file := Some "pickled";
          OptionsFile.checksum_file := Some "stale" |})
  = bool_decide (is_Some (Some "pickled") ∨ Some "stale" = None)
  ∧ ∀ content content',
      Some "pickled" = Some content →
      digest_stand_in (bytes_stand_in content')
      ≠ digest_stand_in (bytes_stand_in content) →
      OptionsFile.validate_options_file bytes_stand_in digest_stand_in
        {| OptionsFile.options_file := Some content';
           OptionsFile.checksum_file :=
             OptionsFile.checksum_file
               (OptionsFile.save_checksum bytes_stand_in digest_stand_in
                  {| OptionsFile.options_file := Some "pickled";
                     OptionsFile.checksum_file := Some "stale" |}) |}
      = false.
Proof.
  apply (save_checksum_validates bytes_stand_in digest_stand_in
           {| OptionsFile.options_file := Some "pickled";
              OptionsFile.checksum_file := Some "stale" |}).
  intros s. unfold digest_stand_in. discriminate.
Defined.

(** ** From the regression to the adjusted chart *)

Lemma np_array_floats (l : list float) : np_array (PyFloat <$> l) = Return l.
Proof.
  unfold np_array. induction l as [|a l IH]; [done|].
  cbn. cbn in IH. by rewrite IH.
Qed.

Lemma set_limit_sources_adj_ints (z : Z) (zs : list Z) (center_line ucl lcl : float)
    (source : sources) :
  Forall (λ key, is_Some (source !! key))
         ["adj_patch"; "adj_center_line"; "adj_lcl_line"; "adj_ucl_line"] →
  ∃ source',
    PlotControlChart.set_limit_sources "adj_" (PyInt <$> z :: zs) center_line ucl lcl
      source
    = Return source'
    ∧ Forall (λ key, column source' key "x"
                     = Return [PyInt (foldl Z.min z zs); PyInt (foldl Z.max z zs)])
             ["adj_center_line"; "adj_lcl_line"; "adj_ucl_line"]
    ∧ ∀ col, column source' "adj_plot" col = column source "adj_plot" col.
Proof.
  intros Hkeys.
  apply Forall_cons in Hkeys as [Hpatch Hkeys]. apply Forall_cons in Hkeys as [Hcenter Hkeys].
  apply Forall_cons in Hkeys as [Hlcl Hkeys]. apply Forall_cons in Hkeys as [Hucl _].
  unfold PlotControlChart.set_limit_sources.
  destruct (getitem_0_getlast (PyInt <$> z :: zs)) as (first & final & -> & ->); [done|].
  rewrite py_min_ints, py_max_ints.
  change ("adj_" +:+ "patch") with "adj_patch".
  change ("adj_" +:+ "center_line") with "adj_center_line".
  change ("adj_" +:+ "lcl_line") with "adj_lcl_line".
  change ("adj_" +:+ "ucl_line") with "adj_ucl_line".
  cbn [mbind result_bind].
  rewrite (set_data_is_Some "adj_patch") by done. cbn [mbind result_bind].
  rewrite (set_data_is_Some "adj_center_line") by (by rewrite lookup_insert_ne).
  cbn [mbind result_bind].
  rewrite (set_data_is_Some "adj_lcl_line") by (by rewrite !lookup_insert_ne).
  cbn [mbind result_bind].
  rewrite (set_data_is_Some "adj_ucl_line") by (by rewrite !lookup_insert_ne).
  eexists. split; [done|]. split.
  - repeat (apply Forall_cons; split); [| | |constructor].
    + rewrite !(column_set_data_ne _ "adj_center_line") by done.
      rewrite column_set_data_eq. by lookup_columns.
    + rewrite !(column_set_data_ne _ "adj_lcl_line") by done.
      rewrite column_set_data_eq. by lookup_columns.
    + rewrite column_set_data_eq. by lookup_columns.
  - intros col. by rewrite !(column_set_data_ne _ "adj_plot") by done.
Qed.

Lemma adjusted_chart_Return
    (reg_predict : list (list float) → result (list float))
    (X : list (list float)) (y predictions : list float) (mrn uid : list pyval)
    (dates : list Z) :
  reg_predict X = Return predictions →
  length predictions = length y →
  length mrn = length y → length uid = length y → length dates = length y →
  ∃ sort_index,
    sort_index ≡ₚ seq 0 (length y)
    ∧ PlotControlChart.get_adjusted_control_chart reg_predict X y mrn uid dates
      = Return {| PlotControlChart.chart_x := Z.of_nat <$> seq 1 (length y);
                  PlotControlChart.chart_residuals :=
                    select (zip_with sub y predictions) sort_index;
                  PlotControlChart.chart_mrn := select mrn sort_index;
                  PlotControlChart.chart_uid := select uid sort_index;
                  PlotControlChart.chart_dates := select dates sort_index |}.
Proof.
  intros Hpredict Hpredictions Hmrn Huid Hdates.
  set (key := λ k : nat, default 0%Z (dates !! k)).
  set (sort_index := PlotControlChart.sorted key (seq 0 (length dates))).
  assert (Hperm : sort_index ≡ₚ seq 0 (length y))
    by (rewrite <- Hdates; apply sorted_Permutation).
  assert (Hrange : Forall (λ i, i < length y) sort_index).
  { rewrite Hperm. apply Forall_forall. intros i Hi. apply elem_of_seq in Hi. lia. }
  assert (Hlength : length sort_index = length y)
    by (by rewrite Hperm, length_seq).
  exists sort_index. split; [done|].
  unfold PlotControlChart.get_adjusted_control_chart. rewrite Hpredict. cbn.
  unfold Numpy.subtract. rewrite bool_decide_eq_true_2 by done. cbn.
  fold key. fold sort_index.
  rewrite (append_sorted_loop sort_index dates (zip_with sub y predictions)
             mrn uid (length y)); try done.
  - cbn. rewrite Hdates, drop_0, take_ge by lia. by rewrite fmap_succ_seq.
  - rewrite length_zip_with. lia.
  - rewrite Hdates. lia.
Qed.

Lemma ex_intro2_and {B} (P : Prop) (Q : B → Prop) :
  P → (∃ b, Q b) → ∃ b, P ∧ Q b.
Proof. intros HP [b HQ]. by exists b. Qed.

Lemma foldl_min_seq (n : nat) :
  foldl Z.min 1%Z (Z.of_nat <$> seq 2 n) = 1%Z.
Proof.
  destruct (foldl_min_spec 1 (Z.of_nat <$> seq 2 n)) as [Hin Hle].
  apply Forall_cons in Hle as [Hle _].
  apply elem_of_cons in Hin as [Hin|Hin]; [done|].
  apply list_elem_of_fmap in Hin as (i & Hi & Hin%elem_of_seq). lia.
Qed.

Lemma foldl_max_seq (n : nat) :
  foldl Z.max 1%Z (Z.of_nat <$> seq 2 n) = Z.of_nat (S n).
Proof.
  destruct (foldl_max_spec 1 (Z.of_nat <$> seq 2 n)) as [Hin Hle].
  assert (Hlast : Z.of_nat (S n) ∈ 1%Z :: (Z.of_nat <$> seq 2 n)).
  { destruct n as [|n]; [by left|]. right.
    apply list_elem_of_fmap. exists (S (S n)). split; [done|].
    apply elem_of_seq. lia. }
  rewrite Forall_forall in Hle. specialize (Hle _ Hlast).
  apply elem_of_cons in Hin as [Hin|Hin]; [lia|].
  apply list_elem_of_fmap in Hin as (i & Hi & Hin%elem_of_seq). lia.
Qed.

(** X24: what [get_adjusted_control_chart] returns for a non-empty data set
    with columns of one length is accepted by [update_adjusted_control_chart]
    as it is (x, residuals, mrn, uid, dates) whenever [get_control_limits]
    returns on its residuals: the call then returns, the seven columns of the
    adjusted chart have one entry per study, and the center line and the two
    limit lines run from study 1 to study n. *)
Theorem adjusted_chart_accepted
    (get_control_limits : list pyval → result (float * float * float))
    (options : Options)
    (reg_predict : list (list float) → result (list float))
    (X : list (list float)) (y predictions : list float) (mrn uid : list pyval)
    (dates : list Z) (source : sources) :
  reg_predict X = Return predictions →
  length predictions = length y →
  length mrn = length y → length uid = length y → length dates = length y →
  0 < length y →
  (∀ chart,
     PlotControlChart.get_adjusted_control_chart reg_predict X y mrn uid dates
     = Return chart →
     ∃ limits,
       get_control_limits (PyFloat <$> PlotControlChart.chart_residuals chart)
       = Return limits) →
  Forall (λ key, is_Some (source !! key)) adjusted_chart_keys →
  ∃ chart source',
    PlotControlChart.get_adjusted_control_chart reg_predict X y mrn uid dates
    = Return chart
    ∧ PlotControlChart.update_adjusted_control_chart_with get_control_limits options
        (PyInt <$> PlotControlChart.chart_x chart)
        (PyFloat <$> PlotControlChart.chart_residuals chart)
        (PlotControlChart.chart_mrn chart) (PlotControlChart.chart_uid chart)
        (PyDate <$> PlotControlChart.chart_dates chart) source
      = Return source'
    ∧ Forall (λ key, column source' key "x"
                     = Return [PyInt 1; PyInt (Z.of_nat (length y))])
             ["adj_center_line"; "adj_lcl_line"; "adj_ucl_line"]
    ∧ Forall (λ col, ∃ l, column source' "adj_plot" col = Return l
                          ∧ length l = length y)
             ["x"; "y"; "mrn"; "uid"; "color"; "alpha"; "dates"].
Proof.
  intros Hpredict Hpredictions Hmrn Huid Hdates Hn Haccepted Hkeys.
  destruct (adjusted_chart_Return reg_predict X y predictions mrn uid dates)
    as (sort_index & Hperm & Hchart); try done.
  assert (Hrange : ∀ {A} (l : list A), length l = length y →
    length (select l sort_index) = length y).
  { intros A l Hl. rewrite select_length_lt; [by rewrite Hperm, length_seq|].
    rewrite Hperm, Hl. apply Forall_forall. intros i Hi%elem_of_seq. lia. }
  destruct (Haccepted _ Hchart) as [[[center_line ucl] lcl] Hlimits].
  exists {| PlotControlChart.chart_x := Z.of_nat <$> seq 1 (length y);
            PlotControlChart.chart_residuals :=
              select (zip_with sub y predictions) sort_index;
            PlotControlChart.chart_mrn := select mrn sort_index;
            PlotControlChart.chart_uid := select uid sort_index;
            PlotControlChart.chart_dates := select dates sort_index |}.
  apply (ex_intro2_and _ _ Hchart).
  cbn [PlotControlChart.chart_x PlotControlChart.chart_residuals
    PlotControlChart.chart_mrn PlotControlChart.chart_uid PlotControlChart.chart_dates]
    in Hlimits |- *.
  set (residuals := select (zip_with sub y predictions) sort_index) in *.
  assert (Hresiduals : length residuals = length y)
    by (apply Hrange; rewrite length_zip_with; lia).
  unfold PlotControlChart.update_adjusted_control_chart_with.
  rewrite Hlimits. cbn [mbind result_bind].
  rewrite !(mapM_pick _ _ _ _ _ _ (np_array_floats residuals)).
  cbn [mbind result_bind].
  apply Forall_cons in Hkeys as [Hplot Hkeys].
  rewrite (set_data_is_Some "adj_plot") by done. cbn [mbind result_bind].
  destruct (length y) as [|n] eqn:Hlen; [lia|].
  change (seq 1 (S n)) with (1 :: seq 2 n). cbn [fmap list_fmap].
  change (PyInt (Z.of_nat 1) :: (PyInt <$> (Z.of_nat <$> seq 2 n)))
    with (PyInt <$> 1%Z :: (Z.of_nat <$> seq 2 n)).
  edestruct (set_limit_sources_adj_ints 1 (Z.of_nat <$> seq 2 n))
    as (source' & Hreturn & Hlines & Hplot').
  { eapply Forall_impl; [exact Hkeys|]. intros key [d Hd]. cbn.
    destruct (decide (key = "adj_plot")) as [->|Hne].
    - rewrite lookup_insert_eq. by eexists.
    - rewrite lookup_insert_ne by done. by eexists. }
  exists source'. split; [exact Hreturn|]. split.
  - by rewrite foldl_min_seq, foldl_max_seq in Hlines.
  - apply Forall_forall. intros col Hcol. rewrite Hplot', column_set_data_eq.
    repeat (apply elem_of_cons in Hcol as [->|Hcol]);
      [..|by apply elem_of_nil in Hcol]; lookup_columns; eexists; (split; [done|]);
      rewrite ?length_fmap; cbn [length];
      rewrite ?length_fmap, ?length_seq, ?Hrange, ?Hresiduals, ?Hlen; try done;
      congruence.
Qed.

Lemma adjusted_chart_accepted_witness :
  ∃ chart source',
    PlotControlChart.get_adjusted_control_chart line_predict unordered_X unordered_y
      four_mrns four_uids unordered_dates
    = Return chart
    ∧ PlotControlChart.update_adjusted_control_chart_with
        PlotControlChart.get_control_limits default_options
        (PyInt <$> PlotControlChart.chart_x chart)
        (PyFloat <$> PlotControlChart.chart_residuals chart)
        (PlotControlChart.chart_mrn chart) (PlotControlChart.chart_uid chart)
        (PyDate <$> PlotControlChart.chart_dates chart) PlotControlChart.init_source
      = Return source'
    ∧ Forall (λ key, column source' key "x"
                     = Return [PyInt 1; PyInt (Z.of_nat (length unordered_y))])
             ["adj_center_line"; "adj_lcl_line"; "adj_ucl_line"]
    ∧ Forall (λ col, ∃ l, column source' "adj_plot" col = Return l
                          ∧ length l = length unordered_y)
             ["x"; "y"; "mrn"; "uid"; "color"; "alpha"; "dates"].
Proof.
  apply (adjusted_chart_accepted PlotControlChart.get_control_limits default_options
           line_predict unordered_X unordered_y
           [2; 4; 6; 8]%float four_mrns four_uids unordered_dates
           PlotControlChart.init_source); try reflexivity.
  - cbn. lia.
  - intros chart Hchart. vm_compute in Hchart. injection Hchart as <-.
    eexists. vm_compute. reflexivity.
  - repeat constructor; apply is_Some_alt; vm_compute; exact I.
Defined.

(** ** The export of a chart that was just drawn *)

Lemma select_lookup {A} (var : list A) (indices : list nat) (k i : nat) (a : A) :
  Forall (λ i, i < length var) indices →
  indices !! k = Some i → select var indices !! k = Some a → var !! i = Some a.
Proof.
  intros Hrange Hi Ha.
  rewrite (select_fmap_default _ _ a Hrange), list_lookup_fmap, Hi in Ha.
  cbn in Ha. injection Ha as Ha.
  rewrite Forall_forall in Hrange.
  destruct (lookup_lt_is_Some_2 var i) as [b Hb];
    [apply Hrange; by eapply list_elem_of_lookup_2|].
  rewrite Hb in Ha. cbn in Ha. by subst.
Qed.

(** X25: the CSV export of a control chart that [update_plot] has just drawn
    from lists of one length (the adjusted chart, wiped by the drawing,
    contributes no residual column): a title row and one row per study
    without ['None'] in x or y, in the order of the studies, whose five cells
    are the mrn, uid, study number, date and value of that study. *)
Theorem control_chart_csv_after_update_plot (str : pyval → string)
    (options : Options) (y_axis_label : string)
    (model_name : option (option string))
    (x y mrn uid dates resid : list pyval) (source source' : sources) (n : nat) :
  PlotControlChart.update_plot options x y mrn uid dates source = Return source' →
  length x = n → length y = n → length mrn = n → length uid = n → length dates = n →
  column source "adj_plot" "y" = Return resid →
  ∃ rows,
    PlotControlChart.csv_data str y_axis_label model_name source'
    = Return (("MRN,Study Instance UID,Study #,Date," +:+ y_axis_label +:+ "") :: rows)
    ∧ length rows = n - size (Plot.bad_indices [x; y])
    ∧ ∀ k i row,
        kept_indices (Plot.bad_indices [x; y]) n !! k = Some i →
        rows !! k = Some row →
        ∃ m u xv d yv,
          mrn !! i = Some m ∧ uid !! i = Some u ∧ x !! i = Some xv
          ∧ dates !! i = Some d ∧ y !! i = Some yv
          ∧ split_on ","%char row = csv_cell str <$> [m; u; xv; d; yv].
Proof.
  intros Hreturn Hx Hy Hmrn Huid Hdates Hadj.
  assert (Hresid : column source' "adj_plot" "y" = Return []).
  { rewrite (update_plot_other_sources _ _ _ _ _ _ _ _ "adj_plot" "y" Hreturn).
    - by rewrite Hadj.
    - unfold chart_keys. rewrite !elem_of_cons, elem_of_nil.
      intros [|[|[|[|[|]]]]]; done. }
  apply update_plot_Return in Hreturn
    as (x' & y' & mrn' & uid' & dates' & values & Hclean & Hvalues & Hcolumns).
  assert (Hbad : ∀ i, i ∈ Plot.bad_indices [x; y] → i < n).
  { intros i. apply bad_indices_lt. repeat constructor; done. }
  assert (Hne : mrn ≠ [] ∧ uid ≠ [] ∧ dates ≠ []).
  { rewrite clean_data_parts in Hclean.
    destruct mrn, uid, dates; cbn in Hclean; try discriminate; done. }
  destruct Hne as (Hmrn' & Huid' & Hdates').
  rewrite clean_data_chart in Hclean by done.
  injection Hclean as <- <- <- <- <-.
  rewrite Hx, Hy, Hmrn, Huid, Hdates in *.
  set (kept := kept_indices (Plot.bad_indices [x; y]) n) in *.
  assert (Hkept : ∀ var : list pyval, length var = n →
    Forall (λ i, i < length var) kept ∧ length (select var kept) = n - size (Plot.bad_indices [x; y])).
  { intros var Hvar. split.
    - rewrite Hvar. apply kept_indices_lt.
    - rewrite <- (select_kept_length _ var n) by done. by rewrite Hvar. }
  assert (Hlen : ∀ var var' : list pyval, length var = n → length var' = n →
    length (select var kept) ≤ length (select var' kept)).
  { intros var var' Hvar Hvar'.
    destruct (Hkept var Hvar) as [_ ->], (Hkept var' Hvar') as [_ ->]. done. }
  assert (Hc_mrn : column source' "plot" "mrn" = Return (select mrn kept))
    by (rewrite Hcolumns, column_set_data_eq; by lookup_columns).
  assert (Hc_uid : column source' "plot" "uid" = Return (select uid kept))
    by (rewrite Hcolumns, column_set_data_eq; by lookup_columns).
  assert (Hc_x : column source' "plot" "x" = Return (select x kept))
    by (rewrite Hcolumns, column_set_data_eq; by lookup_columns).
  assert (Hc_dates : column source' "plot" "dates" = Return (select dates kept))
    by (rewrite Hcolumns, column_set_data_eq; by lookup_columns).
  assert (Hc_y : column source' "plot" "y" = Return (select y kept))
    by (rewrite Hcolumns, column_set_data_eq; by lookup_columns).
  destruct (control_chart_csv_loop str y_axis_label model_name source'
              (select mrn kept) [] Hc_mrn Hresid None) as (data & Hplot & Hloop);
    [by left|].
  destruct (append_row_rows str source' (select mrn kept) (select uid kept)
              (select x kept) (select dates kept) (select y kept) []
              Hc_mrn Hc_uid Hc_x Hc_dates Hc_y Hresid
              (Hlen _ _ Hmrn Huid) (Hlen _ _ Hmrn Hx) (Hlen _ _ Hmrn Hdates)
              (Hlen _ _ Hmrn Hy) data (length (select mrn kept)) Hplot)
    as [rows Hrows]; [lia|by left|].
  exists rows. split; [|split].
  - rewrite Hloop.
    by apply (append_rows str (select mrn kept) (select uid kept)
                (select x kept) (select dates kept) (select y kept) [] data _ rows [_]).
  - apply Forall2_length in Hrows. rewrite length_seq in Hrows.
    rewrite <- Hrows. by apply Hkept.
  - intros k i row Hk Hrow.
    destruct (Forall2_lookup_r _ _ _ _ _ Hrows Hrow)
      as (j & Hj & m & u & xv & d & yv & Hm & Hu & Hxv & Hd & Hyv & _ & cells & Hcells & ->).
    apply lookup_seq in Hj as [-> _]. change (0 + k) with k in *.
    exists m, u, xv, d, yv.
    rewrite (select_lookup mrn kept k i m), (select_lookup uid kept k i u),
      (select_lookup x kept k i xv), (select_lookup dates kept k i d),
      (select_lookup y kept k i yv); try done; try (by apply Hkept).
    repeat (split; [done|]).
    cbn in Hcells. subst cells. cbn [foldl]. by apply split_on_cells.
Qed.


Lemma control_chart_csv_after_update_plot_witness :
  ∃ rows,
    PlotControlChart.csv_data str_stand_in "Dose" None constant_chart
    = Return (("MRN,Study Instance UID,Study #,Date," +:+ "Dose" +:+ "") :: rows)
    ∧ length rows = 4 - size (Plot.bad_indices [four_studies; constant_series])
    ∧ ∀ k i row,
        kept_indices (Plot.bad_indices [four_studies; constant_series]) 4 !! k = Some i →
        rows !! k = Some row →
        ∃ m u xv d yv,
          four_mrns !! i = Some m ∧ four_uids !! i = Some u
          ∧ four_studies !! i = Some xv ∧ four_dates !! i = Some d
          ∧ constant_series !! i = Some yv
          ∧ split_on ","%char row = csv_cell str_stand_in <$> [m; u; xv; d; yv].
Proof.
  apply (control_chart_csv_after_update_plot str_stand_in default_options "Dose" None
           four_studies constant_series four_mrns four_uids four_dates []
           PlotControlChart.init_source constant_chart 4);
    [exact constant_chart_returns|reflexivity..|vm_compute; reflexivity].
Defined.

(** ** The bars of the histogram *)

Lemma removelast_take {A} (l : list A) : removelast l = take (length l - 1) l.
Proof. rewrite removelast_firstn_len. f_equal. lia. Qed.

(** X26: when [np.histogram] hands back one count per bin and one edge more
    than bins, [update_histogram] returns and the bars are aligned: the [x],
    [top] and [width] columns have one entry per bin, and the i-th [x] is the
    midpoint of the i-th and the next edge. *)
Theorem histogram_bars_aligned
    (np_histogram : list pyval → Z → result (list float * list float))
    (bin_size : Z) (source : sources) (y : list pyval) (hist bins : list float) :
  column source "plot" "y" = Return y →
  np_histogram y bin_size = Return (hist, bins) →
  (0 < bin_size)%Z →
  length hist = Z.to_nat bin_size →
  length bins = S (Z.to_nat bin_size) →
  is_Some (source !! "hist") →
  ∃ source' center,
    PlotTimeSeries.update_histogram np_histogram bin_size source = Return source'
    ∧ column source' "hist" "x" = Return (PyFloat <$> center)
    ∧ column source' "hist" "top" = Return (PyFloat <$> hist)
    ∧ (∀ col l, column source' "hist" col = Return l → length l = Z.to_nat bin_size)
    ∧ (∀ i a b, bins !! i = Some a → bins !! S i = Some b →
                center !! i = Some ((a + b) / 2)%float).
Proof.
  intros Hy Hhist Hpos Hlen_hist Hlen_bins Hsource.
  destruct (getitem_lt bins 1) as (b1 & _ & Hb1); [lia|].
  destruct (getitem_lt bins 0) as (b0 & _ & Hb0); [lia|].
  set (center := zip_with (λ a b, (a + b) / 2)%float (removelast bins) (tail bins)).
  assert (Hcenter : length center = Z.to_nat bin_size).
  { unfold center. rewrite length_zip_with, removelast_take, length_take.
    destruct bins as [|b bins']; cbn in *; lia. }
  eexists _, center. split; [|split; [|split; [|split]]].
  - unfold PlotTimeSeries.update_histogram. rewrite Hy. cbn [mbind result_bind].
    rewrite Hhist. cbn [mbind result_bind]. rewrite Hb1. cbn [mbind result_bind].
    rewrite Hb0. cbn [mbind result_bind]. by apply set_data_is_Some.
  - rewrite column_set_data_eq. by lookup_columns.
  - rewrite column_set_data_eq. by lookup_columns.
  - intros col l. rewrite column_set_data_eq. lookup_columns; intros [= <-];
      rewrite ?length_fmap, ?length_replicate; done.
  - intros i a b Ha Hb. unfold center. apply lookup_zip_with_Some.
    exists a, b. split; [done|]. split; [|by rewrite lookup_tail].
    rewrite removelast_take, lookup_take_lt; [done|].
    apply lookup_lt_Some in Hb. lia.
Qed.

Lemma histogram_bars_aligned_witness :
  ∃ source' center,
    PlotTimeSeries.update_histogram histogram_of_no_points 10
      (clear_sources PlotTimeSeries.init_source) = Return source'
    ∧ column source' "hist" "x" = Return (PyFloat <$> center)
    ∧ column source' "hist" "top" = Return (PyFloat <$> replicate 10 0%float)
    ∧ (∀ col l, column source' "hist" col = Return l → length l = Z.to_nat 10)
    ∧ (∀ i a b,
         ((λ i, float_of_Z i / float_of_Z 10)%float <$> seqZ 0 11) !! i = Some a →
         ((λ i, float_of_Z i / float_of_Z 10)%float <$> seqZ 0 11) !! S i = Some b →
         center !! i = Some ((a + b) / 2)%float).
Proof.
  apply (histogram_bars_aligned histogram_of_no_points 10
           (clear_sources PlotTimeSeries.init_source) []
           (replicate 10 0%float)
           ((λ i, float_of_Z i / float_of_Z 10)%float <$> seqZ 0 11));
    try (vm_compute; reflexivity).
  apply is_Some_alt. vm_compute. exact I.
Defined.
